(** * payment_tracker: the payment generator and the task store, verified

    Shallow embedding of
    - [utils/paymentGenerator.js]: [findOrderById], [findProductByName],
      [findSupplierByName], [calculatePaymentTasks],
      [convertToBookingsFormat], [generatePaymentBookings];
    - [App.vue]: [addTask], [addInvoiceLink], [markAsPaid],
      [handleSmartGenerate], the computed property [paymentTasks];
    - [components/NewTaskForm.vue]: [handleSubmit];
    - [utils/dataImporter.js]: [fieldMappings], [defaultValues],
      [applyFieldMapping], [validateAndTransformData],
      [extractSuppliersFromProducts].

    Conventions of the embedding.
    - A JavaScript string is the list of its UTF-16 code units.
    - A JavaScript Number is an element of a [JSNumber] structure; the
      instance [binary64] is IEEE 754 double precision (the arithmetic the
      program runs on), the instance [exactQ] is exact rational arithmetic.
    - A [Date] is its time value: [Some t], [t] milliseconds since the epoch,
      or [None] for an invalid date (NaN).  The functions on time values are
      the ones of ECMAScript ([Day], [YearFromTime], [MakeDay], ...).
    - What the host provides is a field of the class [Host]: the local time
      zone adjustment, the parser behind [new Date(string)], the readings of
      the system clock.
    - A thrown exception is a value [Throw e]; computations that read the
      clock are functions of the number of readings taken so far.
    - The store [bookings] is passed in and handed back; objects are never
      shared between two bookings or two tasks, so a mutation in place is
      the replacement of one element.
    - A record of the importer is the list of its own properties in the
      order of their creation, its values are primitives; what it inherits
      from [Object.prototype] is the list [Object_prototype_keys].
    - The records carry the fields the program reads, with the types its
      documentation gives them (strings, numbers).  The diagnostics written
      with [console.warn] and [console.error], the flags of the dialogs and
      the reactivity of Vue are not part of the model. *)

From Stdlib Require Import String Ascii.
From Stdlib Require Import ZArith List Bool Lia Floats QArith.
From Stdlib Require Import DecimalPos Permutation Sorted.
Import ListNotations.

Local Open Scope Z_scope.

(** ** Strings *)

Module JSString.

Definition jsstring := list Z.

(** Code units of a source literal: the file is UTF-8, the run-time string
    UTF-16. *)
Fixpoint utf8_units (bs : list Z) : jsstring :=
  match bs with
  | [] => []
  | b0 :: r0 =>
      if b0 <? 128 then b0 :: utf8_units r0
      else if b0 <? 224 then
        match r0 with
        | b1 :: r1 => ((b0 - 192) * 64 + (b1 - 128)) :: utf8_units r1
        | [] => []
        end
      else if b0 <? 240 then
        match r0 with
        | b1 :: b2 :: r2 =>
            ((b0 - 224) * 4096 + (b1 - 128) * 64 + (b2 - 128)) :: utf8_units r2
        | _ => []
        end
      else
        match r0 with
        | b1 :: b2 :: b3 :: r3 =>
            let cp := (b0 - 240) * 262144 + (b1 - 128) * 4096
                      + (b2 - 128) * 64 + (b3 - 128) - 65536 in
            (55296 + cp / 1024) :: (56320 + cp mod 1024) :: utf8_units r3
        | _ => []
        end
  end.

Definition lit (s : string) : jsstring :=
  utf8_units (map (fun a => Z.of_N (N_of_ascii a)) (list_ascii_of_string s)).

(** [a === b] on strings. *)
Fixpoint eqb (a b : jsstring) : bool :=
  match a, b with
  | [], [] => true
  | x :: a', y :: b' => (x =? y) && eqb a' b'
  | _, _ => false
  end.

(** [s.startsWith(p)], returning what follows the prefix. *)
Fixpoint strip_prefix (p s : jsstring) : option jsstring :=
  match p, s with
  | [], _ => Some s
  | x :: p', y :: s' => if x =? y then strip_prefix p' s' else None
  | _ :: _, [] => None
  end.

(** [s.includes(needle)] *)
Fixpoint includes (needle s : jsstring) : bool :=
  match strip_prefix needle s with
  | Some _ => true
  | None => match s with
            | [] => false
            | _ :: s' => includes needle s'
            end
  end.

(** [\d] of a regular expression without the unicode flag: 0-9. *)
Definition is_digit (c : Z) : bool := (48 <=? c) && (c <=? 57).

Fixpoint span_digits (s : jsstring) : jsstring * jsstring :=
  match s with
  | c :: s' =>
      if is_digit c then let (ds, r) := span_digits s' in (c :: ds, r)
      else ([], s)
  | [] => ([], [])
  end.

Definition percent_sign : Z := 37.

(** The pattern [/<marker>(\d+)%/] tried at the start of [s].  [\d+] is
    greedy and what follows it must be [%], which is not a digit, so giving
    back digits never helps: the only candidate is the longest run. *)
Definition match_here (marker s : jsstring) : option jsstring :=
  match strip_prefix marker s with
  | Some rest =>
      match span_digits rest with
      | ((_ :: _) as ds, c :: _) => if c =? percent_sign then Some ds else None
      | _ => None
      end
  | None => None
  end.

(** [s.match(/<marker>(\d+)%/)]: the leftmost match; the result is the
    capture group [m[1]], [None] stands for [null]. *)
Fixpoint match_percent (marker s : jsstring) : option jsstring :=
  match match_here marker s with
  | Some ds => Some ds
  | None => match s with
            | [] => None
            | _ :: s' => match_percent marker s'
            end
  end.

(** White space and line terminators, as [String.prototype.trim] strips. *)
Definition is_space (c : Z) : bool :=
  ((9 <=? c) && (c <=? 13)) || (c =? 32) || (c =? 160) || (c =? 5760)
  || ((8192 <=? c) && (c <=? 8202)) || (c =? 8232) || (c =? 8233)
  || (c =? 8239) || (c =? 8287) || (c =? 12288) || (c =? 65279).

Fixpoint trim_start (s : jsstring) : jsstring :=
  match s with
  | c :: s' => if is_space c then trim_start s' else s
  | [] => []
  end.

Definition trim (s : jsstring) : jsstring :=
  rev (trim_start (rev (trim_start s))).

(** [s.split(sep)] for a separator of one code unit. *)
Fixpoint split (sep : Z) (s : jsstring) : list jsstring :=
  match s with
  | [] => [[]]
  | c :: s' =>
      if c =? sep then [] :: split sep s'
      else match split sep s' with
           | w :: ws => (c :: w) :: ws
           | [] => [[c]]
           end
  end.

Definition comma : Z := 44.

(** Decimal digits of a natural number, most significant first. *)
Fixpoint uint_units (d : Decimal.uint) : jsstring :=
  match d with
  | Decimal.Nil => []
  | Decimal.D0 d => 48 :: uint_units d
  | Decimal.D1 d => 49 :: uint_units d
  | Decimal.D2 d => 50 :: uint_units d
  | Decimal.D3 d => 51 :: uint_units d
  | Decimal.D4 d => 52 :: uint_units d
  | Decimal.D5 d => 53 :: uint_units d
  | Decimal.D6 d => 54 :: uint_units d
  | Decimal.D7 d => 55 :: uint_units d
  | Decimal.D8 d => 56 :: uint_units d
  | Decimal.D9 d => 57 :: uint_units d
  end.

Definition minus_sign : Z := 45.

(** [String(n)] for an integer [n] (below 10^21 in absolute value, where
    JavaScript prints all the digits). *)
Definition of_int (n : Z) : jsstring :=
  match n with
  | Z0 => [48]
  | Zpos p => uint_units (Pos.to_uint p)
  | Zneg p => minus_sign :: uint_units (Pos.to_uint p)
  end.

(** The integer a run of decimal digits denotes. *)
Definition digits_value (ds : jsstring) : Z :=
  fold_left (fun acc d => 10 * acc + (d - 48)) ds 0.

(** [String(n).padStart(w, "0")] for [n >= 0]. *)
Definition pad_int (w : nat) (n : Z) : jsstring :=
  let s := of_int n in repeat 48 (w - length s) ++ s.

End JSString.

Import JSString.

(** ** Numbers *)

(** The operations of JavaScript Numbers the program uses. *)
Class JSNumber (num : Type) : Type := {
  num_zero : num;
  num_add : num -> num -> num;
  num_mul : num -> num -> num;
  num_div : num -> num -> num;
  (** the Number for a mathematical integer *)
  num_of_Z : Z -> num;
  (** [ToBoolean]: false for 0, -0 and NaN *)
  num_truthy : num -> bool
}.

(** IEEE 754 binary64, round to nearest, ties to even. *)
#[export] Instance binary64 : JSNumber float := {
  num_zero := 0%float;
  num_add := PrimFloat.add;
  num_mul := PrimFloat.mul;
  num_div := PrimFloat.div;
  num_of_Z := fun z => SF2Prim (binary_normalize prec emax z 0 false);
  num_truthy := fun x => negb (PrimFloat.eqb x 0%float) && PrimFloat.eqb x x
}.


(** [parseInt(ds)] for a run of decimal digits [ds]: radix 10, no sign, no
    prefix; the result is the Number for the integer the digits denote
    (beyond 20 significant digits ECMAScript lets an implementation
    approximate; the model rounds the exact integer). *)
Definition parseInt {num} `{JSNumber num} (ds : jsstring) : num :=
  num_of_Z (digits_value ds).

(** ** Dates: the time value algorithms of ECMAScript *)

Module JSDate.

Definition msPerDay : Z := 86400000.

Definition Day (t : Z) : Z := t / msPerDay.
Definition TimeWithinDay (t : Z) : Z := t mod msPerDay.

Definition DayFromYear (y : Z) : Z :=
  365 * (y - 1970) + (y - 1969) / 4 - (y - 1901) / 100 + (y - 1601) / 400.

Definition DaysInYear (y : Z) : Z :=
  if negb (y mod 4 =? 0) then 365
  else if negb (y mod 100 =? 0) then 366
  else if negb (y mod 400 =? 0) then 365
  else 366.

(** The largest [y] with [DayFromYear y <= Day t], in closed form: count
    the days from 1 January of year 1 in cycles of 400, 100, 4 and 1 years
    ([YearFromTime_spec] below). *)
Definition YearFromDay (d : Z) : Z :=
  let n := d + 719162 in
  let n400 := n / 146097 in
  let r := n mod 146097 in
  let n100 := Z.min (r / 36524) 3 in
  let r2 := r - n100 * 36524 in
  let n4 := r2 / 1461 in
  let r3 := r2 mod 1461 in
  let n1 := Z.min (r3 / 365) 3 in
  400 * n400 + 100 * n100 + 4 * n4 + n1 + 1.

Definition YearFromTime (t : Z) : Z := YearFromDay (Day t).

Definition InLeapYear (t : Z) : Z :=
  if DaysInYear (YearFromTime t) =? 366 then 1 else 0.

Definition DayWithinYear (t : Z) : Z := Day t - DayFromYear (YearFromTime t).

Definition MonthFromTime (t : Z) : Z :=
  let d := DayWithinYear t in
  let l := InLeapYear t in
  if d <? 31 then 0
  else if d <? 59 + l then 1
  else if d <? 90 + l then 2
  else if d <? 120 + l then 3
  else if d <? 151 + l then 4
  else if d <? 181 + l then 5
  else if d <? 212 + l then 6
  else if d <? 243 + l then 7
  else if d <? 273 + l then 8
  else if d <? 304 + l then 9
  else if d <? 334 + l then 10
  else 11.

Definition DateFromTime (t : Z) : Z :=
  let d := DayWithinYear t in
  let l := InLeapYear t in
  match MonthFromTime t with
  | 0 => d + 1
  | 1 => d - 30
  | 2 => d - 58 - l
  | 3 => d - 89 - l
  | 4 => d - 119 - l
  | 5 => d - 150 - l
  | 6 => d - 180 - l
  | 7 => d - 211 - l
  | 8 => d - 242 - l
  | 9 => d - 272 - l
  | 10 => d - 303 - l
  | _ => d - 333 - l
  end.

Definition HourFromTime (t : Z) : Z := (t / 3600000) mod 24.
Definition MinFromTime (t : Z) : Z := (t / 60000) mod 60.
Definition SecFromTime (t : Z) : Z := (t / 1000) mod 60.
Definition msFromTime (t : Z) : Z := t mod 1000.

(** Days from 1 January to the first of month [mn] (0-11); [l] is 1 in a
    leap year. *)
Definition DaysBeforeMonth (mn l : Z) : Z :=
  match mn with
  | 0 => 0
  | 1 => 31
  | 2 => 59 + l
  | 3 => 90 + l
  | 4 => 120 + l
  | 5 => 151 + l
  | 6 => 181 + l
  | 7 => 212 + l
  | 8 => 243 + l
  | 9 => 273 + l
  | 10 => 304 + l
  | _ => 334 + l
  end.

(** [MakeDay(year, month, date)]: the day number of the first of the month,
    plus [date - 1]. *)
Definition MakeDay (year month date : Z) : Z :=
  let ym := year + month / 12 in
  let mn := month mod 12 in
  let l := if DaysInYear ym =? 366 then 1 else 0 in
  DayFromYear ym + DaysBeforeMonth mn l + date - 1.

Definition MakeDate (day time : Z) : Z := day * msPerDay + time.

Definition maxTime : Z := 8640000000000000.

(** [TimeClip]: a time value out of range is NaN. *)
Definition TimeClip (t : Z) : option Z :=
  if Z.abs t <=? maxTime then Some t else None.

Definition plus_sign : Z := 43.
Definition colon : Z := 58.
Definition dot : Z := 46.
Definition letter_T : Z := 84.
Definition letter_Z : Z := 90.

(** The year of the ISO format: four digits, or a sign and six digits
    outside 0..9999. *)
Definition iso_year (y : Z) : jsstring :=
  if (0 <=? y) && (y <=? 9999) then pad_int 4 y
  else if y <? 0 then minus_sign :: pad_int 6 (- y)
  else plus_sign :: pad_int 6 y.

Definition iso_date (t : Z) : jsstring :=
  iso_year (YearFromTime t) ++ [minus_sign] ++ pad_int 2 (MonthFromTime t + 1)
  ++ [minus_sign] ++ pad_int 2 (DateFromTime t).

Definition iso_time (t : Z) : jsstring :=
  pad_int 2 (HourFromTime t) ++ [colon] ++ pad_int 2 (MinFromTime t)
  ++ [colon] ++ pad_int 2 (SecFromTime t) ++ [dot] ++ pad_int 3 (msFromTime t).

(** The date part for a day number. *)
Definition iso_date_of_day (d : Z) : jsstring := iso_date (d * msPerDay).

(** The string [toISOString] builds for the time value [t], in UTC. *)
Definition iso_string (t : Z) : jsstring :=
  iso_date t ++ [letter_T] ++ iso_time t ++ [letter_Z].

End JSDate.

Import JSDate.

(** ** The records of the store *)

(** An order of [orders.json]. *)
Record Order : Type := {
  订单ID : jsstring;
  客户名称 : jsstring;
  订单名称 : jsstring;
  出发日期 : jsstring;
  关联的服务 : jsstring
}.

(** A product of [products.json]. *)
Record Product (num : Type) : Type := {
  服务名称 : jsstring;
  供应商名称 : jsstring;
  平日单价 : num;
  服务类型 : jsstring;
  付款方式 : jsstring
}.
Arguments 服务名称 {num} _.
Arguments 供应商名称 {num} _.
Arguments 平日单价 {num} _.
Arguments 服务类型 {num} _.
Arguments 付款方式 {num} _.

(** A supplier of [suppliers.json]. *)
Module Directory.
Record Supplier : Type := {
  供应商名称 : jsstring;
  供应商类型 : jsstring
}.
End Directory.
Abbreviation Supplier := Directory.Supplier.

(** What [calculatePaymentTasks] pushes. *)
Module Term.
Record Task (num : Type) : Type := {
  taskType : jsstring;
  description : jsstring;
  amountDue : num;
  dueDate : jsstring
}.
Arguments taskType {num} _.
Arguments description {num} _.
Arguments amountDue {num} _.
Arguments dueDate {num} _.
End Term.

(** A payment task of the store; [None] is [null] ([amountDue] is whatever
    the form held when the task comes from [addTask]). *)
Record PaymentTask (num : Type) : Type := {
  taskId : jsstring;
  taskType : jsstring;
  description : jsstring;
  amountDue : option num;
  dueDate : jsstring;
  paymentStatus : jsstring;
  actualPaymentDate : option jsstring;
  invoiceLink : option jsstring
}.
Arguments taskId {num} _.
Arguments taskType {num} _.
Arguments description {num} _.
Arguments amountDue {num} _.
Arguments dueDate {num} _.
Arguments paymentStatus {num} _.
Arguments actualPaymentDate {num} _.
Arguments invoiceLink {num} _.

Record CostItem (num : Type) : Type := {
  itemName : jsstring;
  amount : num;
  invoiceSource : jsstring
}.
Arguments itemName {num} _.
Arguments amount {num} _.
Arguments invoiceSource {num} _.

(** A booking of the store.  [costItems] and [totalAmount] are [None] on
    the bookings [addTask] creates, which have neither property. *)
Record Booking (num : Type) : Type := {
  bookingId : jsstring;
  supplierName : jsstring;
  supplierType : jsstring;
  relatedCustomerOrder : jsstring;
  bookingStatus : jsstring;
  costItems : option (list (CostItem num));
  totalAmount : option num;
  paymentTasks : list (PaymentTask num)
}.
Arguments bookingId {num} _.
Arguments supplierName {num} _.
Arguments supplierType {num} _.
Arguments relatedCustomerOrder {num} _.
Arguments bookingStatus {num} _.
Arguments costItems {num} _.
Arguments totalAmount {num} _.
Arguments paymentTasks {num} _.

(** The model of the form of [NewTaskForm.vue]; [amountDue] is [None] while
    the field is [null]. *)
Module Form.
Record TaskData (num : Type) : Type := {
  supplierName : jsstring;
  supplierType : jsstring;
  relatedCustomerOrder : jsstring;
  description : jsstring;
  amountDue : option num;
  dueDate : jsstring;
  taskType : jsstring
}.
Arguments supplierName {num} _.
Arguments supplierType {num} _.
Arguments relatedCustomerOrder {num} _.
Arguments description {num} _.
Arguments amountDue {num} _.
Arguments dueDate {num} _.
Arguments taskType {num} _.
End Form.

(** One basket of [supplierCosts]. *)
Record Basket (num : Type) : Type := {
  total : num;
  items : list (Product num)
}.
Arguments total {num} _.
Arguments items {num} _.

(** ** The host and the effects *)

(** What the program takes from its host. *)
Class Host : Type := {
  (** [LocalTZA(t, isUTC)]: the offset of local time, in milliseconds *)
  LocalTZA : Z -> bool -> Z;
  (** the time value [new Date(s)] parses from a string, before [TimeClip] *)
  Date_parse : jsstring -> option Z;
  (** the time value the system clock shows when it is read for the
      [k]-th time *)
  clock : nat -> Z
}.

Inductive JSError : Type := TypeError | RangeError.

(** How an evaluation completes. *)
Inductive completion (A : Type) : Type :=
| Return (a : A)
| Throw (e : JSError).
Arguments Return {A} a.
Arguments Throw {A} e.

Definition bindC {A B : Type} (c : completion A) (k : A -> completion B)
  : completion B :=
  match c with
  | Return a => k a
  | Throw e => Throw e
  end.

(** Computations that read the clock: the state is the number of readings
    taken so far. *)
Definition M (A : Type) : Type := nat -> completion A * nat.

Definition ret {A : Type} (a : A) : M A := fun k => (Return a, k).

Definition bind {A B : Type} (m : M A) (f : A -> M B) : M B :=
  fun k => match m k with
           | (Return a, k') => f a k'
           | (Throw e, k') => (Throw e, k')
           end.

Definition lift {A : Type} (c : completion A) : M A := fun k => (c, k).

Declare Scope js_scope.
Delimit Scope js_scope with js.
Notation "x <- m ;; f" := (bind m (fun x => f))
  (at level 61, m at next level, right associativity) : js_scope.
Notation "x <-- c ;; f" := (bindC c (fun x => f))
  (at level 61, c at next level, right associativity) : js_scope.

(** [xs.forEach((x, i) => ...)] collecting what each call yields; the
    index starts at [i]. *)
Fixpoint mapM_from {A B : Type} (f : nat -> A -> M B) (i : nat) (xs : list A)
  : M (list B) :=
  match xs with
  | [] => ret []
  | x :: xs' =>
      bind (f i x) (fun y =>
      bind (mapM_from f (S i) xs') (fun ys => ret (y :: ys)))
  end.

Fixpoint mapM {A B : Type} (f : A -> M B) (xs : list A) : M (list B) :=
  match xs with
  | [] => ret []
  | x :: xs' => bind (f x) (fun y => bind (mapM f xs') (fun ys => ret (y :: ys)))
  end.

(** A [for ... of] loop over [xs] threading an accumulator, stopped by the
    first exception. *)
Fixpoint foldC {A S : Type} (f : S -> A -> completion S) (s : S) (xs : list A)
  : completion S :=
  match xs with
  | [] => Return s
  | x :: xs' => bindC (f s x) (fun s' => foldC f s' xs')
  end.

Section Program.

Context `{Host} {num : Type} `{JSNumber num}.

Local Open Scope js_scope.

(** *** Dates on the host *)

(** [Date.now()] *)
Definition Date_now : M Z := fun k => (Return (clock k), S k).

(** [new Date()]: the time value is the reading of the clock. *)
Definition new_Date_now : M (option Z) :=
  fun k => (Return (Some (clock k)), S k).

(** [new Date(s)] for a string [s]. *)
Definition new_Date (s : jsstring) : option Z :=
  match Date_parse s with
  | Some t => TimeClip t
  | None => None
  end.

Definition LocalTime (t : Z) : Z := t + LocalTZA t true.
Definition UTC (t : Z) : Z := t - LocalTZA t false.

(** [d.getDate()]: the day of the month in local time, NaN on an invalid
    date. *)
Definition getDate (d : option Z) : option Z :=
  match d with
  | Some t => Some (DateFromTime (LocalTime t))
  | None => None
  end.

(** [d.setDate(dt)]: the new time value of [d]. *)
Definition setDate (d dt : option Z) : option Z :=
  match d, dt with
  | Some t, Some dt =>
      let t' := LocalTime t in
      let newDate :=
        MakeDate (MakeDay (YearFromTime t') (MonthFromTime t') dt)
                 (TimeWithinDay t') in
      TimeClip (UTC newDate)
  | _, _ => None
  end.

(** [d.toISOString()] throws a RangeError on an invalid date. *)
Definition toISOString (d : option Z) : completion jsstring :=
  match d with
  | Some t => Return (iso_string t)
  | None => Throw RangeError
  end.

(** [s.split('T')[0]] *)
Definition before_T (s : jsstring) : jsstring := hd [] (split letter_T s).

(** [x - k] on a Number that may be NaN. *)
Definition minus (x : option Z) (k : Z) : option Z :=
  match x with
  | Some v => Some (v - k)
  | None => None
  end.

(** *** paymentGenerator.js *)

Definition findOrderById (orderId0 : jsstring) (allOrders : list Order)
  : option Order :=
  find (fun order => eqb (订单ID order) orderId0) allOrders.

Definition findProductByName (serviceName0 : jsstring)
  (allProducts : list (Product num)) : option (Product num) :=
  find (fun product => eqb (服务名称 product) (trim serviceName0))
       allProducts.

Definition findSupplierByName (supplierName0 : jsstring)
  (allSuppliers : list Supplier) : option Supplier :=
  find (fun supplier => eqb (Directory.供应商名称 supplier) supplierName0) allSuppliers.

Definition deposit_marker : jsstring := lit "定金".
Definition final_marker : jsstring := lit "尾款".
Definition full_marker : jsstring := lit "全款".

Definition calculatePaymentTasks (paymentMethod0 : jsstring)
  (totalAmount0 : num) (dueDate0 : jsstring) : completion (list (Term.Task num)) :=
  let baseDate := new_Date dueDate0 in
  if includes deposit_marker paymentMethod0 && includes final_marker paymentMethod0
  then
    match match_percent deposit_marker paymentMethod0,
          match_percent final_marker paymentMethod0 with
    | Some depositMatch, Some finalMatch =>
        let depositPercent := num_div (parseInt depositMatch) (num_of_Z 100) in
        let finalPercent := num_div (parseInt finalMatch) (num_of_Z 100) in
        let depositDate := setDate baseDate (minus (getDate baseDate) 7) in
        depositIso <-- toISOString depositDate ;;
        let finalDate := setDate baseDate (minus (getDate baseDate) 1) in
        finalIso <-- toISOString finalDate ;;
        Return
          [ {| Term.taskType := lit "定金";
               Term.description := lit "预付" ++ depositMatch ++ lit "%款项";
               Term.amountDue := num_mul totalAmount0 depositPercent;
               Term.dueDate := before_T depositIso |};
            {| Term.taskType := lit "尾款";
               Term.description := lit "支付剩余" ++ finalMatch ++ lit "%款项";
               Term.amountDue := num_mul totalAmount0 finalPercent;
               Term.dueDate := before_T finalIso |} ]
    | _, _ => Return []
    end
  else if includes full_marker paymentMethod0 then
    let fullPaymentDate := setDate baseDate (minus (getDate baseDate) 3) in
    fullIso <-- toISOString fullPaymentDate ;;
    Return
      [ {| Term.taskType := lit "全款";
           Term.description := lit "一次性支付全款";
           Term.amountDue := totalAmount0;
           Term.dueDate := before_T fullIso |} ]
  else Return [].

(** The object [supplierCosts]: its own properties in the order they were
    created.  Reading a key it does not own finds the properties every
    object inherits from [Object.prototype]. *)
Definition Object_prototype_keys : list jsstring :=
  map lit
    [ "constructor"; "__defineGetter__"; "__defineSetter__"; "hasOwnProperty";
      "__lookupGetter__"; "__lookupSetter__"; "isPrototypeOf";
      "propertyIsEnumerable"; "toString"; "valueOf"; "__proto__";
      "toLocaleString" ]%string.

Definition inherited (key : jsstring) : bool :=
  existsb (eqb key) Object_prototype_keys.

Fixpoint own_get {V : Type} (key : jsstring) (o : list (jsstring * V))
  : option V :=
  match o with
  | [] => None
  | (k, v) :: o' => if eqb k key then Some v else own_get key o'
  end.

Fixpoint own_update {V : Type} (key : jsstring) (f : V -> V)
  (o : list (jsstring * V)) : list (jsstring * V) :=
  match o with
  | [] => []
  | (k, v) :: o' =>
      if eqb k key then (k, f v) :: o' else (k, v) :: own_update key f o'
  end.

(** An array index: the canonical decimal form of an integer below
    2^32 - 1. *)
Definition is_array_index (key : jsstring) : bool :=
  match key with
  | [] => false
  | c :: rest =>
      forallb is_digit key
      && (negb (c =? 48) || match rest with [] => true | _ => false end)
      && (digits_value key <=? 4294967294)
  end.

Fixpoint insert_by_index {V : Type} (e : jsstring * V)
  (es : list (jsstring * V)) : list (jsstring * V) :=
  match es with
  | [] => [e]
  | e' :: es' =>
      if digits_value (fst e) <=? digits_value (fst e') then e :: es
      else e' :: insert_by_index e es'
  end.

(** [Object.entries(o)]: the array indices in ascending order, then the
    other keys in the order of their creation. *)
Definition Object_entries {V : Type} (o : list (jsstring * V))
  : list (jsstring * V) :=
  fold_right insert_by_index [] (filter (fun e => is_array_index (fst e)) o)
  ++ filter (fun e => negb (is_array_index (fst e))) o.

(** [{ taskId: id, ...task, paymentStatus: 'Pending',
      actualPaymentDate: null, invoiceLink: null }] *)
Definition stamped (id : jsstring) (task : Term.Task num) : PaymentTask num :=
  {| taskId := id;
     taskType := Term.taskType task;
     description := Term.description task;
     amountDue := Some (Term.amountDue task);
     dueDate := Term.dueDate task;
     paymentStatus := lit "Pending";
     actualPaymentDate := None;
     invoiceLink := None |}.

(** The task the inner [forEach] pushes. *)
Definition stamp_task (index taskIndex : nat) (task : Term.Task num)
  : M (PaymentTask num) :=
  now <- Date_now ;;
  ret (stamped (lit "TASK-" ++ of_int now ++ lit "-"
                ++ of_int (Z.of_nat index) ++ lit "-"
                ++ of_int (Z.of_nat taskIndex))
               task).

(** The body of [data.items.forEach((product, index) => ...)]. *)
Definition item_tasks (orderInfo : Order) (index : nat) (product : Product num)
  : M (list (PaymentTask num)) :=
  tasks <- lift (calculatePaymentTasks (付款方式 product)
                   (平日单价 product) (出发日期 orderInfo)) ;;
  mapM_from (stamp_task index) 0 tasks.

(** The body of the loop over [Object.entries(supplierCosts)]. *)
Definition convert_entry (orderInfo : Order) (allSuppliers : list Supplier)
  (entry : jsstring * Basket num) : M (Booking num) :=
  let supplierName0 := fst entry in
  let data := snd entry in
  let supplierType0 :=
    match findSupplierByName supplierName0 allSuppliers with
    | Some supplier => Directory.供应商类型 supplier
    | None => lit "其他"
    end in
  pushed <- mapM_from (item_tasks orderInfo) 0 (items data) ;;
  let allPaymentTasks := concat pushed in
  now <- Date_now ;;
  ret {| bookingId := lit "BOOK-" ++ of_int now ++ lit "-" ++ supplierName0;
         supplierName := supplierName0;
         supplierType := supplierType0;
         relatedCustomerOrder := 订单名称 orderInfo;
         bookingStatus := lit "InProgress";
         costItems :=
           Some (map (fun item => {| itemName := 服务名称 item;
                                     amount := 平日单价 item;
                                     invoiceSource := supplierName0 |})
                     (items data));
         totalAmount := Some (total data);
         paymentTasks := allPaymentTasks |}.

Definition convertToBookingsFormat (supplierCosts : list (jsstring * Basket num))
  (orderInfo : Order) (allSuppliers : list Supplier) : M (list (Booking num)) :=
  mapM (convert_entry orderInfo allSuppliers) (Object_entries supplierCosts).

(** The body of [for (const name of serviceNames)]. *)
Definition collect_service (allProducts : list (Product num))
  (supplierCosts : list (jsstring * Basket num)) (name : jsstring)
  : completion (list (jsstring * Basket num)) :=
  match findProductByName name allProducts with
  | None => Return supplierCosts
  | Some product =>
      let supplierName0 := 供应商名称 product in
      let cost := 平日单价 product in
      match own_get supplierName0 supplierCosts with
      | Some _ =>
          Return (own_update supplierName0
                    (fun b => {| total := num_add (total b) cost;
                                 items := items b ++ [product] |})
                    supplierCosts)
      | None =>
          if inherited supplierName0 then
            (* the inherited value is truthy and has no [items] *)
            Throw TypeError
          else
            Return (supplierCosts
                    ++ [(supplierName0,
                         {| total := num_add num_zero cost;
                            items := [product] |})])
      end
  end.

Definition generatePaymentBookings (orderId0 : jsstring)
  (allOrders : list Order) (allProducts : list (Product num))
  (allSuppliers : list Supplier) : M (list (Booking num)) :=
  match findOrderById orderId0 allOrders with
  | None => ret []
  | Some currentOrder =>
      let serviceNames := split comma (关联的服务 currentOrder) in
      supplierCosts <- lift (foldC (collect_service allProducts) [] serviceNames) ;;
      convertToBookingsFormat supplierCosts currentOrder allSuppliers
  end.

(** *** App.vue *)

Definition set_paymentTasks (booking : Booking num)
  (tasks : list (PaymentTask num)) : Booking num :=
  {| bookingId := bookingId booking;
     supplierName := supplierName booking;
     supplierType := supplierType booking;
     relatedCustomerOrder := relatedCustomerOrder booking;
     bookingStatus := bookingStatus booking;
     costItems := costItems booking;
     totalAmount := totalAmount booking;
     paymentTasks := tasks |}.

(** [task.paymentStatus = 'Paid'; task.actualPaymentDate = date] *)
Definition set_paid (date : jsstring) (task : PaymentTask num) : PaymentTask num :=
  {| taskId := taskId task;
     taskType := taskType task;
     description := description task;
     amountDue := amountDue task;
     dueDate := dueDate task;
     paymentStatus := lit "Paid";
     actualPaymentDate := Some date;
     invoiceLink := invoiceLink task |}.

(** [task.invoiceLink = link] *)
Definition set_invoiceLink (link : jsstring) (task : PaymentTask num)
  : PaymentTask num :=
  {| taskId := taskId task;
     taskType := taskType task;
     description := description task;
     amountDue := amountDue task;
     dueDate := dueDate task;
     paymentStatus := paymentStatus task;
     actualPaymentDate := actualPaymentDate task;
     invoiceLink := Some link |}.

(** The array after the object [tasks.find(t => t.taskId === taskId)]
    returns has been mutated by [f]. *)
Fixpoint mutate_found (taskId0 : jsstring)
  (f : PaymentTask num -> PaymentTask num) (tasks : list (PaymentTask num))
  : list (PaymentTask num) :=
  match tasks with
  | [] => []
  | t :: ts =>
      if eqb (taskId t) taskId0 then f t :: ts
      else t :: mutate_found taskId0 f ts
  end.

Definition find_task (taskId0 : jsstring) (tasks : list (PaymentTask num))
  : option (PaymentTask num) :=
  find (fun t => eqb (taskId t) taskId0) tasks.

Fixpoint markAsPaid (taskId0 : jsstring) (bookings : list (Booking num))
  : M (list (Booking num)) :=
  match bookings with
  | [] => ret []
  | booking :: rest =>
      match find_task taskId0 (paymentTasks booking) with
      | Some _ =>
          today <- new_Date_now ;;
          iso <- lift (toISOString today) ;;
          ret (set_paymentTasks booking
                 (mutate_found taskId0 (set_paid (before_T iso))
                    (paymentTasks booking))
               :: rest)
      | None =>
          rest' <- markAsPaid taskId0 rest ;;
          ret (booking :: rest')
      end
  end.

Fixpoint addInvoiceLink_loop (link taskId0 : jsstring)
  (bookings : list (Booking num)) : list (Booking num) :=
  match bookings with
  | [] => []
  | booking :: rest =>
      match find_task taskId0 (paymentTasks booking) with
      | Some _ =>
          set_paymentTasks booking
            (mutate_found taskId0 (set_invoiceLink link) (paymentTasks booking))
          :: rest
      | None => booking :: addInvoiceLink_loop link taskId0 rest
      end
  end.

(** [addInvoiceLink(taskId)]; [prompted] is what [prompt] returns, [None]
    when the dialog is cancelled. *)
Definition addInvoiceLink (prompted : option jsstring) (taskId0 : jsstring)
  (bookings : list (Booking num)) : list (Booking num) :=
  match prompted with
  | Some ((_ :: _) as link) => addInvoiceLink_loop link taskId0 bookings
  | _ => bookings
  end.

(** The store after [booking.paymentTasks.push(newTask)] on the booking
    [bookings.find(b => b.supplierName === name)] returns. *)
Fixpoint push_task (name : jsstring) (newTask : PaymentTask num)
  (bookings : list (Booking num)) : list (Booking num) :=
  match bookings with
  | [] => []
  | b :: bs =>
      if eqb (supplierName b) name
      then set_paymentTasks b (paymentTasks b ++ [newTask]) :: bs
      else b :: push_task name newTask bs
  end.

Definition addTask (taskData : Form.TaskData num) (bookings : list (Booking num))
  : M (list (Booking num)) :=
  let newTask (now : Z) :=
    {| taskId := lit "TASK-" ++ of_int now;
       taskType := Form.taskType taskData;
       description := Form.description taskData;
       amountDue := Form.amountDue taskData;
       dueDate := Form.dueDate taskData;
       paymentStatus := lit "Pending";
       actualPaymentDate := None;
       invoiceLink := None |} in
  match find (fun b => eqb (supplierName b) (Form.supplierName taskData))
             bookings with
  | Some _ =>
      now <- Date_now ;;
      ret (push_task (Form.supplierName taskData) (newTask now) bookings)
  | None =>
      created <- Date_now ;;
      let booking :=
        {| bookingId := lit "BOOK-" ++ of_int created;
           supplierName := Form.supplierName taskData;
           supplierType := Form.supplierType taskData;
           relatedCustomerOrder := Form.relatedCustomerOrder taskData;
           bookingStatus := lit "InProgress";
           costItems := None;
           totalAmount := None;
           paymentTasks := [] |} in
      now <- Date_now ;;
      ret (bookings ++ [set_paymentTasks booking [newTask now]])
  end.

(** [handleSmartGenerate()] on the store. *)
Definition handleSmartGenerate (selectedOrderId : jsstring)
  (orders : list Order) (products : list (Product num))
  (suppliers : list Supplier) (bookings : list (Booking num))
  : M (list (Booking num)) :=
  match selectedOrderId with
  | [] => ret bookings
  | _ =>
      newBookings <- generatePaymentBookings selectedOrderId orders products
                       suppliers ;;
      match newBookings with
      | [] => ret bookings
      | _ => ret (bookings ++ newBookings)
      end
  end.

(** *** NewTaskForm.vue *)

(** What [handleSubmit] does: an alert, or the events [add-task] (with a
    copy of the form) and [close]. *)
Inductive Submitted : Type :=
| Alerted (message : jsstring)
| Emitted (payload : Form.TaskData num).

Definition truthy_amount (a : option num) : bool :=
  match a with
  | Some x => num_truthy x
  | None => false
  end.

Definition truthy_string (s : jsstring) : bool :=
  match s with
  | [] => false
  | _ => true
  end.

Definition handleSubmit (newTask : Form.TaskData num) : Submitted :=
  if negb (truthy_string (Form.supplierName newTask))
     || negb (truthy_amount (Form.amountDue newTask))
     || negb (truthy_string (Form.dueDate newTask))
  then Alerted (lit "请填写所有必填项！")
  else Emitted newTask.

(** The form in [App.vue]: [@add-task="addTask"]. *)
Definition submitNewTask (newTask : Form.TaskData num)
  (bookings : list (Booking num)) : M (list (Booking num)) :=
  match handleSubmit newTask with
  | Alerted _ => ret bookings
  | Emitted payload => addTask payload bookings
  end.


Definition resolve (allProducts : list (Product num)) (names : list jsstring)
  : list (Product num) :=
  flat_map (fun name => match findProductByName name allProducts with
                        | Some product => [product]
                        | None => []
                        end) names.

(** The identifiers in a store, in the order of the table. *)
Definition booking_ids (bookings : list (Booking num)) : list jsstring :=
  map bookingId bookings.

Definition task_ids (bookings : list (Booking num)) : list jsstring :=
  flat_map (fun b => map taskId (paymentTasks b)) bookings.

(** The place of the first task that carries an identifier: the index of
    its booking and its index in the tasks of the booking. *)
Fixpoint task_index (taskId0 : jsstring) (tasks : list (PaymentTask num))
  : option nat :=
  match tasks with
  | [] => None
  | t :: ts =>
      if eqb (taskId t) taskId0 then Some 0%nat
      else match task_index taskId0 ts with
           | Some j => Some (S j)
           | None => None
           end
  end.

Fixpoint first_match (taskId0 : jsstring) (bookings : list (Booking num))
  : option (nat * nat) :=
  match bookings with
  | [] => None
  | b :: bs =>
      match task_index taskId0 (paymentTasks b) with
      | Some j => Some (0%nat, j)
      | None => match first_match taskId0 bs with
                | Some (i, j) => Some (S i, j)
                | None => None
                end
      end
  end.

Definition task_at (i j : nat) (bookings : list (Booking num))
  : option (PaymentTask num) :=
  match nth_error bookings i with
  | Some b => nth_error (paymentTasks b) j
  | None => None
  end.

(** The fields of a booking other than its tasks. *)
Definition header (b : Booking num) : Booking num := set_paymentTasks b [].

(** [t'] is [t] but for the payment status and the payment date. *)
Definition same_but_payment (t t' : PaymentTask num) : Prop :=
  taskId t' = taskId t /\ taskType t' = taskType t
  /\ description t' = description t /\ amountDue t' = amountDue t
  /\ dueDate t' = dueDate t /\ invoiceLink t' = invoiceLink t.

(** [t'] is [t] but for the invoice link. *)
Definition same_but_invoice (t t' : PaymentTask num) : Prop :=
  taskId t' = taskId t /\ taskType t' = taskType t
  /\ description t' = description t /\ amountDue t' = amountDue t
  /\ dueDate t' = dueDate t /\ paymentStatus t' = paymentStatus t
  /\ actualPaymentDate t' = actualPaymentDate t.

(** The store in which the first task that carries the identifier has been
    mutated by [f]: what the loops of [markAsPaid] and [addInvoiceLink]
    do to the store. *)
Fixpoint update_first (taskId0 : jsstring)
  (f : PaymentTask num -> PaymentTask num) (bookings : list (Booking num))
  : list (Booking num) :=
  match bookings with
  | [] => []
  | booking :: rest =>
      match find_task taskId0 (paymentTasks booking) with
      | Some _ =>
          set_paymentTasks booking
            (mutate_found taskId0 f (paymentTasks booking)) :: rest
      | None => booking :: update_first taskId0 f rest
      end
  end.

(** *** The tasks the comments of [calculatePaymentTasks] announce

    定金：提前7天支付, 尾款：提前1天支付, 全款：提前3天支付; [t] is the time
    value of the reference date, [p] and [q] are the digits captured. *)

Definition deposit_task (totalAmount0 : num) (t : Z) (p : jsstring)
  : Term.Task num :=
  {| Term.taskType := lit "定金";
     Term.description := lit "预付" ++ p ++ lit "%款项";
     Term.amountDue :=
       num_mul totalAmount0 (num_div (num_of_Z (digits_value p)) (num_of_Z 100));
     Term.dueDate := iso_date_of_day (Day t - 7) |}.

Definition final_task (totalAmount0 : num) (t : Z) (q : jsstring)
  : Term.Task num :=
  {| Term.taskType := lit "尾款";
     Term.description := lit "支付剩余" ++ q ++ lit "%款项";
     Term.amountDue :=
       num_mul totalAmount0 (num_div (num_of_Z (digits_value q)) (num_of_Z 100));
     Term.dueDate := iso_date_of_day (Day t - 1) |}.


End Program.

(** ** A concrete host and a concrete catalog *)

Module Scenario.

Definition parse_field (s : jsstring) : option Z :=
  if forallb is_digit s then Some (digits_value s) else None.

(** A date parser that reads the date-only ISO form [YYYY-MM-DD], which
    denotes midnight UTC, and nothing else. *)
Definition parse_iso_date (s : jsstring) : option Z :=
  match split minus_sign s with
  | [y; m; d] =>
      if ((length y =? 4) && (length m =? 2) && (length d =? 2))%nat then
        match parse_field y, parse_field m, parse_field d with
        | Some y, Some m, Some d =>
            if (1 <=? m) && (m <=? 12) && (1 <=? d) && (d <=? 31)
            then Some (MakeDate (MakeDay y (m - 1) d) 0)
            else None
        | _, _, _ => None
        end
      else None
  | _ => None
  end.

(** China Standard Time, eight hours ahead of UTC all year; every reading
    of the clock falls in the same millisecond. *)
Definition beijing : Host :=
  {| LocalTZA := fun _ _ => 28800000;
     Date_parse := parse_iso_date;
     clock := fun _ => 1761998400123 |}.

(** The same zone with a clock that advances one millisecond per reading. *)
Definition beijing_ticking : Host :=
  {| LocalTZA := fun _ _ => 28800000;
     Date_parse := parse_iso_date;
     clock := fun k => 1761998400123 + Z.of_nat k |}.

(** The same zone with a clock that is read once a day. *)
Definition beijing_daily : Host :=
  {| LocalTZA := fun _ _ => 28800000;
     Date_parse := parse_iso_date;
     clock := fun k => 1761998400123 + Z.of_nat k * msPerDay |}.

(** [|x - y| <= eps] on Numbers. *)
Definition within (eps x y : float) : bool :=
  PrimFloat.leb (PrimFloat.abs (PrimFloat.sub x y)) eps.

(** Deposit plus final payment for the percentages [p] and [100 - p] of
    [A], as [calculatePaymentTasks] computes them. *)
Definition split_sum (A : float) (p : Z) : float :=
  num_add (num_mul A (num_div (num_of_Z p) (num_of_Z 100)))
          (num_mul A (num_div (num_of_Z (100 - p)) (num_of_Z 100))).

Definition product (name supplier : string) (price : float) (method : string)
  : Product float :=
  {| 服务名称 := lit name;
     供应商名称 := lit supplier;
     平日单价 := price;
     服务类型 := lit "服务";
     付款方式 := lit method |}.

Definition products : list (Product float) :=
  [ product "SvcA" "Acme" 1000 "定金30%+尾款70%";
    product "SvcB" "Acme" 500 "全款";
    product "SvcC" "Bolt" 800 "全款" ].

Definition order (id services date : string) : Order :=
  {| 订单ID := lit id;
     客户名称 := lit "客户";
     订单名称 := lit "桂林三日游";
     出发日期 := lit date;
     关联的服务 := lit services |}.

Definition orders : list Order :=
  [ order "O1" "SvcA,SvcB" "2025-11-10";
    order "O2" "SvcA,SvcC" "2025-11-10";
    order "O3" "SvcB" "待定" ].

Definition suppliers : list Supplier :=
  [ {| Directory.供应商名称 := lit "Acme"; Directory.供应商类型 := lit "地接社" |} ].

Definition pending (id : string) : PaymentTask float :=
  {| taskId := lit id;
     taskType := lit "全款";
     description := lit "一次性支付全款";
     amountDue := Some 500%float;
     dueDate := lit "2025-11-07";
     paymentStatus := lit "Pending";
     actualPaymentDate := None;
     invoiceLink := None |}.

Definition booking (id supplier : string) (tasks : list (PaymentTask float))
  : Booking float :=
  {| bookingId := lit id;
     supplierName := lit supplier;
     supplierType := lit "地接社";
     relatedCustomerOrder := lit "桂林三日游";
     bookingStatus := lit "InProgress";
     costItems := None;
     totalAmount := None;
     paymentTasks := tasks |}.

Definition store : list (Booking float) :=
  [ booking "B1" "Acme" [pending "T1"; pending "T2"];
    booking "B2" "Bolt" [pending "T3"; pending "T2"] ].

Definition form (supplier description date : string) (amount : option float)
  : Form.TaskData float :=
  {| Form.supplierName := lit supplier;
     Form.supplierType := lit "地接社";
     Form.relatedCustomerOrder := [];
     Form.description := lit description;
     Form.amountDue := amount;
     Form.dueDate := lit date;
     Form.taskType := lit "定金" |}.

End Scenario.

(** ** What the synthesizer yields, by supplier *)

Section Grouping.

Context `{Host} {num : Type} `{JSNumber num}.

(** The names of a list, each once, in the order of their first
    occurrence; [seen] holds the names met before. *)
Fixpoint distinct_from (seen names : list jsstring) : list jsstring :=
  match names with
  | [] => []
  | n :: ns =>
      if existsb (eqb n) seen then distinct_from seen ns
      else n :: distinct_from (n :: seen) ns
  end.

Definition first_seen (names : list jsstring) : list jsstring :=
  distinct_from [] names.

(** The products of a supplier among [ps], in the order of [ps]. *)
Definition products_of (s : jsstring) (ps : list (Product num))
  : list (Product num) :=
  filter (fun p => eqb (供应商名称 p) s) ps.

Definition sum_prices (ps : list (Product num)) : num :=
  fold_left num_add (map 平日单价 ps) num_zero.

Definition cost_item (s : jsstring) (p : Product num) : CostItem num :=
  {| itemName := 服务名称 p; amount := 平日单价 p; invoiceSource := s |}.

(** The identifiers [convertToBookingsFormat] builds. *)
Definition task_id (now : Z) (index taskIndex : nat) : jsstring :=
  lit "TASK-" ++ of_int now ++ lit "-" ++ of_int (Z.of_nat index) ++ lit "-"
  ++ of_int (Z.of_nat taskIndex).

Definition booking_id (now : Z) (name : jsstring) : jsstring :=
  lit "BOOK-" ++ of_int now ++ lit "-" ++ name.

(** A task as the synthesizer has just pushed it: Pending, not paid, no
    invoice, an amount that is a Number, and an identifier made of a reading
    of the clock and two indices. *)
Definition fresh_task (pt : PaymentTask num) : Prop :=
  paymentStatus pt = lit "Pending" /\ actualPaymentDate pt = None
  /\ invoiceLink pt = None /\ amountDue pt <> None
  /\ exists now index taskIndex, taskId pt = task_id now index taskIndex.

(** The basket of a supplier: his products among [ps] and the sum of their
    prices, added from zero in the order of [ps]. *)
Definition basket_of (ps : list (Product num)) (s : jsstring) : Basket num :=
  {| total := sum_prices (products_of s ps); items := products_of s ps |}.

(** An entry of [supplierCosts] after the products [ps] have been added. *)
Definition grow (ps : list (Product num)) (e : jsstring * Basket num)
  : jsstring * Basket num :=
  (fst e,
   {| total := fold_left num_add (map 平日单价 (products_of (fst e) ps))
                         (total (snd e));
      items := items (snd e) ++ products_of (fst e) ps |}).

(** The tasks of a product in an order; none when the expansion throws. *)
Definition expansion (orderInfo : Order) (p : Product num)
  : list (Term.Task num) :=
  match calculatePaymentTasks (付款方式 p) (平日单价 p) (出发日期 orderInfo) with
  | Return tasks => tasks
  | Throw _ => []
  end.

Definition expands (orderInfo : Order) (p : Product num) : Prop :=
  calculatePaymentTasks (付款方式 p) (平日单价 p) (出发日期 orderInfo)
  = Return (expansion orderInfo p).

(** The payment methods for which [calculatePaymentTasks] makes tasks:
    both markers of the split with their percentages, or else the marker
    of the full payment without both markers of the split. *)
Definition recognised (paymentMethod0 : jsstring) : bool :=
  if includes deposit_marker paymentMethod0 && includes final_marker paymentMethod0
  then match match_percent deposit_marker paymentMethod0,
             match_percent final_marker paymentMethod0 with
       | Some _, Some _ => true
       | _, _ => false
       end
  else includes full_marker paymentMethod0.

(** The type [convertToBookingsFormat] gives a supplier. *)
Definition directory_type (allSuppliers : list Supplier) (s : jsstring)
  : jsstring :=
  match findSupplierByName s allSuppliers with
  | Some supplier => Directory.供应商类型 supplier
  | None => lit "其他"
  end.

(** The booking [convertToBookingsFormat] makes of an entry of
    [supplierCosts], up to the readings of the clock in its identifiers. *)
Definition booking_of (orderInfo : Order) (allSuppliers : list Supplier)
  (e : jsstring * Basket num) (b : Booking num) : Prop :=
  (exists now, bookingId b = booking_id now (fst e))
  /\ supplierName b = fst e
  /\ supplierType b = directory_type allSuppliers (fst e)
  /\ relatedCustomerOrder b = 订单名称 orderInfo
  /\ bookingStatus b = lit "InProgress"
  /\ costItems b = Some (map (cost_item (fst e)) (items (snd e)))
  /\ totalAmount b = Some (total (snd e))
  /\ Forall2 (fun t pt => pt = stamped (taskId pt) t)
             (flat_map (expansion orderInfo) (items (snd e))) (paymentTasks b)
  /\ NoDup (map taskId (paymentTasks b))
  /\ Forall (fun pt => exists now i j, taskId pt = task_id now i j)
            (paymentTasks b).

End Grouping.

(** ** What the operations of the store keep *)

Section Keeping.

Context `{Host} {num : Type} `{JSNumber num}.

(** The task [addTask] makes of the form; [now] is the reading of the
    clock in its identifier. *)
Definition form_task (taskData : Form.TaskData num) (now : Z) : PaymentTask num :=
  {| taskId := lit "TASK-" ++ of_int now;
     taskType := Form.taskType taskData;
     description := Form.description taskData;
     amountDue := Form.amountDue taskData;
     dueDate := Form.dueDate taskData;
     paymentStatus := lit "Pending";
     actualPaymentDate := None;
     invoiceLink := None |}.

(** The booking [addTask] creates for a supplier that has none. *)
Definition form_booking (taskData : Form.TaskData num) (created now : Z)
  : Booking num :=
  {| bookingId := lit "BOOK-" ++ of_int created;
     supplierName := Form.supplierName taskData;
     supplierType := Form.supplierType taskData;
     relatedCustomerOrder := Form.relatedCustomerOrder taskData;
     bookingStatus := lit "InProgress";
     costItems := None;
     totalAmount := None;
     paymentTasks := [form_task taskData now] |}.

(** [t'] is [t] later: the same identifier, type, description, amount and
    due date; paid if [t] was paid; with an invoice link if [t] had one. *)
Definition keeps_task (t t' : PaymentTask num) : Prop :=
  taskId t' = taskId t /\ taskType t' = taskType t
  /\ description t' = description t /\ amountDue t' = amountDue t
  /\ dueDate t' = dueDate t
  /\ (paymentStatus t = lit "Paid" -> paymentStatus t' = lit "Paid")
  /\ (invoiceLink t <> None -> invoiceLink t' <> None).

(** [store'] is [store] later: the bookings of [store] come first in
    [store'], with the fields they had, and every task of [store] stands
    where it stood. *)
Definition keeps (store store' : list (Booking num)) : Prop :=
  (exists more, map header store' = map header store ++ more)
  /\ forall i j t, task_at i j store = Some t ->
                   exists t', task_at i j store' = Some t' /\ keeps_task t t'.

(** Two tasks that differ in their identifiers at most. *)
Definition same_but_id (t t' : PaymentTask num) : Prop :=
  taskType t' = taskType t /\ description t' = description t
  /\ amountDue t' = amountDue t /\ dueDate t' = dueDate t
  /\ paymentStatus t' = paymentStatus t
  /\ actualPaymentDate t' = actualPaymentDate t
  /\ invoiceLink t' = invoiceLink t.

End Keeping.

(** ** The table of App.vue *)

(** A row of the table:
    [{ ...task, supplierName, relatedCustomerOrder, supplierType }]. *)
Module Rows.
Record TaskRow (num : Type) : Type := {
  taskId : jsstring;
  taskType : jsstring;
  description : jsstring;
  amountDue : option num;
  dueDate : jsstring;
  paymentStatus : jsstring;
  actualPaymentDate : option jsstring;
  invoiceLink : option jsstring;
  supplierName : jsstring;
  relatedCustomerOrder : jsstring;
  supplierType : jsstring
}.
Arguments taskId {num} _.
Arguments taskType {num} _.
Arguments description {num} _.
Arguments amountDue {num} _.
Arguments dueDate {num} _.
Arguments paymentStatus {num} _.
Arguments actualPaymentDate {num} _.
Arguments invoiceLink {num} _.
Arguments supplierName {num} _.
Arguments relatedCustomerOrder {num} _.
Arguments supplierType {num} _.
End Rows.

(** [Array.prototype.sort(comparefn)].  Of what [comparefn] returns only
    the sign counts.  When [comparefn] is a consistent comparator for the
    elements, ECMAScript fixes the result: the elements in ascending order,
    those that compare equal in the order they had (the sort is stable);
    this is that result.  Otherwise the order is implementation-defined, and
    this is one such order. *)
Fixpoint sort_insert {A : Type} (comparefn : A -> A -> Z) (x : A) (l : list A)
  : list A :=
  match l with
  | [] => [x]
  | y :: l' =>
      if comparefn x y <=? 0 then x :: l else y :: sort_insert comparefn x l'
  end.

Definition Array_sort {A : Type} (comparefn : A -> A -> Z) (l : list A) : list A :=
  fold_right (sort_insert comparefn) [] l.

Module Table.

Section Table.

Context `{Host} {num : Type} `{JSNumber num}.

Definition row (booking : Booking num) (task : PaymentTask num)
  : Rows.TaskRow num :=
  {| Rows.taskId := taskId task;
     Rows.taskType := taskType task;
     Rows.description := description task;
     Rows.amountDue := amountDue task;
     Rows.dueDate := dueDate task;
     Rows.paymentStatus := paymentStatus task;
     Rows.actualPaymentDate := actualPaymentDate task;
     Rows.invoiceLink := invoiceLink task;
     Rows.supplierName := supplierName booking;
     Rows.relatedCustomerOrder := relatedCustomerOrder booking;
     Rows.supplierType := supplierType booking |}.

(** [filterStatus.value === 'All' || task.paymentStatus === filterStatus.value] *)
Definition shown (filterStatus : jsstring) (task : PaymentTask num) : bool :=
  eqb filterStatus (lit "All") || eqb (paymentStatus task) filterStatus.

(** The array [filteredTasks] after the two [forEach]. *)
Definition filteredTasks (filterStatus : jsstring) (bookings : list (Booking num))
  : list (Rows.TaskRow num) :=
  flat_map (fun booking =>
              map (row booking)
                  (filter (shown filterStatus) (paymentTasks booking)))
           bookings.

(** [new Date(a.dueDate) - new Date(b.dueDate)]; [None] is NaN. *)
Definition by_due_date (a b : Rows.TaskRow num) : option Z :=
  match new_Date (Rows.dueDate a), new_Date (Rows.dueDate b) with
  | Some x, Some y => Some (x - y)
  | _, _ => None
  end.

(** What the sort makes of it: NaN counts as [+0]. *)
Definition SortCompare (a b : Rows.TaskRow num) : Z :=
  match by_due_date a b with
  | Some v => v
  | None => 0
  end.

(** The computed property [paymentTasks]. *)
Definition paymentTasks (filterStatus : jsstring) (bookings : list (Booking num))
  : list (Rows.TaskRow num) :=
  Array_sort SortCompare (filteredTasks filterStatus bookings).

(** The rows the filter shows have due dates the host can read. *)
Definition dated (filterStatus : jsstring) (bookings : list (Booking num)) : Prop :=
  Forall (fun r => new_Date (Rows.dueDate r) <> None)
         (filteredTasks filterStatus bookings).

(** The row [a] is due no later than the row [b]. *)
Definition due_before (a b : Rows.TaskRow num) : Prop :=
  exists x y, new_Date (Rows.dueDate a) = Some x
              /\ new_Date (Rows.dueDate b) = Some y /\ x <= y.

(** The row is due at the instant [v]. *)
Definition due_on (v : Z) (r : Rows.TaskRow num) : bool :=
  match new_Date (Rows.dueDate r) with
  | Some x => x =? v
  | None => false
  end.

End Table.

End Table.

(** ** dataImporter.js *)

Module DataImporter.

(** The values of the fields of a record as PapaParse and
    [XLSX.utils.sheet_to_json] yield them: primitives. *)
Inductive JSValue (num : Type) : Type :=
| Undefined
| Null
| Bool (b : bool)
| Num (x : num)
| Str (s : jsstring).
Arguments Undefined {num}.
Arguments Null {num}.
Arguments Bool {num} b.
Arguments Num {num} x.
Arguments Str {num} s.

(** A record: its own properties in the order of their creation, each key
    once. *)
Definition Item (num : Type) : Type := list (jsstring * JSValue num).

(** What the importer takes from Numbers besides [JSNumber]. *)
Class Conversions (num : Type) : Type := {
  num_NaN : num;
  (** [StringToNumber] of ECMAScript *)
  StringToNumber : jsstring -> num;
  (** [SameValueZero] on Numbers *)
  num_same : num -> num -> bool
}.

(** What is thrown: [new Error(message)], or a native error. *)
Inductive Exception : Type :=
| Error (message : jsstring)
| Native (e : JSError).

Inductive outcome (A : Type) : Type :=
| Ok (a : A)
| Raise (e : Exception).
Arguments Ok {A} a.
Arguments Raise {A} e.

Fixpoint join (sep : jsstring) (l : list jsstring) : jsstring :=
  match l with
  | [] => []
  | [s] => s
  | s :: l' => s ++ sep ++ join sep l'
  end.

(** The three values of [fieldMappings]. *)
Definition products_mapping : list (jsstring * jsstring) :=
  [ (lit "服务项目名称", lit "服务名称");
    (lit "供应商名称", lit "供应商名称");
    (lit "平日单价", lit "平日单价");
    (lit "供应商类型", lit "服务类型");
    (lit "子项说明", lit "付款方式") ].

Definition suppliers_mapping : list (jsstring * jsstring) :=
  [ (lit "供应商名称", lit "供应商名称");
    (lit "供应商类型", lit "供应商类型");
    (lit "主要联系人", lit "联系人");
    (lit "联系电话", lit "联系电话") ].

Definition orders_mapping : list (jsstring * jsstring) :=
  [ (lit "订单ID", lit "订单ID");
    (lit "客户信息", lit "客户名称");
    (lit "订单名称", lit "订单名称");
    (lit "旅行日期", lit "出发日期");
    (lit "关联的服务", lit "关联的服务") ].

Definition fieldMappings (dataType : jsstring)
  : option (list (jsstring * jsstring)) :=
  if eqb dataType (lit "products") then Some products_mapping
  else if eqb dataType (lit "suppliers") then Some suppliers_mapping
  else if eqb dataType (lit "orders") then Some orders_mapping
  else None.

Definition requiredFields (dataType : jsstring) : option (list jsstring) :=
  if eqb dataType (lit "orders") then
    Some (map lit ["订单ID"; "客户名称"; "订单名称"; "出发日期"; "关联的服务"]%string)
  else if eqb dataType (lit "products") then
    Some (map lit ["服务名称"; "供应商名称"; "平日单价"; "服务类型"; "付款方式"]%string)
  else if eqb dataType (lit "suppliers") then
    Some (map lit ["供应商名称"; "供应商类型"]%string)
  else None.

Section Importer.

Context {num : Type} `{JSNumber num} `{Conversions num}.

(** [defaultValues[dataType] || {}] *)
Definition defaultValues (dataType : jsstring) : Item num :=
  if eqb dataType (lit "products") then
    [ (lit "付款方式", Str (lit "全款")); (lit "服务类型", Str (lit "其他")) ]
  else if eqb dataType (lit "suppliers") then
    [ (lit "供应商类型", Str (lit "其他")); (lit "联系人", Str (lit "未提供"));
      (lit "联系电话", Str (lit "未提供")) ]
  else if eqb dataType (lit "orders") then
    [ (lit "客户名称", Str (lit "未命名客户")); (lit "关联的服务", Str []) ]
  else [].

Definition ToBoolean (v : JSValue num) : bool :=
  match v with
  | Undefined | Null => false
  | Bool b => b
  | Num x => num_truthy x
  | Str [] => false
  | Str (_ :: _) => true
  end.

(** [Number(v)] *)
Definition ToNumber (v : JSValue num) : num :=
  match v with
  | Undefined => num_NaN
  | Null => num_zero
  | Bool true => num_of_Z 1
  | Bool false => num_zero
  | Num x => x
  | Str s => StringToNumber s
  end.

Definition SameValueZero (a b : JSValue num) : bool :=
  match a, b with
  | Undefined, Undefined => true
  | Null, Null => true
  | Bool x, Bool y => Bool.eqb x y
  | Num x, Num y => num_same x y
  | Str s, Str t => eqb s t
  | _, _ => false
  end.

(** [key in o], for an object whose prototype is [Object.prototype]. *)
Definition has {V : Type} (key : jsstring) (o : list (jsstring * V)) : bool :=
  match own_get key o with
  | Some _ => true
  | None => inherited key
  end.

(** [o[key]], for a key that is no property of [Object.prototype]. *)
Definition get (key : jsstring) (o : Item num) : JSValue num :=
  match own_get key o with
  | Some v => v
  | None => Undefined
  end.

(** The object after [o[key] = v], for such a key. *)
Definition set (key : jsstring) (v : JSValue num) (o : Item num) : Item num :=
  match own_get key o with
  | Some _ => own_update key (fun _ => v) o
  | None => o ++ [(key, v)]
  end.

(** The object has the field. *)
Definition owns (key : jsstring) (o : Item num) : bool :=
  match own_get key o with
  | Some _ => true
  | None => false
  end.

(** [o[a]] when the object has the field [a], else [o[b]]. *)
Definition field_or (a b : jsstring) (o : Item num) : JSValue num :=
  match own_get a o with
  | Some v => v
  | None => get b o
  end.

(** The body of [data.map(item => ...)] in [applyFieldMapping].  The
    source fields, the target fields and the fields with a default are
    those of the configuration, none of them a property of
    [Object.prototype]; the fields of the item are any. *)
Definition map_item (mapping : list (jsstring * jsstring))
  (defaults : Item num) (item : Item num) : Item num :=
  let mapped :=
    fold_left (fun mappedItem e =>
                 match own_get (fst e) item with
                 | Some v => set (snd e) v mappedItem
                 | None => mappedItem
                 end)
              (Object_entries mapping) [] in
  let kept :=
    fold_left (fun mappedItem e =>
                 if has (fst e) mapping then mappedItem
                 else set (fst e) (snd e) mappedItem)
              (Object_entries item) mapped in
  fold_left (fun mappedItem e =>
               if negb (ToBoolean (get (fst e) mappedItem))
               then set (fst e) (snd e) mappedItem
               else mappedItem)
            (Object_entries defaults) kept.

(** The first loop of [map_item], seen from the field [k]: the value the
    field has after the loop, [cur] being the value it had before. *)
Definition mapped_lookup (item : Item num) (k : jsstring)
  (mapping : list (jsstring * jsstring)) (cur : option (JSValue num))
  : option (JSValue num) :=
  fold_left (fun cur e =>
               match own_get (fst e) item with
               | Some v => if eqb (snd e) k then Some v else cur
               | None => cur
               end) mapping cur.

(** [applyFieldMapping(data, dataType)], for a [dataType] that is no
    property of [Object.prototype]. *)
Definition applyFieldMapping (data : list (Item num)) (dataType : jsstring)
  : list (Item num) :=
  match fieldMappings dataType with
  | None => data
  | Some mapping => map (map_item mapping (defaultValues dataType)) data
  end.

Definition newline : jsstring := [10].

(** [validateAndTransformData(data, dataType, autoMap)] on an array.  A
    [dataType] named like a property of [Object.prototype] finds that
    property in [requiredFields], which has no method [every]. *)
Definition validateAndTransformData (data : list (Item num))
  (dataType : jsstring) (autoMap : bool) : outcome (list (Item num)) :=
  match data with
  | [] => Raise (Error (lit "数据格式错误：必须是非空数组"))
  | _ :: _ =>
      match requiredFields dataType with
      | None =>
          if inherited dataType then Raise (Native TypeError)
          else Raise (Error (lit "未知的数据类型: " ++ dataType))
      | Some required =>
          let processedData :=
            if autoMap then applyFieldMapping data dataType else data in
          let actualFields :=
            match processedData with
            | first :: _ => map fst (Object_entries first)
            | [] => []
            end in
          let validData :=
            filter (fun item => forallb (fun field => has field item) required)
                   processedData in
          match validData with
          | [] =>
              Raise (Error (lit "没有有效的数据记录。" ++ newline
                            ++ lit "期望字段: " ++ join (lit ", ") required
                            ++ newline
                            ++ lit "实际字段: " ++ join (lit ", ") actualFields))
          | _ :: _ =>
              if eqb dataType (lit "products") then
                Ok (map (fun item =>
                           set (lit "平日单价")
                               (Num (ToNumber (get (lit "平日单价") item))) item)
                        validData)
              else Ok validData
          end
      end
  end.

(** [a || b] *)
Definition or_else (a b : JSValue num) : JSValue num :=
  if ToBoolean a then a else b.

(** The supplier [extractSuppliersFromProducts] makes of a product. *)
Definition supplier_of (product : Item num) : Item num :=
  [ (lit "供应商名称", get (lit "供应商名称") product);
    (lit "供应商类型",
     or_else (get (lit "服务类型") product)
             (or_else (get (lit "服务区域") product) (Str (lit "其他"))));
    (lit "联系人",
     or_else (get (lit "联系人姓名") product)
             (or_else (get (lit "联系人") product) (Str (lit "未提供"))));
    (lit "联系电话",
     or_else (get (lit "联系方式") product)
             (or_else (get (lit "联系电话") product) (Str (lit "未提供")))) ].

(** [suppliersMap.has(key)] on the entries of the [Map], in the order of
    their insertion. *)
Definition Map_has {V : Type} (key : JSValue num) (m : list (JSValue num * V))
  : bool :=
  existsb (fun e => SameValueZero (fst e) key) m.

(** The body of [products.forEach(product => ...)]. *)
Definition add_supplier (suppliersMap : list (JSValue num * Item num))
  (product : Item num) : list (JSValue num * Item num) :=
  let supplierName0 := get (lit "供应商名称") product in
  if ToBoolean supplierName0 && negb (Map_has supplierName0 suppliersMap)
  then suppliersMap ++ [(supplierName0, supplier_of product)]
  else suppliersMap.

Definition extractSuppliersFromProducts (products : list (Item num))
  : list (Item num) :=
  map snd (fold_left add_supplier products []).

End Importer.

End DataImporter.

(** ** A concrete sheet *)

Module Sheet.

Import DataImporter.

(** A conversion that agrees with [StringToNumber] on the strings the
    sheet holds: a run of decimal digits is the integer it denotes, the
    empty string is 0. *)
Definition digits_to_number (s : jsstring) : float :=
  match s with
  | [] => 0%float
  | _ :: _ => if forallb is_digit s then num_of_Z (digits_value s) else nan
  end.

#[global] Instance conversions : Conversions float := {
  num_NaN := nan;
  StringToNumber := digits_to_number;
  num_same := fun x y =>
    PrimFloat.eqb x y || (negb (PrimFloat.eqb x x) && negb (PrimFloat.eqb y y))
}.

Definition text (key value : string) : jsstring * JSValue float :=
  (lit key, Str (lit value)).

Definition product_rows : list (Item float) :=
  [ [ text "服务项目名称" "SvcA"; text "供应商名称" "Acme";
      text "平日单价" "1000"; text "子项说明" "定金30%+尾款70%";
      text "备注" "含门票" ];
    [ text "服务名称" "SvcB"; text "供应商名称" "Acme";
      (lit "平日单价", Num 500%float) ];
    [ text "服务项目名称" "SvcX"; text "供应商名称" "Bolt" ] ].

Definition supplier_rows : list (Item float) :=
  [ [ text "供应商名称" "Acme"; text "主要联系人" "李经理" ];
    [ text "供应商类型" "酒店" ] ].

Definition order_rows : list (Item float) :=
  [ [ text "订单ID" "O1"; text "订单名称" "桂林三日游";
      text "旅行日期" "2025-11-10"; text "关联的服务" "SvcA,SvcB" ];
    [ text "订单ID" "O2"; text "订单名称" "阳朔一日游" ] ].

End Sheet.

(** * Facts *)

(** ** Strings *)

Module JSStringFacts.

Lemma eqb_eq (a b : jsstring) : eqb a b = true <-> a = b.
Proof.
  revert b; induction a as [|x a IH]; intros [|y b]; simpl;
    try (split; [discriminate | discriminate]); try tauto.
  rewrite andb_true_iff, Z.eqb_eq, IH. split.
  - intros [-> ->]; reflexivity.
  - intros E; injection E; auto.
Qed.

Lemma eqb_refl (a : jsstring) : eqb a a = true.
Proof. apply eqb_eq; reflexivity. Qed.

Lemma eqb_neq (a b : jsstring) : eqb a b = false <-> a <> b.
Proof.
  rewrite <- eqb_eq. destruct (eqb a b); split; congruence.
Qed.

Lemma strip_prefix_spec (p s r : jsstring) :
  strip_prefix p s = Some r <-> s = p ++ r.
Proof.
  revert s; induction p as [|x p IH]; intros s; simpl.
  - split; [intros E; injection E; auto | intros ->; reflexivity].
  - destruct s as [|y s]; [split; discriminate|].
    destruct (Z.eqb_spec x y) as [->|N].
    + rewrite IH. split; [intros ->; reflexivity | intros E; injection E; auto].
    + split; [discriminate | intros E; injection E; intros; congruence].
Qed.



(** A run of digits followed by a percent sign is spanned entirely. *)
Lemma span_digits_run (ds post : jsstring) :
  forallb is_digit ds = true ->
  span_digits (ds ++ percent_sign :: post) = (ds, percent_sign :: post).
Proof.
  induction ds as [|d ds IH]; simpl; [reflexivity|].
  rewrite andb_true_iff; intros [D F]. rewrite D, (IH F); reflexivity.
Qed.


Lemma match_here_complete (marker ds post : jsstring) :
  ds <> [] -> forallb is_digit ds = true ->
  match_here marker (marker ++ ds ++ percent_sign :: post) = Some ds.
Proof.
  intros N F. unfold match_here.
  assert (P : strip_prefix marker (marker ++ ds ++ percent_sign :: post)
              = Some (ds ++ percent_sign :: post))
    by (apply strip_prefix_spec; reflexivity).
  rewrite P, (span_digits_run _ _ F).
  destruct ds; [congruence|]. reflexivity.
Qed.


(** Wherever the marker stands before digits and a percent sign, the
    pattern matches (at that place or to its left). *)
Lemma match_percent_complete (marker pre ds post : jsstring) :
  ds <> [] -> forallb is_digit ds = true ->
  exists ds', match_percent marker (pre ++ marker ++ ds ++ percent_sign :: post)
              = Some ds'.
Proof.
  intros N F. induction pre as [|c pre IH].
  - simpl app. pose proof (match_here_complete marker ds post N F) as E.
    destruct (marker ++ ds ++ percent_sign :: post) eqn:S;
      simpl; rewrite E; eauto.
  - simpl app. simpl.
    destruct (match_here marker (c :: pre ++ marker ++ ds ++ percent_sign :: post));
      eauto.
Qed.


(** Splitting at the first separator. *)
Lemma split_app (sep : Z) (a b : jsstring) :
  Forall (fun c => c <> sep) a ->
  split sep (a ++ sep :: b) = a :: split sep b.
Proof.
  induction 1 as [|c a Hc Ha IH]; simpl.
  - rewrite Z.eqb_refl; reflexivity.
  - destruct (Z.eqb_spec c sep); [contradiction|]. rewrite IH; reflexivity.
Qed.

Lemma uint_units_digits (d : Decimal.uint) :
  Forall (fun c => 48 <= c <= 57) (uint_units d).
Proof. induction d; simpl; constructor; auto; lia. Qed.

Lemma pad_int_digits (w : nat) (n : Z) :
  0 <= n -> Forall (fun c => 48 <= c <= 57) (pad_int w n).
Proof.
  intros Hn. unfold pad_int. apply Forall_app; split.
  - apply Forall_forall. intros c Hc. apply repeat_spec in Hc. lia.
  - destruct n; simpl; try lia.
    + repeat constructor; lia.
    + apply uint_units_digits.
Qed.

End JSStringFacts.

Import JSStringFacts.

Example lit_deposit : lit "定金" = [23450; 37329].
Proof. reflexivity. Qed.

Example lit_method :
  lit "定金30%+尾款70%" = [23450; 37329; 51; 48; 37; 43; 23614; 27454; 55; 48; 37].
Proof. reflexivity. Qed.

Example match_percent_ex :
  match_percent (lit "尾款") (lit "定金30%+尾款70%") = Some (lit "70").
Proof. reflexivity. Qed.

Example split_ex :
  split comma (lit "SvcA, SvcB,") = [lit "SvcA"; lit " SvcB"; []].
Proof. reflexivity. Qed.

Example of_int_ex : of_int 1761998400123 = lit "1761998400123".
Proof. reflexivity. Qed.

Example parseInt_30 : parseInt (lit "30") = 30%float.
Proof. reflexivity. Qed.

Example parseInt_rounds :
  parseInt (lit "9007199254740993") = 9007199254740992%float.
Proof. reflexivity. Qed.

Example parseInt_overflows :
  parseInt (repeat 57 400) = infinity.
Proof. vm_compute. reflexivity. Qed.

(** ** Dates *)

Module JSDateFacts.



Lemma TimeWithinDay_shift (t k : Z) :
  TimeWithinDay (t + k * msPerDay) = TimeWithinDay t.
Proof. unfold TimeWithinDay, msPerDay. apply Z.mod_add. lia. Qed.

Lemma Day_of_day (d : Z) : Day (d * msPerDay) = d.
Proof. unfold Day, msPerDay. apply Z.div_mul. lia. Qed.

(** [YearFromDay] is the year ECMAScript defines: the largest [y] whose
    first day is not after [d]. *)
Lemma YearFromDay_spec (d : Z) :
  DayFromYear (YearFromDay d) <= d < DayFromYear (YearFromDay d + 1).
Proof.
  unfold YearFromDay, DayFromYear.
  set (n := d + 719162).
  pose proof (Z.div_mod n 146097 ltac:(lia)) as E1.
  pose proof (Z.mod_pos_bound n 146097 ltac:(lia)) as B1.
  set (r := n mod 146097) in *. set (n400 := n / 146097) in *.
  pose proof (Z.div_mod r 36524 ltac:(lia)) as E2.
  pose proof (Z.mod_pos_bound r 36524 ltac:(lia)) as B2.
  set (c := Z.min (r / 36524) 3).
  assert (Hc : 0 <= c <= 3 /\ (c = r / 36524 \/ (c = 3 /\ r / 36524 = 4))).
  { unfold c. assert (0 <= r / 36524 <= 4) by (split; [apply Z.div_pos; lia | apply Z.div_le_upper_bound; lia]). lia. }
  set (r2 := r - c * 36524).
  assert (Hr2 : 0 <= r2 <= 36524 /\ (c < 3 -> r2 < 36524)) by (unfold r2; lia).
  pose proof (Z.div_mod r2 1461 ltac:(lia)) as E3.
  pose proof (Z.mod_pos_bound r2 1461 ltac:(lia)) as B3.
  set (n4 := r2 / 1461) in *. set (r3 := r2 mod 1461) in *.
  assert (Hn4 : 0 <= n4 < 25) by (subst n4; split; [apply Z.div_pos; lia | apply Z.div_lt_upper_bound; lia]).
  pose proof (Z.div_mod r3 365 ltac:(lia)) as E4.
  pose proof (Z.mod_pos_bound r3 365 ltac:(lia)) as B4.
  set (e := Z.min (r3 / 365) 3).
  assert (He : 0 <= e <= 3 /\ (e = r3 / 365 \/ (e = 3 /\ r3 / 365 = 4))).
  { unfold e. assert (0 <= r3 / 365 <= 4) by (split; [apply Z.div_pos; lia | apply Z.div_le_upper_bound; lia]). lia. }
  set (y := 400 * n400 + 100 * c + 4 * n4 + e + 1).
  assert (Q4 : (y - 1969) / 4 = 100 * n400 + 25 * c + n4 - 492).
  { symmetry; apply Z.div_unique with (r := e); unfold y; lia. }
  assert (Q100 : (y - 1901) / 100 = 4 * n400 + c - 19).
  { symmetry; apply Z.div_unique with (r := 4 * n4 + e); unfold y; lia. }
  assert (Q400 : (y - 1601) / 400 = n400 - 4).
  { symmetry; apply Z.div_unique with (r := 100 * c + 4 * n4 + e); unfold y; lia. }
  assert (Q4' : (y + 1 - 1969) / 4 = 100 * n400 + 25 * c + n4 - 492 + (if e =? 3 then 1 else 0)).
  { destruct (Z.eqb_spec e 3);
      [ symmetry; apply Z.div_unique with (r := 0); unfold y; lia
      | symmetry; apply Z.div_unique with (r := e + 1); unfold y; lia ]. }
  assert (Q100' : (y + 1 - 1901) / 100 = 4 * n400 + c - 19 + (if (n4 =? 24) && (e =? 3) then 1 else 0)).
  { destruct (Z.eqb_spec n4 24); destruct (Z.eqb_spec e 3); cbn [andb];
      [ symmetry; apply Z.div_unique with (r := 0); unfold y; lia
      | symmetry; apply Z.div_unique with (r := 4 * n4 + e + 1); unfold y; lia .. ]. }
  assert (Q400' : (y + 1 - 1601) / 400 = n400 - 4 + (if (c =? 3) && (n4 =? 24) && (e =? 3) then 1 else 0)).
  { destruct (Z.eqb_spec c 3); destruct (Z.eqb_spec n4 24); destruct (Z.eqb_spec e 3); cbn [andb];
      [ symmetry; apply Z.div_unique with (r := 0); unfold y; lia
      | symmetry; apply Z.div_unique with (r := 100 * c + 4 * n4 + e + 1); unfold y; lia .. ]. }
  rewrite Q4, Q100, Q400, Q4', Q100', Q400'.
  destruct (Z.eqb_spec c 3); destruct (Z.eqb_spec n4 24); destruct (Z.eqb_spec e 3); cbn [andb];
    unfold y, r2 in *; lia.
Qed.

Lemma DayFromYear_step (y : Z) : DayFromYear (y + 1) = DayFromYear y + DaysInYear y.
Proof.
  unfold DayFromYear, DaysInYear.
  destruct (Z.eqb_spec (y mod 4) 0); cbn [negb];
    [destruct (Z.eqb_spec (y mod 100) 0); cbn [negb];
       [destruct (Z.eqb_spec (y mod 400) 0); cbn [negb]|]|];
    Z.to_euclidean_division_equations; lia.
Qed.

Lemma DayFromYear_mono (y y' : Z) : y <= y' -> DayFromYear y <= DayFromYear y'.
Proof.
  intros L. replace y' with (y + Z.of_nat (Z.to_nat (y' - y))) by lia.
  induction (Z.to_nat (y' - y)) as [|k IH]; [replace (y + Z.of_nat 0) with y by lia; lia|].
  replace (y + Z.of_nat (S k)) with (y + Z.of_nat k + 1) by lia.
  rewrite DayFromYear_step. unfold DaysInYear.
  repeat match goal with |- context [if ?c then _ else _] => destruct c end; lia.
Qed.

(** The year of ECMAScript is unique: [YearFromDay d] is the only [y] with
    [DayFromYear y <= d < DayFromYear (y + 1)]. *)
Lemma YearFromDay_unique (d y : Z) :
  DayFromYear y <= d < DayFromYear (y + 1) -> YearFromDay d = y.
Proof.
  intros B. pose proof (YearFromDay_spec d) as S.
  destruct (Z.lt_trichotomy (YearFromDay d) y) as [L|[E|L]]; [|exact E|].
  - pose proof (DayFromYear_mono (YearFromDay d + 1) y ltac:(lia)). lia.
  - pose proof (DayFromYear_mono (y + 1) (YearFromDay d) ltac:(lia)). lia.
Qed.

Lemma DayWithinYear_range (t : Z) :
  0 <= DayWithinYear t < DaysInYear (YearFromTime t).
Proof.
  unfold DayWithinYear, YearFromTime.
  pose proof (YearFromDay_spec (Day t)) as S.
  rewrite DayFromYear_step in S. lia.
Qed.



(** The day of the month lies inside the month. *)
Lemma DateFromTime_range (t : Z) : 1 <= DateFromTime t <= 31.
Proof.
  pose proof (DayWithinYear_range t) as R.
  assert (L : InLeapYear t = DaysInYear (YearFromTime t) - 365 /\ 0 <= InLeapYear t <= 1).
  { assert (D : DaysInYear (YearFromTime t) = 365 \/ DaysInYear (YearFromTime t) = 366).
    { unfold DaysInYear.
      repeat match goal with |- context [if ?c then _ else _] => destruct c end; lia. }
    unfold InLeapYear. destruct D as [-> | ->]; cbn; lia. }
  revert R L. unfold DateFromTime, MonthFromTime.
  generalize (DayWithinYear t) (InLeapYear t) (DaysInYear (YearFromTime t)).
  intros d l n R L.
  repeat match goal with
         | |- context [if ?a <? ?b then _ else _] => destruct (Z.ltb_spec a b)
         end; cbv beta iota; lia.
Qed.


(** [MakeDay] is what ECMAScript asks for: the time value of the day it
    yields for the first of a month has that year, that month and day 1. *)
Lemma MakeDay_finds (y m : Z) :
  0 <= m <= 11 ->
  let t := MakeDay y m 1 * msPerDay in
  YearFromTime t = y /\ MonthFromTime t = m /\ DateFromTime t = 1.
Proof.
  intros R t.
  assert (D : DaysInYear y = 365 \/ DaysInYear y = 366).
  { unfold DaysInYear.
    repeat match goal with |- context [if ?c then _ else _] => destruct c end; lia. }
  assert (Ed : Day t = DayFromYear y
                       + DaysBeforeMonth m (if DaysInYear y =? 366 then 1 else 0)).
  { unfold t. rewrite Day_of_day. unfold MakeDay.
    rewrite (Z.div_small m 12), (Z.mod_small m 12), Z.add_0_r by lia. lia. }
  assert (Ey : YearFromTime t = y).
  { unfold YearFromTime. apply YearFromDay_unique. rewrite Ed, DayFromYear_step.
    assert (m = 0 \/ m = 1 \/ m = 2 \/ m = 3 \/ m = 4 \/ m = 5 \/ m = 6 \/ m = 7
            \/ m = 8 \/ m = 9 \/ m = 10 \/ m = 11) as M by lia.
    destruct D as [E|E]; rewrite E; cbn [Z.eqb Pos.eqb];
      repeat (destruct M as [->|M]); try subst m; cbn [DaysBeforeMonth]; lia. }
  assert (Ew : DayWithinYear t
               = DaysBeforeMonth m (if DaysInYear y =? 366 then 1 else 0))
    by (unfold DayWithinYear; rewrite Ey, Ed; lia).
  assert (El : InLeapYear t = if DaysInYear y =? 366 then 1 else 0)
    by (unfold InLeapYear; rewrite Ey; reflexivity).
  split; [exact Ey|].
  unfold DateFromTime, MonthFromTime. rewrite Ew, El.
  assert (m = 0 \/ m = 1 \/ m = 2 \/ m = 3 \/ m = 4 \/ m = 5 \/ m = 6 \/ m = 7
          \/ m = 8 \/ m = 9 \/ m = 10 \/ m = 11) as M by lia.
  destruct D as [E|E]; rewrite E; cbn [Z.eqb Pos.eqb];
    repeat (destruct M as [->|M]); try subst m; vm_compute; auto.
Qed.


Lemma pad_int_no_T (w : nat) (n : Z) :
  Forall (fun c => c <> letter_T) (pad_int w n).
Proof.
  unfold pad_int, letter_T. apply Forall_app; split.
  - apply Forall_forall. intros c Hc. apply repeat_spec in Hc. lia.
  - destruct n; simpl.
    + repeat constructor; lia.
    + eapply Forall_impl; [|apply uint_units_digits]. simpl; lia.
    + constructor; [unfold minus_sign; lia|].
      eapply Forall_impl; [|apply uint_units_digits]. simpl; lia.
Qed.

Lemma iso_date_no_T (t : Z) : Forall (fun c => c <> letter_T) (iso_date t).
Proof.
  assert (S : Forall (fun c => c <> letter_T) [minus_sign])
    by (repeat constructor; unfold minus_sign, letter_T; lia).
  unfold iso_date. rewrite !Forall_app.
  repeat split; auto using pad_int_no_T.
  unfold iso_year.
  repeat match goal with |- context [if ?c then _ else _] => destruct c end;
    try apply pad_int_no_T;
    (constructor; [unfold minus_sign, plus_sign, letter_T; lia | apply pad_int_no_T]).
Qed.

(** [toISOString().split('T')[0]] is the date part. *)
Lemma before_T_iso_string (t : Z) :
  hd [] (split letter_T (iso_string t)) = iso_date t.
Proof.
  unfold iso_string. simpl app.
  rewrite split_app by apply iso_date_no_T. reflexivity.
Qed.

End JSDateFacts.

Import JSDateFacts.

Example iso_string_ex :
  iso_string 1762732800000 = lit "2025-11-10T00:00:00.000Z".
Proof. vm_compute. reflexivity. Qed.

Example iso_string_leap :
  iso_string 951827696789 = lit "2000-02-29T12:34:56.789Z".
Proof. vm_compute. reflexivity. Qed.

Example iso_string_before_epoch :
  iso_string (-1) = lit "1969-12-31T23:59:59.999Z".
Proof. vm_compute. reflexivity. Qed.

Example iso_string_min :
  iso_string (- maxTime) = lit "-271821-04-20T00:00:00.000Z".
Proof. vm_compute. reflexivity. Qed.

Example iso_string_max :
  iso_string maxTime = lit "+275760-09-13T00:00:00.000Z".
Proof. vm_compute. reflexivity. Qed.

(** ** The expander *)

Section Expander.

Context `{Host} {num : Type} `{JSNumber num}.







(** Without a valid reference date, every branch that builds a task
    throws: [toISOString] is called on an invalid date. *)
Lemma invalid_date_throws (paymentMethod0 : jsstring) (A : num) (D : jsstring) :
  new_Date D = None ->
  includes deposit_marker paymentMethod0 && includes final_marker paymentMethod0
  = false ->
  includes full_marker paymentMethod0 = true ->
  calculatePaymentTasks paymentMethod0 A D = Throw RangeError.
Proof.
  intros HD Hs Hf. unfold calculatePaymentTasks. rewrite Hs, Hf, HD. reflexivity.
Qed.



End Expander.


(** The tasks of the example of the specification: 300 due 2025-11-03,
    700 due 2025-11-09. *)
Example split_terms_example :
  @calculatePaymentTasks Scenario.beijing float binary64
    (lit "定金30%+尾款70%") 1000%float (lit "2025-11-10")
  = Return
      [ {| Term.taskType := lit "定金"; Term.description := lit "预付30%款项";
           Term.amountDue := 300%float; Term.dueDate := lit "2025-11-03" |};
        {| Term.taskType := lit "尾款"; Term.description := lit "支付剩余70%款项";
           Term.amountDue := 700%float; Term.dueDate := lit "2025-11-09" |} ].
Proof. vm_compute. reflexivity. Qed.



Example full_payment_example :
  @calculatePaymentTasks Scenario.beijing float binary64
    (lit "全款") 500%float (lit "2025-11-10")
  = Return
      [ {| Term.taskType := lit "全款"; Term.description := lit "一次性支付全款";
           Term.amountDue := 500%float; Term.dueDate := lit "2025-11-07" |} ].
Proof. vm_compute. reflexivity. Qed.



(** ** The sum of a deposit and a final payment *)




(** In binary64, for the price 1000 and each of the 101 ways to split 100
    into two percentages, the two amounts sum to the price up to 2^-40;
    for 30 and 70 without any error. *)
Example deposit_final_sum_binary64_1000 :
  forallb (fun p => Scenario.within 0x1p-40%float (Scenario.split_sum 1000 p) 1000)
          (map Z.of_nat (seq 0 101))
  = true.
Proof. vm_compute. reflexivity. Qed.

Example deposit_final_sum_binary64 :
  num_add (Term.amountDue (@deposit_task float binary64 1000%float 1762732800000 (lit "30")))
          (Term.amountDue (@final_task float binary64 1000%float 1762732800000 (lit "70")))
  = 1000%float.
Proof. vm_compute. reflexivity. Qed.

(** ** The synthesizer *)

Section Synthesizer.

Context `{Host} {num : Type} `{JSNumber num}.

Lemma bind_run {A B : Type} (m : M A) (f : A -> M B) (a : A) (k k' : nat) :
  m k = (Return a, k') -> bind m f k = f a k'.
Proof. intros E. unfold bind. rewrite E. reflexivity. Qed.

Lemma find_none_iff {A : Type} (f : A -> bool) (l : list A) :
  find f l = None <-> Forall (fun x => f x = false) l.
Proof.
  induction l as [|x l IH]; simpl.
  - split; auto.
  - destruct (f x) eqn:E.
    + split; [discriminate|]. intros F; inversion F; congruence.
    + rewrite IH. split; [intros F; constructor; auto|intros F; inversion F; auto].
Qed.












End Synthesizer.


(** The example of the specification: one booking for the supplier, total
    1500, the tasks 300 due 2025-11-03, 700 due 2025-11-09 and 500 due
    2025-11-07 (three tasks, not the four the specification counts). *)
Example synthesizer_example :
  exists b k',
    @generatePaymentBookings Scenario.beijing float binary64
      (lit "O1") Scenario.orders Scenario.products Scenario.suppliers 0%nat
    = (Return [b], k')
    /\ supplierName b = lit "Acme"
    /\ supplierType b = lit "地接社"
    /\ totalAmount b = Some 1500%float
    /\ map (fun t => (amountDue t, dueDate t)) (paymentTasks b)
       = [ (Some 300%float, lit "2025-11-03");
           (Some 700%float, lit "2025-11-09");
           (Some 500%float, lit "2025-11-07") ].
Proof.
  eexists; eexists. split; [vm_compute; reflexivity|].
  repeat split; vm_compute; reflexivity.
Qed.


(** A name that resolves to nothing, between two that resolve: the result
    is the one of the order without it. *)
Example unresolved_service_example :
  @generatePaymentBookings Scenario.beijing float binary64 (lit "O1")
    [Scenario.order "O1" "SvcA, 不存在 ,SvcB" "2025-11-10"]
    Scenario.products Scenario.suppliers 0%nat
  = @generatePaymentBookings Scenario.beijing float binary64 (lit "O1")
      Scenario.orders Scenario.products Scenario.suppliers 0%nat.
Proof. vm_compute. reflexivity. Qed.

(** A supplier called like a property of [Object.prototype] makes the
    synthesizer throw. *)
Example inherited_supplier_example :
  fst (@generatePaymentBookings Scenario.beijing float binary64 (lit "O1")
         [Scenario.order "O1" "SvcX" "2025-11-10"]
         [Scenario.product "SvcX" "constructor" 100 "全款"] [] 0%nat)
  = Throw TypeError.
Proof. vm_compute. reflexivity. Qed.

(** ** Identifiers *)

(** C5 fails on the code.  The order O2 has a service of Acme and one of
    Bolt; the index in the identifier of a task starts again at 0 for each
    supplier, so when the readings of the clock fall in one millisecond the
    first task of the booking of Acme and the first task of the booking of
    Bolt carry the same identifier, in the store [handleSmartGenerate]
    leaves. *)
Theorem task_ids_collide :
  exists b1 b2 k',
    @handleSmartGenerate Scenario.beijing float binary64
      (lit "O2") Scenario.orders Scenario.products Scenario.suppliers [] 0%nat
    = (Return [b1; b2], k')
    /\ map taskId (paymentTasks b1)
       = [lit "TASK-1761998400123-0-0"; lit "TASK-1761998400123-0-1"]
    /\ map taskId (paymentTasks b2) = [lit "TASK-1761998400123-0-0"]
    /\ ~ NoDup (task_ids [b1; b2]).
Proof.
  eexists; eexists; eexists. split; [vm_compute; reflexivity|].
  split; [vm_compute; reflexivity|]. split; [vm_compute; reflexivity|].
  intros N. vm_compute in N.
  inversion N as [|x l Hin _]; subst. apply Hin. right; left. reflexivity.
Qed.

(** When the clock advances between two readings the same call gives
    distinct identifiers. *)
Example task_ids_ticking_example :
  exists bs k',
    @handleSmartGenerate Scenario.beijing_ticking float binary64
      (lit "O2") Scenario.orders Scenario.products Scenario.suppliers [] 0%nat
    = (Return bs, k')
    /\ task_ids bs
       = [ lit "TASK-1761998400123-0-0"; lit "TASK-1761998400124-0-1";
           lit "TASK-1761998400126-0-0" ].
Proof. eexists; eexists. split; vm_compute; reflexivity. Qed.

(** The identifiers of the bookings of that call are distinct. *)
Example booking_ids_example :
  exists bs k',
    @generatePaymentBookings Scenario.beijing float binary64
      (lit "O2") Scenario.orders Scenario.products Scenario.suppliers 0%nat
    = (Return bs, k')
    /\ booking_ids bs
       = [lit "BOOK-1761998400123-Acme"; lit "BOOK-1761998400123-Bolt"].
Proof. eexists; eexists. split; vm_compute; reflexivity. Qed.

(** Two tasks added by hand within one millisecond share their identifier
    too. *)
Example addTask_ids_example :
  exists bs k',
    bind (@addTask Scenario.beijing float
            (Scenario.form "Acme" "预付" "2025-11-03" (Some 300%float)) [])
         (@addTask Scenario.beijing float
            (Scenario.form "Acme" "尾款" "2025-11-09" (Some 700%float))) 0%nat
    = (Return bs, k')
    /\ task_ids bs = [lit "TASK-1761998400123"; lit "TASK-1761998400123"].
Proof. eexists; eexists. split; vm_compute; reflexivity. Qed.

(** ** The store *)

Section Store.

Context `{Host} {num : Type} `{JSNumber num}.

Lemma find_task_none (taskId0 : jsstring) (tasks : list (PaymentTask num)) :
  find_task taskId0 tasks = None
  <-> Forall (fun t => taskId t <> taskId0) tasks.
Proof.
  unfold find_task. rewrite find_none_iff. split; intros F;
    (eapply Forall_impl; [|exact F]); intros t; apply eqb_neq.
Qed.

Lemma find_task_index (taskId0 : jsstring) (tasks : list (PaymentTask num)) :
  find_task taskId0 tasks = None <-> task_index taskId0 tasks = None.
Proof.
  unfold find_task. induction tasks as [|t ts IH]; cbn [find task_index].
  - tauto.
  - destruct (eqb (taskId t) taskId0); [split; discriminate|].
    rewrite IH. destruct (task_index taskId0 ts); split; congruence.
Qed.

(** The mutation reaches the first task that carries the identifier and no
    other. *)
Lemma mutate_found_first (taskId0 : jsstring)
  (f : PaymentTask num -> PaymentTask num)
  (ts1 ts2 : list (PaymentTask num)) (t : PaymentTask num) :
  Forall (fun t' => taskId t' <> taskId0) ts1 -> taskId t = taskId0 ->
  mutate_found taskId0 f (ts1 ++ t :: ts2) = ts1 ++ f t :: ts2
  /\ find_task taskId0 (ts1 ++ t :: ts2) = Some t.
Proof.
  intros F E. induction F as [|t1 ts1 N F IH]; cbn [app mutate_found].
  - unfold find_task. cbn [find]. rewrite E, eqb_refl. auto.
  - apply eqb_neq in N. unfold find_task in *. cbn [find]. rewrite N.
    destruct IH as [-> ->]. auto.
Qed.

Lemma mutate_found_miss (taskId0 : jsstring)
  (f : PaymentTask num -> PaymentTask num) (tasks : list (PaymentTask num)) :
  Forall (fun t => taskId t <> taskId0) tasks ->
  mutate_found taskId0 f tasks = tasks.
Proof.
  induction 1 as [|t ts N F IH]; cbn [mutate_found]; [reflexivity|].
  apply eqb_neq in N. rewrite N, IH. reflexivity.
Qed.

Lemma mutate_found_nth (taskId0 : jsstring)
  (f : PaymentTask num -> PaymentTask num) (tasks : list (PaymentTask num)) :
  (forall j, task_index taskId0 tasks <> Some j ->
             nth_error (mutate_found taskId0 f tasks) j = nth_error tasks j)
  /\ (forall j, task_index taskId0 tasks = Some j ->
                exists t, nth_error tasks j = Some t /\ taskId t = taskId0
                          /\ nth_error (mutate_found taskId0 f tasks) j
                             = Some (f t)).
Proof.
  induction tasks as [|t ts [IHn IHs]]; cbn [task_index mutate_found].
  - split; [reflexivity | discriminate].
  - destruct (eqb (taskId t) taskId0) eqn:E.
    + split.
      * intros [|j] N; [congruence | reflexivity].
      * intros j Ej; injection Ej as <-. exists t. apply eqb_eq in E. auto.
    + split.
      * intros [|j] N; [reflexivity|]. cbn [nth_error]. apply IHn.
        destruct (task_index taskId0 ts); congruence.
      * intros [|j] Ej; destruct (task_index taskId0 ts) as [j'|] eqn:Ei;
          try discriminate.
        injection Ej as ->. cbn [nth_error]. apply IHs. reflexivity.
Qed.

(** What the loop of [markAsPaid] does to the store, and when it reads the
    clock. *)
Lemma markAsPaid_update (taskId0 : jsstring) (store : list (Booking num))
  (k : nat) :
  markAsPaid taskId0 store k
  = (Return (update_first taskId0 (set_paid (iso_date (clock k))) store),
     match first_match taskId0 store with Some _ => S k | None => k end).
Proof.
  induction store as [|b bs IH]; cbn [markAsPaid update_first first_match].
  - reflexivity.
  - pose proof (find_task_index taskId0 (paymentTasks b)) as Ei.
    destruct (find_task taskId0 (paymentTasks b)) as [t|].
    + destruct (task_index taskId0 (paymentTasks b));
        [|destruct Ei as [_ Ei]; discriminate (Ei eq_refl)].
      unfold bind, new_Date_now, lift, toISOString, ret, before_T.
      rewrite before_T_iso_string. reflexivity.
    + destruct Ei as [Ei _]. rewrite (Ei eq_refl).
      erewrite bind_run by exact IH. unfold ret.
      destruct (first_match taskId0 bs) as [[i j]|]; reflexivity.
Qed.

Lemma addInvoiceLink_update (link taskId0 : jsstring)
  (store : list (Booking num)) :
  addInvoiceLink_loop link taskId0 store
  = update_first taskId0 (set_invoiceLink link) store.
Proof.
  induction store as [|b bs IH]; cbn [addInvoiceLink_loop update_first];
    [reflexivity|].
  destruct (find_task taskId0 (paymentTasks b)); [reflexivity|].
  rewrite IH. reflexivity.
Qed.


Lemma update_first_hit (taskId0 : jsstring)
  (f : PaymentTask num -> PaymentTask num)
  (bs1 bs2 : list (Booking num)) (b : Booking num)
  (ts1 ts2 : list (PaymentTask num)) (t : PaymentTask num) :
  Forall (fun b' => Forall (fun t' => taskId t' <> taskId0) (paymentTasks b')) bs1 ->
  paymentTasks b = ts1 ++ t :: ts2 ->
  Forall (fun t' => taskId t' <> taskId0) ts1 -> taskId t = taskId0 ->
  update_first taskId0 f (bs1 ++ b :: bs2)
  = bs1 ++ set_paymentTasks b (ts1 ++ f t :: ts2) :: bs2
  /\ first_match taskId0 (bs1 ++ b :: bs2) <> None.
Proof.
  intros Fb Eb Ft Et.
  destruct (mutate_found_first taskId0 f ts1 ts2 t Ft Et) as [Em Ef].
  induction Fb as [|b1 bs1 N Fb [IHu IHf]]; cbn [app update_first first_match].
  - rewrite Eb, Ef, Em. split; [reflexivity|].
    pose proof (find_task_index taskId0 (ts1 ++ t :: ts2)) as Ei.
    destruct (task_index taskId0 (ts1 ++ t :: ts2)); [discriminate|].
    destruct Ei as [_ Ei]. rewrite (Ei eq_refl) in Ef. discriminate.
  - pose proof (proj2 (find_task_none taskId0 (paymentTasks b1)) N) as En.
    rewrite En, (proj1 (find_task_index _ _) En), IHu. split; [reflexivity|].
    destruct (first_match taskId0 (bs1 ++ b :: bs2)) as [[i j]|];
      [discriminate | contradiction].
Qed.

(** The frame of a mutation of the first match: the bookings keep their
    fields and the number of their tasks, every task but the one at the
    place of the first match is untouched, and that one becomes [f t]. *)
Lemma update_first_frame (taskId0 : jsstring)
  (f : PaymentTask num -> PaymentTask num) (store : list (Booking num)) :
  map header (update_first taskId0 f store) = map header store
  /\ (forall i j, first_match taskId0 store <> Some (i, j) ->
                  task_at i j (update_first taskId0 f store)
                  = task_at i j store)
  /\ (forall i j, first_match taskId0 store = Some (i, j) ->
                  exists t, task_at i j store = Some t /\ taskId t = taskId0
                            /\ task_at i j (update_first taskId0 f store)
                               = Some (f t)).
Proof.
  induction store as [|b bs (IHh & IHn & IHs)];
    cbn [update_first first_match map].
  - repeat split; try reflexivity. discriminate.
  - pose proof (find_task_index taskId0 (paymentTasks b)) as Ei.
    destruct (mutate_found_nth taskId0 f (paymentTasks b)) as [Mn Ms].
    destruct (find_task taskId0 (paymentTasks b)) as [t|].
    + destruct (task_index taskId0 (paymentTasks b)) as [j0|];
        [|destruct Ei as [_ Ei]; discriminate (Ei eq_refl)].
      split; [reflexivity|]. split.
      * intros [|i] j N; [|reflexivity]. unfold task_at. cbn [nth_error paymentTasks set_paymentTasks].
        apply Mn. congruence.
      * intros i j E; injection E as <- <-. unfold task_at.
        cbn [nth_error paymentTasks set_paymentTasks]. apply Ms. reflexivity.
    + destruct Ei as [Ei _]. rewrite (Ei eq_refl).
      split; [cbn [map]; rewrite IHh; reflexivity|]. split.
      * intros [|i] j N; [reflexivity|]. unfold task_at in *. cbn [nth_error].
        apply IHn. destruct (first_match taskId0 bs) as [[i' j']|]; congruence.
      * intros [|i] j E; destruct (first_match taskId0 bs) as [[i' j']|] eqn:Ef;
          try discriminate.
        injection E as -> ->. unfold task_at in *. cbn [nth_error].
        apply IHs. reflexivity.
Qed.


(** C10.  [markAsPaid] and [addInvoiceLink] keep every field of every
    booking but its tasks, keep every task that does not stand at the
    place of the first match as it is, and change the task at that place in
    the payment status and the payment date only ([markAsPaid]), in the
    invoice link only ([addInvoiceLink]). *)
Theorem lifecycle_frame (taskId0 : jsstring) (store : list (Booking num))
  (k : nat) (prompted : option jsstring) :
  (exists store' k',
      markAsPaid taskId0 store k = (Return store', k')
      /\ map header store' = map header store
      /\ (forall i j, first_match taskId0 store <> Some (i, j) ->
                      task_at i j store' = task_at i j store)
      /\ (forall i j, first_match taskId0 store = Some (i, j) ->
                      exists t t', task_at i j store = Some t
                                   /\ task_at i j store' = Some t'
                                   /\ same_but_payment t t'))
  /\ (let store' := addInvoiceLink prompted taskId0 store in
      map header store' = map header store
      /\ (forall i j, first_match taskId0 store <> Some (i, j) ->
                      task_at i j store' = task_at i j store)
      /\ (forall i j, first_match taskId0 store = Some (i, j) ->
                      exists t t', task_at i j store = Some t
                                   /\ task_at i j store' = Some t'
                                   /\ same_but_invoice t t')).
Proof.
  split.
  - rewrite markAsPaid_update. eexists; eexists. split; [reflexivity|].
    destruct (update_first_frame taskId0 (set_paid (iso_date (clock k))) store)
      as (Eh & En & Es).
    split; [exact Eh|]. split; [exact En|].
    intros i j E. destruct (Es i j E) as (t & Et & _ & Et').
    exists t, (set_paid (iso_date (clock k)) t).
    repeat split; assumption.
  - cbv zeta. unfold addInvoiceLink.
    assert (Same : forall t : PaymentTask num, same_but_invoice t t)
      by (intros t; repeat split).
    assert (Id : map header store = map header store
                 /\ (forall i j, first_match taskId0 store <> Some (i, j) ->
                                 task_at i j store = task_at i j store)
                 /\ (forall i j, first_match taskId0 store = Some (i, j) ->
                                 exists t t', task_at i j store = Some t
                                              /\ task_at i j store = Some t'
                                              /\ same_but_invoice t t')).
    { repeat split. intros i j E.
      destruct (update_first_frame taskId0 (fun t => t) store) as (_ & _ & Es).
      destruct (Es i j E) as (t & Et & _). exists t, t. auto. }
    destruct prompted as [[|c link]|]; try exact Id.
    rewrite addInvoiceLink_update.
    destruct (update_first_frame taskId0 (set_invoiceLink (c :: link)) store)
      as (Eh & En & Es).
    split; [exact Eh|]. split; [exact En|].
    intros i j E. destruct (Es i j E) as (t & Et & _ & Et').
    exists t, (set_invoiceLink (c :: link) t).
    repeat split; assumption.
Qed.

(** What [handleSubmit] checks: the name of the supplier, the amount and
    the due date.  When one of them is empty it alerts, and the store stays
    as it is. *)
Lemma handleSubmit_rejects (newTask : Form.TaskData num)
  (store : list (Booking num)) (k : nat) :
  Form.supplierName newTask = [] \/ Form.amountDue newTask = None
  \/ Form.dueDate newTask = [] ->
  handleSubmit newTask = Alerted (lit "请填写所有必填项！")
  /\ submitNewTask newTask store k = (Return store, k).
Proof.
  intros E.
  assert (A : handleSubmit newTask = Alerted (lit "请填写所有必填项！")).
  { unfold handleSubmit. destruct E as [E|[E|E]]; rewrite E; cbn.
    - reflexivity.
    - rewrite orb_true_r. reflexivity.
    - rewrite orb_true_r. reflexivity. }
  split; [exact A|]. unfold submitNewTask. rewrite A. reflexivity.
Qed.

(** [handleSubmit] does not look at the description. *)
Lemma handleSubmit_ignores_description (newTask : Form.TaskData num) (text : jsstring) :
  let newTask' :=
    {| Form.supplierName := Form.supplierName newTask;
       Form.supplierType := Form.supplierType newTask;
       Form.relatedCustomerOrder := Form.relatedCustomerOrder newTask;
       Form.description := text;
       Form.amountDue := Form.amountDue newTask;
       Form.dueDate := Form.dueDate newTask;
       Form.taskType := Form.taskType newTask |} in
  match handleSubmit newTask with
  | Alerted _ => exists message, handleSubmit newTask' = Alerted message
  | Emitted _ => handleSubmit newTask' = Emitted newTask'
  end.
Proof.
  cbv zeta. unfold handleSubmit. cbn [Form.supplierName Form.amountDue Form.dueDate].
  destruct (negb _ || negb _ || negb _); eauto.
Qed.

End Store.


(** In the store of the scenario the first T2 is the second task of the
    first booking; the T2 of the second booking is not touched. *)
Lemma lifecycle_frame_witness :
  @first_match float (lit "T2") Scenario.store = Some (0%nat, 1%nat)
  /\ exists store' k',
      @markAsPaid Scenario.beijing_daily float (lit "T2") Scenario.store 0%nat
      = (Return store', k')
      /\ map header store' = map header Scenario.store
      /\ task_at 1 1 store' = Some (Scenario.pending "T2")
      /\ task_at 1 1 (addInvoiceLink (Some (lit "https://example.com/i/1"))
                        (lit "T2") Scenario.store)
         = Some (Scenario.pending "T2").
Proof.
  assert (H1 : @first_match float (lit "T2") Scenario.store
               = Some (0%nat, 1%nat)) by reflexivity.
  refine (conj H1 _).
  destruct (@lifecycle_frame Scenario.beijing_daily float (lit "T2")
              Scenario.store 0%nat (Some (lit "https://example.com/i/1")))
    as [(store' & k' & E & Hh & Hn & _) (_ & Hn' & _)].
  exists store', k'. split; [exact E|]. split; [exact Hh|]. split.
  - rewrite Hn; [reflexivity | rewrite H1; discriminate].
  - rewrite Hn'; [reflexivity | rewrite H1; discriminate].
Defined.

(** T2 stands in both bookings: the first one is marked, with the date of
    the call and not its due date 2025-11-07; a second call, a day later,
    stamps the next date. *)
Example markAsPaid_example :
  exists once twice k1 k2,
    @markAsPaid Scenario.beijing_daily float (lit "T2") Scenario.store 0%nat
    = (Return once, k1)
    /\ @markAsPaid Scenario.beijing_daily float (lit "T2") once k1
       = (Return twice, k2)
    /\ map (fun b => map (fun t => (paymentStatus t, actualPaymentDate t))
                         (paymentTasks b)) once
       = [ [ (lit "Pending", None); (lit "Paid", Some (lit "2025-11-01")) ];
           [ (lit "Pending", None); (lit "Pending", None) ] ]
    /\ map (fun b => map (fun t => (paymentStatus t, actualPaymentDate t))
                         (paymentTasks b)) twice
       = [ [ (lit "Pending", None); (lit "Paid", Some (lit "2025-11-02")) ];
           [ (lit "Pending", None); (lit "Pending", None) ] ].
Proof.
  eexists; eexists; eexists; eexists.
  split; [vm_compute; reflexivity|]. split; [vm_compute; reflexivity|].
  split; vm_compute; reflexivity.
Qed.

Example addInvoiceLink_example :
  map (fun b => map invoiceLink (paymentTasks b))
      (@addInvoiceLink float (Some (lit "https://example.com/i/1")) (lit "T3")
         Scenario.store)
  = [ [None; None]; [Some (lit "https://example.com/i/1"); None] ]
  /\ @addInvoiceLink float (Some []) (lit "T3") Scenario.store = Scenario.store
  /\ @addInvoiceLink float None (lit "T3") Scenario.store = Scenario.store.
Proof.
  split; [vm_compute; reflexivity|]. split; [vm_compute; reflexivity|].
  reflexivity.
Qed.

(** ** The form *)


(** The three fields [handleSubmit] checks, on the same form. *)
Example handleSubmit_example :
  @handleSubmit float binary64
    (Scenario.form EmptyString "预付" "2025-11-03" (Some 300%float))
  = Alerted (lit "请填写所有必填项！")
  /\ @handleSubmit float binary64 (Scenario.form "Acme" "预付" "2025-11-03" None)
     = Alerted (lit "请填写所有必填项！")
  /\ @handleSubmit float binary64 (Scenario.form "Acme" "预付" "2025-11-03" (Some 0%float))
     = Alerted (lit "请填写所有必填项！")
  /\ @handleSubmit float binary64
       (Scenario.form "Acme" "预付" EmptyString (Some 300%float))
     = Alerted (lit "请填写所有必填项！").
Proof. repeat split; reflexivity. Qed.

(** * More of the program *)
(** ** Identifiers *)

Module IdFacts.

Lemma uint_units_inj (d d' : Decimal.uint) :
  uint_units d = uint_units d' -> d = d'.
Proof.
  revert d'; induction d; intros d' E; destruct d'; cbn [uint_units] in E;
    try discriminate; try reflexivity;
    injection E as E; f_equal; apply IHd; exact E.
Qed.

Lemma to_uint_nonempty (p : positive) : uint_units (Pos.to_uint p) <> [].
Proof.
  intros E. apply (DecimalPos.Unsigned.to_uint_nonnil p).
  destruct (Pos.to_uint p); try discriminate. reflexivity.
Qed.

(** [String(n)] determines [n]. *)
Lemma of_int_inj (n m : Z) : of_int n = of_int m -> n = m.
Proof.
  assert (Z0 : forall p, uint_units (Pos.to_uint p) <> [48]).
  { intros p E.
    change [48] with (uint_units (Decimal.D0 Decimal.Nil)) in E.
    apply uint_units_inj in E.
    exact (DecimalPos.Unsigned.to_uint_nonzero p E). }
  assert (Neg : forall p q, uint_units (Pos.to_uint p)
                            <> minus_sign :: uint_units (Pos.to_uint q)).
  { intros p q E. pose proof (uint_units_digits (Pos.to_uint p)) as D.
    rewrite E in D. apply Forall_cons_iff in D. destruct D as [D _].
    unfold minus_sign in D. lia. }
  destruct n as [|p|p], m as [|q|q]; cbn [of_int]; intros E;
    try reflexivity.
  - symmetry in E. destruct (Z0 _ E).
  - discriminate.
  - destruct (Z0 _ E).
  - apply uint_units_inj, DecimalPos.Unsigned.to_uint_inj in E. congruence.
  - destruct (Neg _ _ E).
  - discriminate.
  - symmetry in E. destruct (Neg _ _ E).
  - injection E as E.
    apply uint_units_inj, DecimalPos.Unsigned.to_uint_inj in E. congruence.
Qed.

(** A run of digits before a hyphen is determined by the whole. *)
Lemma digits_hyphen (a a' r r' : jsstring) :
  Forall (fun c => 48 <= c <= 57) a ->
  Forall (fun c => 48 <= c <= 57) a' ->
  a ++ minus_sign :: r = a' ++ minus_sign :: r' -> a = a' /\ r = r'.
Proof.
  unfold minus_sign.
  intros D; revert a'; induction D as [|c a Dc D IH]; intros a' D' E.
  - destruct D' as [|c' a' Dc' D']; cbn [app] in E.
    + injection E as E. auto.
    + injection E as E _. lia.
  - destruct D' as [|c' a' Dc' D']; cbn [app] in E.
    + injection E as E _. lia.
    + injection E as -> E. destruct (IH a' D' E) as [-> ->]. auto.
Qed.

(** The same for the decimal form of an integer, which may start with a
    minus sign. *)
Lemma of_int_hyphen (n n' : Z) (r r' : jsstring) :
  of_int n ++ minus_sign :: r = of_int n' ++ minus_sign :: r' ->
  n = n' /\ r = r'.
Proof.
  assert (Dg : forall p, Forall (fun c => 48 <= c <= 57)
                                (uint_units (Pos.to_uint p)))
    by (intros p; apply uint_units_digits).
  assert (D0 : Forall (fun c => 48 <= c <= 57) [48])
    by (constructor; [lia | constructor]).
  assert (Hd : forall p, exists c s, uint_units (Pos.to_uint p) = c :: s
                                     /\ 48 <= c <= 57).
  { intros p. pose proof (Dg p) as D. pose proof (to_uint_nonempty p) as N.
    destruct (uint_units (Pos.to_uint p)) as [|c s]; [contradiction|].
    apply Forall_cons_iff in D. destruct D as [D _]. eauto. }
  intros E.
  assert (of_int n = of_int n' /\ r = r') as [En Er];
    [|split; [apply of_int_inj; exact En | exact Er]].
  destruct n as [|p|p], n' as [|q|q]; cbn [of_int] in *;
    try (apply digits_hyphen; auto; fail); unfold minus_sign in *.
  - cbn [app] in E. injection E as E _. discriminate.
  - destruct (Hd p) as (c & s & Ep & Dc). rewrite Ep in E. cbn [app] in E.
    injection E as E _. lia.
  - cbn [app] in E. injection E as E _. discriminate.
  - destruct (Hd q) as (c & s & Eq & Dc). rewrite Eq in E. cbn [app] in E.
    injection E as E _. lia.
  - cbn [app] in E. injection E as E.
    destruct (digits_hyphen _ _ _ _ (Dg p) (Dg q) E) as [-> ->]. auto.
Qed.

End IdFacts.

Import IdFacts.

Section Identifiers.

(** The identifier of a task determines the reading of the clock and the
    two indices it was made of. *)
Lemma task_id_inj (now now' : Z) (i i' j j' : nat) :
  task_id now i j = task_id now' i' j' -> now = now' /\ i = i' /\ j = j'.
Proof.
  unfold task_id. intros E. apply app_inv_head in E.
  change (lit "-") with [minus_sign] in E. cbn [app] in E.
  apply of_int_hyphen in E. destruct E as [-> E].
  apply of_int_hyphen in E. destruct E as [Ei E].
  apply of_int_inj in E. lia.
Qed.

(** The identifier of a booking determines the name of its supplier. *)
Lemma booking_id_inj (now now' : Z) (s s' : jsstring) :
  booking_id now s = booking_id now' s' -> now = now' /\ s = s'.
Proof.
  unfold booking_id. intros E. apply app_inv_head in E.
  change (lit "-") with [minus_sign] in E. cbn [app] in E.
  apply of_int_hyphen in E. exact E.
Qed.

End Identifiers.

(** ** The baskets of the suppliers *)

Section Baskets.

Context `{Host} {num : Type} `{JSNumber num}.

Lemma eqb_sym (a b : jsstring) : eqb a b = eqb b a.
Proof.
  destruct (eqb a b) eqn:E, (eqb b a) eqn:E'; try reflexivity.
  - apply eqb_eq in E. subst. rewrite eqb_refl in E'. discriminate.
  - apply eqb_eq in E'. subst. rewrite eqb_refl in E. discriminate.
Qed.

Lemma existsb_eqb_In (n : jsstring) (l : list jsstring) :
  existsb (eqb n) l = true <-> In n l.
Proof.
  rewrite existsb_exists. split.
  - intros (x & Hx & E). apply eqb_eq in E. subst. exact Hx.
  - intros Hn. exists n. split; [exact Hn | apply eqb_refl].
Qed.

Lemma existsb_eqb_notin (n : jsstring) (l : list jsstring) :
  existsb (eqb n) l = false <-> ~ In n l.
Proof.
  rewrite <- existsb_eqb_In. destruct (existsb (eqb n) l); split; congruence.
Qed.

Lemma own_get_none {V : Type} (s : jsstring) (o : list (jsstring * V)) :
  own_get s o = None <-> ~ In s (map fst o).
Proof.
  induction o as [|[k v] o IH]; cbn [own_get map fst In]; [tauto|].
  destruct (eqb k s) eqn:E.
  - apply eqb_eq in E. split; [discriminate | tauto].
  - apply eqb_neq in E. rewrite IH. tauto.
Qed.

Lemma own_update_keys {V : Type} (s : jsstring) (f : V -> V)
  (o : list (jsstring * V)) :
  map fst (own_update s f o) = map fst o.
Proof.
  induction o as [|[k v] o IH]; cbn [own_update map fst]; [reflexivity|].
  destruct (eqb k s); cbn [map fst]; [reflexivity | rewrite IH; reflexivity].
Qed.

Lemma distinct_from_ext (seen seen' names : list jsstring) :
  (forall n, In n seen <-> In n seen') ->
  distinct_from seen names = distinct_from seen' names.
Proof.
  revert seen seen'; induction names as [|n ns IH]; intros seen seen' E;
    cbn [distinct_from]; [reflexivity|].
  assert (En : existsb (eqb n) seen = existsb (eqb n) seen').
  { destruct (existsb (eqb n) seen) eqn:A, (existsb (eqb n) seen') eqn:B;
      try reflexivity.
    - apply existsb_eqb_In, E, existsb_eqb_In in A. congruence.
    - apply existsb_eqb_In, E, existsb_eqb_In in B. congruence. }
  rewrite En. destruct (existsb (eqb n) seen').
  - apply IH, E.
  - f_equal. apply IH. intros m. cbn [In]. rewrite E. tauto.
Qed.

Lemma distinct_from_In (seen names : list jsstring) (n : jsstring) :
  In n (distinct_from seen names) <-> In n names /\ ~ In n seen.
Proof.
  revert seen; induction names as [|m ns IH]; intros seen;
    cbn [distinct_from In]; [tauto|].
  destruct (existsb (eqb m) seen) eqn:E.
  - apply existsb_eqb_In in E. rewrite IH. split; [tauto|].
    intros [[->|Hn] N]; [contradiction | tauto].
  - apply existsb_eqb_notin in E. cbn [In]. rewrite IH. cbn [In].
    split.
    + intros [->|[Hn N]]; tauto.
    + intros [[->|Hn] N]; [tauto|].
      destruct (eqb m n) eqn:Emn.
      * apply eqb_eq in Emn. tauto.
      * apply eqb_neq in Emn. right. split; [exact Hn|]. tauto.
Qed.

Lemma distinct_from_NoDup (seen names : list jsstring) :
  NoDup (distinct_from seen names).
Proof.
  revert seen; induction names as [|m ns IH]; intros seen;
    cbn [distinct_from]; [constructor|].
  destruct (existsb (eqb m) seen); [apply IH|].
  constructor; [|apply IH].
  rewrite distinct_from_In. cbn [In]. tauto.
Qed.

Lemma products_of_other (s s' : jsstring) (p : Product num)
  (ps : list (Product num)) :
  供应商名称 p = s -> s' <> s ->
  products_of s' (p :: ps) = products_of s' ps.
Proof.
  intros E N. unfold products_of. cbn [filter]. rewrite E.
  apply not_eq_sym, eqb_neq in N. rewrite N. reflexivity.
Qed.

Lemma products_of_same (s : jsstring) (p : Product num)
  (ps : list (Product num)) :
  供应商名称 p = s -> products_of s (p :: ps) = p :: products_of s ps.
Proof.
  intros E. unfold products_of. cbn [filter]. rewrite E, eqb_refl.
  reflexivity.
Qed.

Lemma grow_other (s : jsstring) (p : Product num) (ps : list (Product num))
  (e : jsstring * Basket num) :
  供应商名称 p = s -> fst e <> s -> grow (p :: ps) e = grow ps e.
Proof.
  intros E N. unfold grow. rewrite (products_of_other s) by assumption.
  reflexivity.
Qed.

Lemma grow_nil (e : jsstring * Basket num) : grow [] e = e.
Proof.
  destruct e as [s [T I]]. unfold grow. cbn. rewrite app_nil_r. reflexivity.
Qed.

(** Adding a product to the basket its supplier has, then the products
    [ps], adds the product and [ps]. *)
Lemma grow_update (s : jsstring) (p : Product num) (ps : list (Product num))
  (acc : list (jsstring * Basket num)) :
  供应商名称 p = s -> NoDup (map fst acc) ->
  map (grow ps)
      (own_update s (fun b => {| total := num_add (total b) (平日单价 p);
                                 items := items b ++ [p] |}) acc)
  = map (grow (p :: ps)) acc.
Proof.
  intros E. induction acc as [|[k [T I]] acc IH]; intros N;
    cbn [own_update map]; [reflexivity|].
  cbn [map fst] in N. apply NoDup_cons_iff in N. destruct N as [Nk N].
  destruct (eqb k s) eqn:Ek.
  - apply eqb_eq in Ek. subst k. cbn [map]. f_equal.
    + unfold grow. cbn [fst snd total items].
      rewrite products_of_same by exact E. cbn [map fold_left].
      rewrite <- app_assoc. reflexivity.
    + apply map_ext_in. intros e He. symmetry. apply (grow_other s); [exact E|].
      intros Ee. apply Nk. rewrite <- Ee. apply in_map. exact He.
  - apply eqb_neq in Ek. cbn [map]. f_equal.
    + symmetry. apply (grow_other s); [exact E | exact Ek].
    + apply IH. exact N.
Qed.

(** What the loop over the service names leaves in [supplierCosts]: the
    baskets it found there, grown by the products the names resolve to, and
    then one basket for each supplier that had none, in the order in which
    those suppliers are met. *)
Lemma collect_baskets (allProducts : list (Product num))
  (names : list jsstring) (acc : list (jsstring * Basket num)) :
  NoDup (map fst acc) ->
  Forall (fun p => inherited (供应商名称 p) = false) (resolve allProducts names) ->
  foldC (collect_service allProducts) acc names
  = Return (map (grow (resolve allProducts names)) acc
            ++ map (fun s => (s, basket_of (resolve allProducts names) s))
                   (distinct_from (map fst acc)
                      (map 供应商名称 (resolve allProducts names)))).
Proof.
  revert acc; induction names as [|name names IH]; intros acc N F.
  - cbn. rewrite app_nil_r. f_equal. symmetry.
    rewrite <- (map_id acc) at 2. apply map_ext. apply grow_nil.
  - cbn [foldC resolve flat_map] in *. unfold collect_service at 1.
    destruct (findProductByName name allProducts) as [p|] eqn:E;
      [|cbn [bindC app] in *; apply IH; assumption].
    cbn [app] in F. apply Forall_cons_iff in F. destruct F as [Hi F].
    set (ps := resolve allProducts names) in *.
    cbn [app map distinct_from].
    destruct (own_get (供应商名称 p) acc) as [b|] eqn:Eg.
    + cbn [bindC]. rewrite IH; [|rewrite own_update_keys; exact N | exact F].
      fold ps. rewrite own_update_keys.
      assert (Hin : In (供应商名称 p) (map fst acc)).
      { destruct (in_dec (list_eq_dec Z.eq_dec) (供应商名称 p) (map fst acc))
          as [Hin|Hn]; [exact Hin|].
        apply own_get_none in Hn. congruence. }
      rewrite (proj2 (existsb_eqb_In _ _) Hin).
      rewrite (grow_update (供应商名称 p)) by (reflexivity || exact N).
      do 2 f_equal. apply map_ext_in. intros s Hs. f_equal.
      apply distinct_from_In in Hs. destruct Hs as [_ Hs].
      unfold basket_of.
      rewrite (products_of_other (供应商名称 p)); [reflexivity..|].
      intros ->. contradiction.
    + rewrite Hi. cbn [bindC].
      pose proof (proj1 (own_get_none _ _) Eg) as Hn.
      rewrite IH; [| | exact F].
      2:{ rewrite map_app. cbn [map fst].
          apply Permutation_NoDup with (l := 供应商名称 p :: map fst acc).
          - apply Permutation_cons_append.
          - constructor; assumption. }
      fold ps. rewrite (proj2 (existsb_eqb_notin _ _) Hn).
      rewrite map_app. cbn [map]. rewrite <- app_assoc. cbn [app].
      f_equal. f_equal.
      { apply map_ext_in. intros e He. symmetry.
        apply (grow_other (供应商名称 p)); [reflexivity|].
        intros Ee. apply Hn. rewrite <- Ee. apply in_map. exact He. }
      f_equal.
      { unfold grow, basket_of, sum_prices. cbn [fst snd total items app].
        rewrite products_of_same by reflexivity. reflexivity. }
      rewrite map_app. cbn [map fst].
      rewrite (distinct_from_ext (map fst acc ++ [供应商名称 p])
                 (供应商名称 p :: map fst acc)).
      2:{ intros n. rewrite in_app_iff. cbn [In]. tauto. }
      apply map_ext_in. intros s Hs. f_equal.
      apply distinct_from_In in Hs. destruct Hs as [_ Hs]. cbn [In] in Hs.
      unfold basket_of.
      rewrite (products_of_other (供应商名称 p)); [reflexivity..|].
      intros ->. tauto.
Qed.

(** The loop throws as soon as it meets a product whose supplier is named
    like a property of [Object.prototype]. *)
Lemma collect_throws (allProducts : list (Product num))
  (names : list jsstring) (acc : list (jsstring * Basket num)) :
  Forall (fun s => inherited s = false) (map fst acc) ->
  Exists (fun p => inherited (供应商名称 p) = true) (resolve allProducts names) ->
  foldC (collect_service allProducts) acc names = Throw TypeError.
Proof.
  revert acc; induction names as [|name names IH]; intros acc F Ex.
  - inversion Ex.
  - cbn [foldC resolve flat_map] in *. unfold collect_service at 1.
    destruct (findProductByName name allProducts) as [p|] eqn:E;
      [|cbn [bindC app] in *; apply IH; assumption].
    cbn [app] in Ex.
    destruct (own_get (供应商名称 p) acc) as [b|] eqn:Eg.
    + assert (Hin : In (供应商名称 p) (map fst acc)).
      { destruct (in_dec (list_eq_dec Z.eq_dec) (供应商名称 p) (map fst acc))
          as [Hin|Hn]; [exact Hin|].
        apply own_get_none in Hn. congruence. }
      cbn [bindC]. apply IH; [rewrite own_update_keys; exact F|].
      apply Exists_cons in Ex. destruct Ex as [Ex|Ex]; [|exact Ex].
      rewrite Forall_forall in F. rewrite (F _ Hin) in Ex. discriminate.
    + destruct (inherited (供应商名称 p)) eqn:Hi; [reflexivity|].
      cbn [bindC]. apply IH.
      * rewrite map_app. apply Forall_app. split; [exact F|].
        constructor; [exact Hi | constructor].
      * apply Exists_cons in Ex. destruct Ex as [Ex|Ex]; [congruence|exact Ex].
Qed.

End Baskets.

(** ** From the baskets to the bookings *)

Section Conversion.

Context `{Host} {num : Type} `{JSNumber num}.

Lemma insert_by_index_perm {V : Type} (e : jsstring * V)
  (es : list (jsstring * V)) :
  Permutation (insert_by_index e es) (e :: es).
Proof.
  induction es as [|e' es IH]; cbn [insert_by_index]; [reflexivity|].
  destruct (digits_value (fst e) <=? digits_value (fst e')); [reflexivity|].
  rewrite IH. apply perm_swap.
Qed.

(** [Object.entries] lists every own property once. *)
Lemma Object_entries_perm {V : Type} (o : list (jsstring * V)) :
  Permutation (Object_entries o) o.
Proof.
  unfold Object_entries.
  transitivity (filter (fun e => is_array_index (fst e)) o
                ++ filter (fun e => negb (is_array_index (fst e))) o).
  - apply Permutation_app_tail.
    induction (filter (fun e => is_array_index (fst e)) o) as [|e es IH];
      cbn [fold_right]; [reflexivity|].
    rewrite insert_by_index_perm, IH. reflexivity.
  - induction o as [|e o IH]; cbn [filter]; [reflexivity|].
    destruct (is_array_index (fst e)); cbn [negb app].
    + constructor. exact IH.
    + rewrite <- Permutation_middle. constructor. exact IH.
Qed.


(** The inner [forEach]: one task per term, in order, each with the index
    of the product and its own index in its identifier; the clock is read
    once per task. *)
Lemma stamp_run (index : nat) (tasks : list (Term.Task num)) (i k : nat) :
  exists l,
    mapM_from (stamp_task index) i tasks k = (Return l, (k + length tasks)%nat)
    /\ Forall2 (fun t pt => pt = stamped (taskId pt) t) tasks l
    /\ NoDup (map taskId l)
    /\ Forall (fun pt => exists now j,
                   taskId pt = task_id now index j /\ (i <= j)%nat) l.
Proof.
  revert i k; induction tasks as [|t tasks IH]; intros i k.
  - exists []. repeat split; try constructor.
    cbn [mapM_from length]. unfold ret. rewrite Nat.add_0_r. reflexivity.
  - destruct (IH (S i) (S k)) as (l & E & F & N & I).
    exists (stamped (task_id (clock k) index i) t :: l). split; [|split; [|split]].
    + cbn [mapM_from].
      erewrite bind_run by (unfold stamp_task, bind, Date_now, ret; reflexivity).
      erewrite bind_run by exact E.
      unfold ret. cbn [length]. rewrite Nat.add_succ_r. reflexivity.
    + constructor; [reflexivity | exact F].
    + cbn [map taskId stamped]. constructor; [|exact N].
      intros Hin. apply in_map_iff in Hin. destruct Hin as (pt & Ept & Hpt).
      rewrite Forall_forall in I. destruct (I pt Hpt) as (now & j & Ej & Lj).
      rewrite Ej in Ept. apply task_id_inj in Ept. lia.
    + constructor.
      * exists (clock k), i. split; [reflexivity | lia].
      * eapply Forall_impl; [|exact I]. intros pt (now & j & Ej & Lj).
        exists now, j. split; [exact Ej | lia].
Qed.

(** The outer [forEach] over the items of a basket. *)
Lemma items_run (order : Order) (ps : list (Product num)) (i k : nat) :
  Forall (expands order) ps ->
  exists ls,
    mapM_from (item_tasks order) i ps k
    = (Return ls, (k + length (flat_map (expansion order) ps))%nat)
    /\ Forall2 (fun t pt => pt = stamped (taskId pt) t)
               (flat_map (expansion order) ps) (concat ls)
    /\ NoDup (map taskId (concat ls))
    /\ Forall (fun pt => exists now i' j,
                   taskId pt = task_id now i' j /\ (i <= i')%nat) (concat ls).
Proof.
  intros F; revert i k; induction F as [|p ps E F IH]; intros i k.
  - exists []. cbn [flat_map length]. rewrite Nat.add_0_r.
    repeat split; constructor.
  - destruct (stamp_run i (expansion order p) 0 k) as (l & El & Fl & Nl & Il).
    destruct (IH (S i) (k + length (expansion order p))%nat)
      as (ls & Els & Fls & Nls & Ils).
    exists (l :: ls). split; [|split; [|split]].
    + cbn [mapM_from].
      erewrite bind_run
        by (unfold item_tasks, bind, lift; rewrite E; exact El).
      erewrite bind_run by exact Els.
      unfold ret. cbn [flat_map]. rewrite length_app, Nat.add_assoc.
      reflexivity.
    + cbn [flat_map concat]. apply Forall2_app; assumption.
    + cbn [concat]. rewrite map_app. apply NoDup_app; [exact Nl | exact Nls |].
      intros id Hl Hls.
      apply in_map_iff in Hl. destruct Hl as (pt & <- & Hpt).
      apply in_map_iff in Hls. destruct Hls as (pt' & Ept & Hpt').
      rewrite Forall_forall in Il, Ils.
      destruct (Il pt Hpt) as (now & j & Ej & _).
      destruct (Ils pt' Hpt') as (now' & i' & j' & Ej' & Li').
      rewrite Ej, Ej' in Ept. apply task_id_inj in Ept. lia.
    + cbn [concat]. apply Forall_app. split.
      * eapply Forall_impl; [|exact Il]. intros pt (now & j & Ej & _).
        exists now, i, j. split; [exact Ej | lia].
      * eapply Forall_impl; [|exact Ils]. intros pt (now & i' & j & Ej & Li).
        exists now, i', j. split; [exact Ej | lia].
Qed.

(** The body of the loop over the entries. *)
Lemma convert_entry_run (order : Order) (allSuppliers : list Supplier)
  (e : jsstring * Basket num) (k : nat) :
  Forall (expands order) (items (snd e)) ->
  exists b,
    convert_entry order allSuppliers e k
    = (Return b, S (k + length (paymentTasks b)))
    /\ booking_of order allSuppliers e b.
Proof.
  intros F.
  destruct (items_run order (items (snd e)) 0 k F) as (ls & E & Fl & N & I).
  assert (L : length (concat ls)
              = length (flat_map (expansion order) (items (snd e)))).
  { symmetry. eapply Forall2_length. exact Fl. }
  unfold convert_entry. erewrite bind_run by exact E.
  unfold bind, Date_now, ret. rewrite <- L.
  match goal with |- exists b, (Return ?x, _) = _ /\ _ => exists x end.
  split.
  - reflexivity.
  - unfold booking_of.
    cbn [bookingId supplierName supplierType relatedCustomerOrder
         bookingStatus costItems totalAmount paymentTasks].
    split; [eexists; reflexivity|].
    repeat (split; [reflexivity|]).
    split; [exact Fl|]. split; [exact N|].
    eapply Forall_impl; [|exact I]. intros pt (now & i & j & Ej & _). eauto.
Qed.

(** [convertToBookingsFormat] on the entries, one booking per entry; the
    clock is read once per task and once per booking. *)
Lemma convert_entries_run (order : Order) (allSuppliers : list Supplier)
  (es : list (jsstring * Basket num)) (k : nat) :
  Forall (fun e => Forall (expands order) (items (snd e))) es ->
  exists bs,
    mapM (convert_entry order allSuppliers) es k
    = (Return bs, (k + length (task_ids bs) + length bs)%nat)
    /\ Forall2 (booking_of order allSuppliers) es bs.
Proof.
  intros F; revert k; induction F as [|e es Fe F IH]; intros k.
  - exists []. cbn. rewrite !Nat.add_0_r. split; [reflexivity | constructor].
  - destruct (convert_entry_run order allSuppliers e k Fe) as (b & Eb & Bb).
    destruct (IH (S (k + length (paymentTasks b)))) as (bs & Ebs & Bbs).
    exists (b :: bs). split; [|constructor; assumption].
    cbn [mapM]. erewrite bind_run by exact Eb.
    erewrite bind_run by exact Ebs. unfold ret.
    unfold task_ids. cbn [flat_map length]. rewrite length_app, length_map.
    f_equal. lia.
Qed.

(** What a call that returns tells about the items. *)
Lemma items_returned (order : Order) (ps : list (Product num)) (i k k' : nat)
  (ls : list (list (PaymentTask num))) :
  mapM_from (item_tasks order) i ps k = (Return ls, k') ->
  Forall (expands order) ps.
Proof.
  revert i k k' ls; induction ps as [|p ps IH]; intros i k k' ls E;
    [constructor|].
  cbn [mapM_from] in E.
  assert (Ep : expands order p
               /\ item_tasks order i p k
                  = mapM_from (stamp_task i) 0 (expansion order p) k).
  { unfold expands, expansion, item_tasks, bind, lift in *.
    destruct (calculatePaymentTasks _ _ _) as [ts|err];
      [split; reflexivity | discriminate]. }
  destruct Ep as [Ep Ei]. constructor; [exact Ep|].
  destruct (stamp_run i (expansion order p) 0 k) as (l & El & _).
  unfold bind at 1 in E. rewrite Ei, El in E.
  unfold bind in E.
  destruct (mapM_from (item_tasks order) (S i) ps _) as [[ls'|err] k''] eqn:E';
    [|discriminate].
  eapply IH. exact E'.
Qed.

Lemma entries_returned (order : Order) (allSuppliers : list Supplier)
  (es : list (jsstring * Basket num)) (k k' : nat) (bs : list (Booking num)) :
  mapM (convert_entry order allSuppliers) es k = (Return bs, k') ->
  Forall (fun e => Forall (expands order) (items (snd e))) es.
Proof.
  revert k k' bs; induction es as [|e es IH]; intros k k' bs E;
    [constructor|].
  cbn [mapM] in E. unfold bind at 1 in E.
  destruct (convert_entry order allSuppliers e k) as [[b|err] k1] eqn:Ee;
    [|discriminate].
  unfold bind in E.
  destruct (mapM (convert_entry order allSuppliers) es k1)
    as [[bs'|err] k2] eqn:Es; [|discriminate].
  constructor; [|eapply IH; exact Es].
  unfold convert_entry in Ee. unfold bind at 1 in Ee.
  destruct (mapM_from (item_tasks order) 0 (items (snd e)) k)
    as [[ls|err] k3] eqn:Ei; [|discriminate].
  eapply items_returned. exact Ei.
Qed.

End Conversion.

(** ** The synthesizer on any order *)

Section Synthesis.

Context `{Host} {num : Type} `{JSNumber num}.

Lemma Forall_or_Exists {A : Type} (f : A -> bool) (l : list A) :
  Forall (fun x => f x = false) l \/ Exists (fun x => f x = true) l.
Proof.
  induction l as [|x l [IH|IH]]; [left; constructor | |right; right; exact IH].
  destruct (f x) eqn:E; [right; left; exact E | left; constructor; assumption].
Qed.

Lemma NoDup_map_by {A B C : Type} (f : A -> B) (g : A -> C) (l : list A) :
  (forall x y, In x l -> In y l -> f x = f y -> g x = g y) ->
  NoDup (map g l) -> NoDup (map f l).
Proof.
  induction l as [|x l IH]; intros I N; cbn [map] in *; [constructor|].
  apply NoDup_cons_iff in N. destruct N as [Nx N]. constructor.
  - intros Hin. apply in_map_iff in Hin. destruct Hin as (y & Ey & Hy).
    apply Nx. apply in_map_iff. exists y. split; [|exact Hy].
    apply I; [right; exact Hy | left; reflexivity | exact Ey].
  - apply IH; [|exact N]. intros a b Ha Hb. apply I; right; assumption.
Qed.

Lemma calculatePaymentTasks_throws (paymentMethod0 : jsstring) (A : num)
  (D : jsstring) (e : JSError) :
  calculatePaymentTasks paymentMethod0 A D = Throw e -> e = RangeError.
Proof.
  unfold calculatePaymentTasks, toISOString.
  destruct (includes deposit_marker paymentMethod0
            && includes final_marker paymentMethod0).
  - destruct (match_percent deposit_marker paymentMethod0);
      [|discriminate].
    destruct (match_percent final_marker paymentMethod0); [|discriminate].
    destruct (setDate _ _); cbn [bindC]; [|congruence].
    destruct (setDate _ _); cbn [bindC]; [discriminate | congruence].
  - destruct (includes full_marker paymentMethod0); [|discriminate].
    destruct (setDate _ _); cbn [bindC]; [discriminate | congruence].
Qed.

Lemma not_expands (order : Order) (p : Product num) :
  ~ expands order p ->
  calculatePaymentTasks (付款方式 p) (平日单价 p) (出发日期 order)
  = Throw RangeError.
Proof.
  unfold expands, expansion. intros N.
  destruct (calculatePaymentTasks _ _ _) as [ts|e] eqn:E;
    [destruct N; reflexivity|].
  apply calculatePaymentTasks_throws in E. congruence.
Qed.

Lemma expands_dec (order : Order) (p : Product num) :
  expands order p \/ ~ expands order p.
Proof.
  unfold expands, expansion.
  destruct (calculatePaymentTasks _ _ _); [left; reflexivity|right; discriminate].
Qed.

(** The loops stop at the first expansion that throws. *)
Lemma items_throw (order : Order) (ps : list (Product num)) (i k : nat) :
  Exists (fun p => ~ expands order p) ps ->
  exists k', mapM_from (item_tasks order) i ps k = (Throw RangeError, k').
Proof.
  revert i k; induction ps as [|p ps IH]; intros i k Ex; [inversion Ex|].
  cbn [mapM_from]. destruct (expands_dec order p) as [Ep|Np].
  - apply Exists_cons in Ex. destruct Ex as [Ex|Ex]; [contradiction|].
    destruct (stamp_run i (expansion order p) 0 k) as (l & El & _).
    destruct (IH (S i) (k + length (expansion order p))%nat Ex) as (k' & Ek).
    exists k'.
    erewrite bind_run by (unfold item_tasks, bind, lift; rewrite Ep; exact El).
    unfold bind. rewrite Ek. reflexivity.
  - exists k. unfold bind, item_tasks, lift. rewrite (not_expands _ _ Np).
    reflexivity.
Qed.

Lemma entries_throw (order : Order) (allSuppliers : list Supplier)
  (es : list (jsstring * Basket num)) (k : nat) :
  Exists (fun e => Exists (fun p => ~ expands order p) (items (snd e))) es ->
  exists k',
    mapM (convert_entry order allSuppliers) es k = (Throw RangeError, k').
Proof.
  revert k; induction es as [|e es IH]; intros k Ex; [inversion Ex|].
  cbn [mapM].
  assert (D : Forall (expands order) (items (snd e))
              \/ Exists (fun p => ~ expands order p) (items (snd e))).
  { induction (items (snd e)) as [|p ps [IHp|IHp]];
      [left; constructor | | right; right; exact IHp].
    destruct (expands_dec order p);
      [left; constructor; assumption | right; left; assumption]. }
  destruct D as [Fe|Xe].
  - apply Exists_cons in Ex. destruct Ex as [Ex|Ex].
    + exfalso. apply Exists_exists in Ex. destruct Ex as (p & Hp & Np).
      rewrite Forall_forall in Fe. exact (Np (Fe p Hp)).
    + destruct (convert_entry_run order allSuppliers e k Fe) as (b & Eb & _).
      destruct (IH (S (k + length (paymentTasks b))) Ex) as (k' & Ek).
      exists k'. erewrite bind_run by exact Eb.
      unfold bind. rewrite Ek. reflexivity.
  - destruct (items_throw order (items (snd e)) 0 k Xe) as (k' & Ek).
    exists k'. unfold bind at 1, convert_entry. unfold bind at 1.
    rewrite Ek. reflexivity.
Qed.

(** The baskets of an order. *)
Lemma baskets_of_order (allProducts : list (Product num)) (names : list jsstring) :
  Forall (fun p => inherited (供应商名称 p) = false) (resolve allProducts names) ->
  foldC (collect_service allProducts) [] names
  = Return (map (fun s => (s, basket_of (resolve allProducts names) s))
                (first_seen (map 供应商名称 (resolve allProducts names)))).
Proof.
  intros F. rewrite collect_baskets; [reflexivity | constructor | exact F].
Qed.

(** When no supplier is named like a property of [Object.prototype] and
    every expansion returns, the call returns. *)
Lemma generate_returns (orderId0 : jsstring) (allOrders : list Order)
  (allProducts : list (Product num)) (allSuppliers : list Supplier)
  (order : Order) (k : nat) :
  findOrderById orderId0 allOrders = Some order ->
  let ps := resolve allProducts (split comma (关联的服务 order)) in
  let baskets := map (fun s => (s, basket_of ps s))
                     (first_seen (map 供应商名称 ps)) in
  Forall (fun p => inherited (供应商名称 p) = false) ps ->
  Forall (expands order) ps ->
  exists bs,
    generatePaymentBookings orderId0 allOrders allProducts allSuppliers k
    = (Return bs, (k + length (task_ids bs) + length bs)%nat)
    /\ Forall2 (booking_of order allSuppliers) (Object_entries baskets) bs.
Proof.
  intros Ho ps baskets F Fe. unfold generatePaymentBookings. rewrite Ho.
  fold ps. unfold bind at 1, lift.
  unfold ps in F. rewrite baskets_of_order by exact F.
  fold ps. fold baskets. unfold convertToBookingsFormat.
  apply convert_entries_run.
  apply Forall_forall. intros e He.
  apply (Permutation_in _ (Object_entries_perm baskets)) in He.
  apply in_map_iff in He. destruct He as (s & <- & _). cbn [snd].
  unfold basket_of, products_of. cbn [items].
  apply Forall_forall. intros p Hp. apply filter_In in Hp.
  rewrite Forall_forall in Fe. apply Fe. tauto.
Qed.

(** What a call that returns has done. *)
Lemma generate_returned (orderId0 : jsstring) (allOrders : list Order)
  (allProducts : list (Product num)) (allSuppliers : list Supplier)
  (order : Order) (bs : list (Booking num)) (k k' : nat) :
  findOrderById orderId0 allOrders = Some order ->
  generatePaymentBookings orderId0 allOrders allProducts allSuppliers k
  = (Return bs, k') ->
  let ps := resolve allProducts (split comma (关联的服务 order)) in
  let baskets := map (fun s => (s, basket_of ps s))
                     (first_seen (map 供应商名称 ps)) in
  Forall (fun p => inherited (供应商名称 p) = false) ps
  /\ Forall (expands order) ps
  /\ Forall2 (booking_of order allSuppliers) (Object_entries baskets) bs
  /\ k' = (k + length (task_ids bs) + length bs)%nat.
Proof.
  intros Ho E ps baskets. unfold generatePaymentBookings in E. rewrite Ho in E.
  fold ps in E. unfold bind at 1, lift in E.
  destruct (Forall_or_Exists (fun p => inherited (供应商名称 p)) ps) as [F|Ex].
  2:{ unfold ps in Ex. rewrite collect_throws in E;
        [discriminate | constructor | exact Ex]. }
  unfold ps in F. rewrite baskets_of_order in E by exact F.
  fold ps in E, F. fold baskets in E. unfold convertToBookingsFormat in E.
  pose proof (entries_returned _ _ _ _ _ _ E) as Fe.
  destruct (convert_entries_run order allSuppliers _ k Fe) as (bs' & E' & B).
  rewrite E' in E. injection E as <- <-.
  split; [exact F|]. split; [|split; [exact B | reflexivity]].
  apply Forall_forall. intros p Hp.
  assert (He : In (供应商名称 p, basket_of ps (供应商名称 p))
                  (Object_entries baskets)).
  { apply (Permutation_in _ (Permutation_sym (Object_entries_perm baskets))).
    unfold baskets. apply in_map_iff. exists (供应商名称 p).
    split; [reflexivity|]. unfold first_seen. apply distinct_from_In.
    split; [apply in_map; exact Hp | intros []]. }
  rewrite Forall_forall in Fe. specialize (Fe _ He). cbn [snd] in Fe.
  rewrite Forall_forall in Fe. apply Fe. unfold basket_of, products_of.
  cbn [items]. apply filter_In. split; [exact Hp | apply eqb_refl].
Qed.

End Synthesis.

Section SynthesisTheorems.

Context `{Host} {num : Type} `{JSNumber num}.

Lemma first_seen_keys (ps : list (Product num)) (f : jsstring -> Basket num) :
  map fst (map (fun s => (s, f s)) (first_seen (map 供应商名称 ps)))
  = first_seen (map 供应商名称 ps).
Proof. rewrite map_map. cbn [fst]. apply map_id. Qed.

Lemma booking_of_names (order : Order) (allSuppliers : list Supplier)
  (es : list (jsstring * Basket num)) (bs : list (Booking num)) :
  Forall2 (booking_of order allSuppliers) es bs ->
  map supplierName bs = map fst es.
Proof.
  induction 1 as [|e b es bs B F IH]; cbn [map]; [reflexivity|].
  destruct B as (_ & -> & _). rewrite IH. reflexivity.
Qed.

Lemma booking_of_each (order : Order) (allSuppliers : list Supplier)
  (es : list (jsstring * Basket num)) (bs : list (Booking num)) :
  Forall2 (booking_of order allSuppliers) es bs ->
  Forall (fun b => exists e, In e es /\ booking_of order allSuppliers e b) bs.
Proof.
  induction 1 as [|e b es bs B F IH]; constructor.
  - exists e. split; [left; reflexivity | exact B].
  - eapply Forall_impl; [|exact IH]. intros b' (e' & He & Be).
    exists e'. split; [right; exact He | exact Be].
Qed.

(** X1.  How a call for an order that is found ends.  With [ps] the products
    the service names of the order resolve to: (1) when a product of [ps]
    has a supplier named like a property of [Object.prototype], the call
    throws a TypeError before it reads the clock; (2) otherwise, when the
    expansion of a product of [ps] throws, the call throws a RangeError;
    (3) otherwise it returns as many bookings as [ps] has suppliers, and
    has read the clock once per task and once per booking. *)
Theorem generatePaymentBookings_outcomes (orderId0 : jsstring)
  (allOrders : list Order) (allProducts : list (Product num))
  (allSuppliers : list Supplier) (order : Order) (k : nat) :
  findOrderById orderId0 allOrders = Some order ->
  let ps := resolve allProducts (split comma (关联的服务 order)) in
  let run :=
    generatePaymentBookings orderId0 allOrders allProducts allSuppliers k in
  (Exists (fun p => inherited (供应商名称 p) = true) ps ->
   run = (Throw TypeError, k))
  /\ (Forall (fun p => inherited (供应商名称 p) = false) ps ->
      Exists (fun p => ~ expands order p) ps ->
      exists k', run = (Throw RangeError, k'))
  /\ (Forall (fun p => inherited (供应商名称 p) = false) ps ->
      Forall (expands order) ps ->
      exists bs,
        run = (Return bs, (k + length (task_ids bs) + length bs)%nat)
        /\ length bs = length (first_seen (map 供应商名称 ps))).
Proof.
  intros Ho ps run. unfold run, generatePaymentBookings. rewrite Ho.
  fold ps. unfold bind at 1 2 3, lift. split; [|split].
  - intros Ex. unfold ps in *.
    rewrite collect_throws; [reflexivity | constructor | exact Ex].
  - intros F Ex. unfold ps in F. rewrite baskets_of_order by exact F.
    fold ps. unfold convertToBookingsFormat. apply entries_throw.
    apply Exists_exists in Ex. destruct Ex as (p & Hp & Np).
    apply Exists_exists.
    exists (供应商名称 p, basket_of ps (供应商名称 p)). split.
    + apply (Permutation_in _ (Permutation_sym (Object_entries_perm _))).
      apply in_map_iff. exists (供应商名称 p).
      split; [reflexivity|]. unfold first_seen. apply distinct_from_In.
      split; [apply in_map; exact Hp | intros []].
    + cbn [snd]. apply Exists_exists. exists p. split; [|exact Np].
      unfold basket_of, products_of. cbn [items]. apply filter_In.
      split; [exact Hp | apply eqb_refl].
  - intros F Fe.
    destruct (generate_returns orderId0 allOrders allProducts allSuppliers
                order k Ho F Fe) as (bs & E & B).
    unfold generatePaymentBookings in E. rewrite Ho in E.
    exists bs. split; [exact E|].
    rewrite <- (Forall2_length B).
    rewrite (Permutation_length (Object_entries_perm _)).
    apply length_map.
Qed.


(** X3.  The identifiers of one call: in the bookings of a call that returns,
    no two bookings have the same supplier or the same identifier, and no
    two tasks of one booking have the same identifier, whatever the clock
    shows. *)
Theorem identifiers_within_one_call (orderId0 : jsstring)
  (allOrders : list Order) (allProducts : list (Product num))
  (allSuppliers : list Supplier) (bs : list (Booking num)) (k k' : nat) :
  generatePaymentBookings orderId0 allOrders allProducts allSuppliers k
  = (Return bs, k') ->
  NoDup (map supplierName bs)
  /\ NoDup (booking_ids bs)
  /\ Forall (fun b => NoDup (map taskId (paymentTasks b))) bs.
Proof.
  intros E.
  destruct (findOrderById orderId0 allOrders) as [order|] eqn:Ho.
  2:{ unfold generatePaymentBookings in E. rewrite Ho in E.
      injection E as <- _. repeat split; constructor. }
  destruct (generate_returned _ _ _ _ _ _ _ _ Ho E) as (_ & _ & B & _).
  set (ps := resolve allProducts (split comma (关联的服务 order))) in B.
  set (baskets := map (fun s => (s, basket_of ps s))
                      (first_seen (map 供应商名称 ps))) in B.
  assert (Nn : NoDup (map supplierName bs)).
  { rewrite (booking_of_names _ _ _ _ B).
    apply (Permutation_NoDup
             (Permutation_sym (Permutation_map fst (Object_entries_perm baskets)))).
    unfold baskets. rewrite first_seen_keys. apply distinct_from_NoDup. }
  pose proof (booking_of_each _ _ _ _ B) as Each.
  rewrite Forall_forall in Each.
  split; [exact Nn|]. split.
  - unfold booking_ids. apply (NoDup_map_by _ supplierName); [|exact Nn].
    intros b b' Hb Hb' Eid.
    destruct (Each b Hb) as (e & _ & (now & Ei) & En & _).
    destruct (Each b' Hb') as (e' & _ & (now' & Ei') & En' & _).
    rewrite Ei, Ei' in Eid. apply booking_id_inj in Eid.
    destruct Eid as [_ Eid]. congruence.
  - apply Forall_forall. intros b Hb.
    destruct (Each b Hb) as (e & _ & Be). apply Be.
Qed.

(** X4.  What every booking of a call that returns looks like: it is in
    progress, carries the name of the order, the type the directory gives
    its supplier (其他 when the directory does not know him) and an
    identifier that ends with his name; it has at least one cost item, and
    its total is the sum of the amounts of its cost items, added from zero
    in their order; each of its tasks is pending, with no payment date and
    no invoice link. *)
Theorem generated_bookings_fresh (orderId0 : jsstring)
  (allOrders : list Order) (allProducts : list (Product num))
  (allSuppliers : list Supplier) (order : Order) (bs : list (Booking num))
  (k k' : nat) :
  findOrderById orderId0 allOrders = Some order ->
  generatePaymentBookings orderId0 allOrders allProducts allSuppliers k
  = (Return bs, k') ->
  Forall (fun b =>
            bookingStatus b = lit "InProgress"
            /\ relatedCustomerOrder b = 订单名称 order
            /\ supplierType b = directory_type allSuppliers (supplierName b)
            /\ (exists now, bookingId b = booking_id now (supplierName b))
            /\ (exists item rest,
                   costItems b = Some (item :: rest)
                   /\ totalAmount b
                      = Some (fold_left num_add (map amount (item :: rest))
                                        num_zero))
            /\ Forall fresh_task (paymentTasks b)) bs.
Proof.
  intros Ho E.
  destruct (generate_returned _ _ _ _ _ _ _ _ Ho E) as (_ & _ & B & _).
  set (ps := resolve allProducts (split comma (关联的服务 order))) in B.
  set (baskets := map (fun s => (s, basket_of ps s))
                      (first_seen (map 供应商名称 ps))) in B.
  eapply Forall_impl; [|exact (booking_of_each _ _ _ _ B)].
  intros b (e & He & Be).
  apply (Permutation_in _ (Object_entries_perm baskets)) in He.
  unfold baskets in He. apply in_map_iff in He. destruct He as (s & <- & Hs).
  destruct Be as (Ei & En & Ety & Eo & Est & Ec & Et & Ft & _ & Fi).
  cbn [fst snd basket_of total items] in *.
  split; [exact Est|]. split; [exact Eo|].
  split; [rewrite En; exact Ety|]. split; [rewrite En; exact Ei|]. split.
  - unfold first_seen in Hs. apply distinct_from_In in Hs.
    destruct Hs as [Hs _]. apply in_map_iff in Hs.
    destruct Hs as (p & Ep & Hp).
    assert (Hm : In p (products_of s ps)).
    { unfold products_of. apply filter_In. split; [exact Hp|].
      rewrite Ep. apply eqb_refl. }
    rewrite Ec, Et. unfold sum_prices.
    destruct (products_of s ps) as [|q qs]; [destruct Hm|].
    exists (cost_item s q), (map (cost_item s) qs). split; [reflexivity|].
    cbn [map]. rewrite map_map. reflexivity.
  - clear - Ft Fi. rewrite Forall_forall in Fi.
    induction Ft as [|t pt ts pts Ept Ft IH]; constructor.
    + unfold fresh_task. rewrite Ept. cbn. repeat split; try discriminate.
      destruct (Fi pt (or_introl eq_refl)) as (now & i & j & Ej).
      rewrite Ept in Ej. cbn in Ej. eauto.
    + apply IH. intros x Hx. apply Fi. right. exact Hx.
Qed.

End SynthesisTheorems.

Lemma generatePaymentBookings_outcomes_witness :
  let order := Scenario.order "O2" "SvcA,SvcC" "2025-11-10" in
  let ps := @resolve float Scenario.products (split comma (关联的服务 order)) in
  let run :=
    @generatePaymentBookings Scenario.beijing float binary64
      (lit "O2") Scenario.orders Scenario.products Scenario.suppliers 0%nat in
  @findOrderById (lit "O2") Scenario.orders = Some order
  /\ Forall (fun p => inherited (供应商名称 p) = false) ps
  /\ Forall (@expands Scenario.beijing float binary64 order) ps
  /\ exists bs,
      run = (Return bs, (0 + length (task_ids bs) + length bs)%nat)
      /\ length bs = length (first_seen (map 供应商名称 ps)).
Proof.
  cbv zeta.
  assert (H1 : @findOrderById (lit "O2") Scenario.orders
               = Some (Scenario.order "O2" "SvcA,SvcC" "2025-11-10"))
    by reflexivity.
  assert (H2 : Forall (fun p => inherited (供应商名称 p) = false)
                 (@resolve float Scenario.products
                    (split comma
                       (关联的服务 (Scenario.order "O2" "SvcA,SvcC" "2025-11-10")))))
    by (repeat constructor).
  assert (H3 : Forall (@expands Scenario.beijing float binary64
                         (Scenario.order "O2" "SvcA,SvcC" "2025-11-10"))
                 (@resolve float Scenario.products
                    (split comma
                       (关联的服务 (Scenario.order "O2" "SvcA,SvcC" "2025-11-10")))))
    by (repeat constructor; vm_compute; reflexivity).
  refine (conj H1 (conj H2 (conj H3 _))).
  exact (proj2 (proj2
           (@generatePaymentBookings_outcomes Scenario.beijing float binary64
              (lit "O2") Scenario.orders Scenario.products Scenario.suppliers
              (Scenario.order "O2" "SvcA,SvcC" "2025-11-10") 0%nat H1))
           H2 H3).
Defined.


Lemma identifiers_within_one_call_witness :
  exists bs k',
    @generatePaymentBookings Scenario.beijing float binary64
      (lit "O2") Scenario.orders Scenario.products Scenario.suppliers 0%nat
    = (Return bs, k')
    /\ NoDup (map supplierName bs)
    /\ NoDup (booking_ids bs)
    /\ Forall (fun b => NoDup (map taskId (paymentTasks b))) bs.
Proof.
  destruct (@generatePaymentBookings Scenario.beijing float binary64
              (lit "O2") Scenario.orders Scenario.products Scenario.suppliers
              0%nat) as [[bs|e] k'] eqn:E; [|vm_compute in E; discriminate].
  exists bs, k'. split; [reflexivity|].
  exact (@identifiers_within_one_call Scenario.beijing float binary64
           (lit "O2") Scenario.orders Scenario.products Scenario.suppliers
           bs 0%nat k' E).
Defined.

Lemma generated_bookings_fresh_witness :
  let order := Scenario.order "O2" "SvcA,SvcC" "2025-11-10" in
  @findOrderById (lit "O2") Scenario.orders = Some order
  /\ exists bs k',
      @generatePaymentBookings Scenario.beijing float binary64
        (lit "O2") Scenario.orders Scenario.products Scenario.suppliers 0%nat
      = (Return bs, k')
      /\ Forall (fun b =>
            bookingStatus b = lit "InProgress"
            /\ relatedCustomerOrder b = 订单名称 order
            /\ supplierType b = directory_type Scenario.suppliers (supplierName b)
            /\ (exists now, bookingId b = booking_id now (supplierName b))
            /\ (exists item rest,
                   costItems b = Some (item :: rest)
                   /\ totalAmount b
                      = Some (fold_left num_add (map amount (item :: rest))
                                        num_zero))
            /\ Forall fresh_task (paymentTasks b)) bs.
Proof.
  cbv zeta.
  assert (H1 : @findOrderById (lit "O2") Scenario.orders
               = Some (Scenario.order "O2" "SvcA,SvcC" "2025-11-10"))
    by reflexivity.
  refine (conj H1 _).
  destruct (@generatePaymentBookings Scenario.beijing float binary64
              (lit "O2") Scenario.orders Scenario.products Scenario.suppliers
              0%nat) as [[bs|e] k'] eqn:E; [|vm_compute in E; discriminate].
  exists bs, k'. split; [reflexivity|].
  exact (@generated_bookings_fresh Scenario.beijing float binary64
           (lit "O2") Scenario.orders Scenario.products Scenario.suppliers
           (Scenario.order "O2" "SvcA,SvcC" "2025-11-10") bs 0%nat k' H1 E).
Defined.

(** Two suppliers, two bookings, in the order of the services; six readings
    of the clock: four tasks and two bookings. *)
Example bookings_by_supplier_example :
  exists b1 b2,
    @generatePaymentBookings Scenario.beijing float binary64
      (lit "O2") Scenario.orders Scenario.products Scenario.suppliers 0%nat
    = (Return [b1; b2], 5%nat)
    /\ supplierName b1 = lit "Acme" /\ totalAmount b1 = Some 1000%float
    /\ map dueDate (paymentTasks b1) = [lit "2025-11-03"; lit "2025-11-09"]
    /\ supplierName b2 = lit "Bolt" /\ totalAmount b2 = Some 800%float
    /\ supplierType b2 = lit "其他"
    /\ map dueDate (paymentTasks b2) = [lit "2025-11-07"].
Proof.
  eexists; eexists. split; [vm_compute; reflexivity|].
  split; [reflexivity|]. split; [reflexivity|]. split; [vm_compute; reflexivity|].
  split; [reflexivity|]. split; [reflexivity|]. split; [vm_compute; reflexivity|].
  vm_compute; reflexivity.
Qed.

(** A supplier named like an array index is booked before the others. *)
Example array_index_supplier_example :
  let products :=
    [ Scenario.product "SvcA" "Acme" 1000 "全款";
      Scenario.product "SvcB" "7" 500 "全款" ] in
  exists b1 b2 k',
    @generatePaymentBookings Scenario.beijing float binary64
      (lit "O1") Scenario.orders products Scenario.suppliers 0%nat
    = (Return [b1; b2], k')
    /\ supplierName b1 = lit "7" /\ supplierName b2 = lit "Acme".
Proof.
  cbv zeta. eexists; eexists; eexists. split; [vm_compute; reflexivity|].
  split; reflexivity.
Qed.

(** An order whose date does not parse. *)
Example invalid_date_order_example :
  @generatePaymentBookings Scenario.beijing float binary64
    (lit "O3") Scenario.orders Scenario.products Scenario.suppliers 0%nat
  = (Throw RangeError, 0%nat).
Proof. vm_compute. reflexivity. Qed.

Section Undated.

Context `{Host} {num : Type} `{JSNumber num}.

Lemma undated_expansion (paymentMethod0 : jsstring) (A : num) (D : jsstring) :
  new_Date D = None ->
  calculatePaymentTasks paymentMethod0 A D
  = if recognised paymentMethod0 then Throw RangeError else Return [].
Proof.
  intros E. unfold calculatePaymentTasks, recognised. rewrite E.
  destruct (includes deposit_marker paymentMethod0
            && includes final_marker paymentMethod0).
  - destruct (match_percent deposit_marker paymentMethod0); [|reflexivity].
    destruct (match_percent final_marker paymentMethod0); reflexivity.
  - destruct (includes full_marker paymentMethod0); reflexivity.
Qed.

Lemma flat_map_all_nil {A B : Type} (f : A -> list B) (l : list A) :
  (forall x, In x l -> f x = []) -> flat_map f l = [].
Proof.
  induction l as [|x l IH]; intros E; cbn [flat_map]; [reflexivity|].
  rewrite (E x (or_introl eq_refl)), IH; [reflexivity|].
  intros y Hy. apply E. right. exact Hy.
Qed.

(** X5.  An order whose date the host cannot read.  When no supplier of its
    products is named like a property of [Object.prototype]: if one of the
    products has a payment method for which tasks are made, the call
    throws a RangeError; otherwise it returns its bookings, none of which
    has a task. *)
Theorem undated_order (orderId0 : jsstring)
  (allOrders : list Order) (allProducts : list (Product num))
  (allSuppliers : list Supplier) (order : Order) (k : nat) :
  findOrderById orderId0 allOrders = Some order ->
  new_Date (出发日期 order) = None ->
  let ps := resolve allProducts (split comma (关联的服务 order)) in
  Forall (fun p => inherited (供应商名称 p) = false) ps ->
  let run :=
    generatePaymentBookings orderId0 allOrders allProducts allSuppliers k in
  (Exists (fun p => recognised (付款方式 p) = true) ps ->
   exists k', run = (Throw RangeError, k'))
  /\ (Forall (fun p => recognised (付款方式 p) = false) ps ->
      exists bs,
        run = (Return bs, (k + length bs)%nat)
        /\ Forall (fun b => paymentTasks b = []) bs).
Proof.
  intros Ho Ed ps F run. split.
  - intros Ex. unfold run, generatePaymentBookings. rewrite Ho.
    fold ps. unfold bind at 1, lift.
    unfold ps in F. rewrite baskets_of_order by exact F. fold ps.
    unfold convertToBookingsFormat. apply entries_throw.
    apply Exists_exists in Ex. destruct Ex as (p & Hp & Rp).
    apply Exists_exists.
    exists (供应商名称 p, basket_of ps (供应商名称 p)). split.
    + apply (Permutation_in _ (Permutation_sym (Object_entries_perm _))).
      apply in_map_iff. exists (供应商名称 p).
      split; [reflexivity|]. unfold first_seen. apply distinct_from_In.
      split; [apply in_map; exact Hp | intros []].
    + cbn [snd]. apply Exists_exists. exists p. split.
      * unfold basket_of, products_of. cbn [items]. apply filter_In.
        split; [exact Hp | apply eqb_refl].
      * unfold expands, expansion.
        rewrite (undated_expansion _ _ _ Ed), Rp. discriminate.
  - intros Fu.
    assert (Ee : forall p, In p ps -> expansion order p = []).
    { intros p Hp. rewrite Forall_forall in Fu. unfold expansion.
      rewrite (undated_expansion _ _ _ Ed), (Fu p Hp). reflexivity. }
    assert (Fe : Forall (expands order) ps).
    { apply Forall_forall. intros p Hp. unfold expands.
      rewrite (Ee p Hp). rewrite Forall_forall in Fu.
      rewrite (undated_expansion _ _ _ Ed), (Fu p Hp). reflexivity. }
    destruct (generate_returns orderId0 allOrders allProducts allSuppliers
                order k Ho F Fe) as (bs & E & B).
    fold ps in B.
    assert (Ft : Forall (fun b => paymentTasks b = []) bs).
    { eapply Forall_impl; [|exact (booking_of_each _ _ _ _ B)].
      intros b (e & He & Be).
      apply (Permutation_in _ (Object_entries_perm _)) in He.
      apply in_map_iff in He. destruct He as (s & <- & _).
      destruct Be as (_ & _ & _ & _ & _ & _ & _ & Ft & _).
      cbn [fst snd basket_of items] in Ft.
      assert (En : flat_map (expansion order) (products_of s ps) = []).
      { apply flat_map_all_nil. intros q Hq. apply Ee.
        unfold products_of in Hq. apply filter_In in Hq. tauto. }
      rewrite En in Ft. inversion Ft. reflexivity. }
    exists bs. split; [|exact Ft].
    unfold run. rewrite E. f_equal.
    assert (Et : task_ids bs = []).
    { unfold task_ids. clear - Ft.
      induction Ft as [|b bs Eb Ft IH]; cbn [flat_map]; [reflexivity|].
      rewrite Eb, IH. reflexivity. }
    rewrite Et. cbn [length]. lia.
Qed.

End Undated.

Lemma undated_order_witness :
  let order := Scenario.order "O3" "SvcB" "待定" in
  let ps := @resolve float Scenario.products (split comma (关联的服务 order)) in
  let run :=
    @generatePaymentBookings Scenario.beijing float binary64
      (lit "O3") Scenario.orders Scenario.products Scenario.suppliers 0%nat in
  @findOrderById (lit "O3") Scenario.orders = Some order
  /\ @new_Date Scenario.beijing (出发日期 order) = None
  /\ Forall (fun p => inherited (供应商名称 p) = false) ps
  /\ (Exists (fun p => recognised (付款方式 p) = true) ps ->
      exists k', run = (Throw RangeError, k'))
  /\ (Forall (fun p => recognised (付款方式 p) = false) ps ->
      exists bs,
        run = (Return bs, (0 + length bs)%nat)
        /\ Forall (fun b => paymentTasks b = []) bs).
Proof.
  cbv zeta.
  assert (H1 : @findOrderById (lit "O3") Scenario.orders
               = Some (Scenario.order "O3" "SvcB" "待定")) by reflexivity.
  assert (H2 : @new_Date Scenario.beijing
                 (出发日期 (Scenario.order "O3" "SvcB" "待定")) = None)
    by (vm_compute; reflexivity).
  assert (H3 : Forall (fun p => inherited (供应商名称 p) = false)
                 (@resolve float Scenario.products
                    (split comma (关联的服务 (Scenario.order "O3" "SvcB" "待定")))))
    by (repeat constructor).
  refine (conj H1 (conj H2 (conj H3 _))).
  exact (@undated_order Scenario.beijing float binary64
           (lit "O3") Scenario.orders Scenario.products Scenario.suppliers
           (Scenario.order "O3" "SvcB" "待定") 0%nat H1 H2 H3).
Defined.

(** ** Service names *)

Module TrimFacts.

Lemma trim_start_spaces (pre s : jsstring) :
  Forall (fun c => is_space c = true) pre ->
  trim_start (pre ++ s) = trim_start s.
Proof.
  induction 1 as [|c pre Hc F IH]; cbn [app trim_start]; [reflexivity|].
  rewrite Hc. exact IH.
Qed.

Lemma trim_start_app (s t : jsstring) :
  trim_start s <> [] -> trim_start (s ++ t) = trim_start s ++ t.
Proof.
  induction s as [|c s IH]; cbn [app trim_start]; [congruence|].
  destruct (is_space c); [exact IH | reflexivity].
Qed.

Lemma trim_start_all_spaces (s : jsstring) :
  trim_start s = [] -> Forall (fun c => is_space c = true) s.
Proof.
  induction s as [|c s IH]; cbn [trim_start]; [constructor|].
  destruct (is_space c) eqn:E; [|discriminate].
  intros Es. constructor; [exact E | apply IH; exact Es].
Qed.

Lemma trim_start_head (s : jsstring) (c : Z) (r : jsstring) :
  trim_start s = c :: r -> is_space c = false.
Proof.
  induction s as [|d s IH]; cbn [trim_start]; [discriminate|].
  destruct (is_space d) eqn:E; [exact IH|]. intros Es. congruence.
Qed.

(** White space around a string does not change what [trim] returns. *)
Lemma trim_padded (pre s post : jsstring) :
  Forall (fun c => is_space c = true) pre ->
  Forall (fun c => is_space c = true) post ->
  trim (pre ++ s ++ post) = trim s.
Proof.
  intros Fpre Fpost. unfold trim. rewrite trim_start_spaces by exact Fpre.
  f_equal.
  assert (Frev : Forall (fun c => is_space c = true) (rev post)).
  { apply Forall_forall. intros c Hc. apply in_rev in Hc.
    rewrite Forall_forall in Fpost. apply Fpost. exact Hc. }
  destruct (trim_start s) as [|c r] eqn:E.
  - pose proof (trim_start_all_spaces s E) as Fs.
    rewrite trim_start_spaces by exact Fs.
    destruct (trim_start post) as [|d q] eqn:Ep; [reflexivity|].
    assert (Fq : Forall (fun c => is_space c = true) (rev (d :: q))).
    { apply Forall_forall. intros x Hx. apply in_rev in Hx.
      assert (Hp : In x post).
      { clear - Ep Hx. induction post as [|y post IH]; cbn [trim_start] in Ep;
          [discriminate|].
        destruct (is_space y); [right; apply IH; exact Ep|].
        rewrite Ep. exact Hx. }
      rewrite Forall_forall in Fpost. apply Fpost. exact Hp. }
    rewrite <- (app_nil_r (rev (d :: q))).
    rewrite trim_start_spaces by exact Fq. reflexivity.
  - rewrite trim_start_app by congruence. rewrite E, rev_app_distr.
    apply trim_start_spaces. exact Frev.
Qed.

(** What [trim] returns neither starts nor ends with white space. *)
Lemma trim_ends (s : jsstring) :
  match trim s with c :: _ => is_space c = false | [] => True end
  /\ match rev (trim s) with c :: _ => is_space c = false | [] => True end.
Proof.
  unfold trim. rewrite rev_involutive. split.
  - destruct (trim_start (rev (trim_start s))) as [|c r] eqn:E; [exact I|].
    cbn [rev].
    assert (Hin : In c (trim_start s) /\ trim_start s <> []).
    { assert (Hc : In c (rev (trim_start s))).
      { clear - E. induction (rev (trim_start s)) as [|y l IH];
          cbn [trim_start] in E; [discriminate|].
        destruct (is_space y); [right; apply IH; exact E|].
        rewrite E. left. reflexivity. }
      apply in_rev in Hc. split; [exact Hc|]. intros En. rewrite En in Hc.
      exact Hc. }
    destruct Hin as [_ Hne].
    destruct (trim_start s) as [|a q] eqn:Es; [congruence|].
    pose proof (trim_start_head s a q Es) as Ha.
    (* the first unit of the result is [a] *)
    assert (T : trim_start (rev (a :: q)) = c :: r) by exact E.
    cbn [rev] in T.
    assert (X : exists l, rev r ++ [c] = a :: l).
    { assert (Hlast : exists m, trim_start (rev q ++ [a]) = m ++ [a]).
      { clear - Ha. induction (rev q) as [|y l IH]; cbn [app trim_start].
        - rewrite Ha. exists []. reflexivity.
        - destruct (is_space y); [exact IH|]. exists (y :: l). reflexivity. }
      destruct Hlast as (m & Em). rewrite Em in T.
      assert (R : rev (c :: r) = rev (m ++ [a])) by (rewrite T; reflexivity).
      rewrite rev_app_distr in R. cbn [rev app] in R. cbn [rev] in R.
      eexists. exact R. }
    destruct X as (l & ->). exact Ha.
  - destruct (trim_start (rev (trim_start s))) as [|c r] eqn:E; [exact I|].
    eapply trim_start_head. exact E.
Qed.

End TrimFacts.

Import TrimFacts.

Section ServiceNames.

Context {num : Type}.

(** X6.  [findProductByName] compares the names of the products with the
    service name stripped of the white space around it: (1) white space
    around a service name changes nothing; (2) the product found is the
    first whose name is the stripped service name; (3) a product whose own
    name starts or ends with white space is never found, whatever the
    service name. *)
Theorem findProductByName_trims (allProducts : list (Product num)) :
  (forall pre name post,
      Forall (fun c => is_space c = true) pre ->
      Forall (fun c => is_space c = true) post ->
      findProductByName (pre ++ name ++ post) allProducts
      = findProductByName name allProducts)
  /\ (forall name p,
         findProductByName name allProducts = Some p ->
         exists before after,
           allProducts = before ++ p :: after
           /\ 服务名称 p = trim name
           /\ Forall (fun q => 服务名称 q <> trim name) before)
  /\ (forall name p c rest,
         (服务名称 p = c :: rest \/ 服务名称 p = rest ++ [c]) ->
         is_space c = true ->
         findProductByName name allProducts <> Some p).
Proof.
  assert (Found : forall name p,
             findProductByName name allProducts = Some p ->
             exists before after,
               allProducts = before ++ p :: after
               /\ 服务名称 p = trim name
               /\ Forall (fun q => 服务名称 q <> trim name) before).
  { intros name p. unfold findProductByName.
    induction allProducts as [|q qs IH]; cbn [find]; [discriminate|].
    destruct (eqb (服务名称 q) (trim name)) eqn:E.
    - intros Ep; injection Ep as <-. apply eqb_eq in E.
      exists [], qs. repeat split; [exact E | constructor].
    - intros Ep. destruct (IH Ep) as (before & after & -> & En & Fb).
      exists (q :: before), after. repeat split; [exact En|].
      constructor; [apply eqb_neq; exact E | exact Fb]. }
  split; [|split; [exact Found|]].
  - intros pre name post Fpre Fpost. unfold findProductByName.
    rewrite trim_padded by assumption. reflexivity.
  - intros name p c rest Ep Hc Ef.
    destruct (Found name p Ef) as (_ & _ & _ & En & _).
    pose proof (trim_ends name) as [Th Tl]. rewrite <- En in Th, Tl.
    destruct Ep as [Ep|Ep]; rewrite Ep in Th, Tl.
    + congruence.
    + rewrite rev_app_distr in Tl. cbn [rev app] in Tl. congruence.
Qed.

End ServiceNames.

(** Around the names of an order: spaces after the commas are ignored, a
    space inside a name is not. *)
Example findProductByName_examples :
  @resolve float Scenario.products (split comma (lit " SvcA , SvcC "))
  = [Scenario.product "SvcA" "Acme" 1000 "定金30%+尾款70%";
     Scenario.product "SvcC" "Bolt" 800 "全款"]
  /\ @resolve float Scenario.products (split comma (lit "Svc A")) = []
  /\ @findProductByName float (lit " SvcX")
       [Scenario.product " SvcX" "Acme" 1000 "全款"] = None.
Proof. repeat split; vm_compute; reflexivity. Qed.

(** ** The store over time *)

Section Keeps.

Context `{Host} {num : Type} `{JSNumber num}.

Lemma keeps_task_refl (t : PaymentTask num) : keeps_task t t.
Proof. unfold keeps_task. tauto. Qed.

Lemma keeps_task_trans (t1 t2 t3 : PaymentTask num) :
  keeps_task t1 t2 -> keeps_task t2 t3 -> keeps_task t1 t3.
Proof.
  unfold keeps_task.
  intros (A1 & A2 & A3 & A4 & A5 & A6 & A7) (B1 & B2 & B3 & B4 & B5 & B6 & B7).
  repeat split; try congruence; auto.
Qed.

Lemma keeps_refl (store : list (Booking num)) : keeps store store.
Proof.
  split.
  - exists []. rewrite app_nil_r. reflexivity.
  - intros i j t E. exists t. split; [exact E | apply keeps_task_refl].
Qed.

Lemma keeps_trans (s1 s2 s3 : list (Booking num)) :
  keeps s1 s2 -> keeps s2 s3 -> keeps s1 s3.
Proof.
  intros [(m1 & H1) T1] [(m2 & H2) T2]. split.
  - exists (m1 ++ m2). rewrite H2, H1, app_assoc. reflexivity.
  - intros i j t E. destruct (T1 i j t E) as (t' & E' & K').
    destruct (T2 i j t' E') as (t'' & E'' & K'').
    exists t''. split; [exact E''|]. eapply keeps_task_trans; eassumption.
Qed.

(** A mutation of the first match by a function that keeps the tasks. *)
Lemma update_first_keeps (taskId0 : jsstring)
  (f : PaymentTask num -> PaymentTask num) (store : list (Booking num)) :
  (forall t, keeps_task t (f t)) -> keeps store (update_first taskId0 f store).
Proof.
  intros Kf.
  destruct (update_first_frame taskId0 f store) as (Eh & En & Es). split.
  - exists []. rewrite app_nil_r. exact Eh.
  - intros i j t E.
    destruct (first_match taskId0 store) as [[i0 j0]|] eqn:Ef.
    + destruct (Nat.eq_dec i i0) as [->|Ni]; [destruct (Nat.eq_dec j j0) as [->|Nj]|].
      * destruct (Es i0 j0 eq_refl) as (t0 & E0 & _ & E1).
        rewrite E in E0. injection E0 as <-. exists (f t). auto.
      * exists t. split; [|apply keeps_task_refl]. rewrite En; [exact E|congruence].
      * exists t. split; [|apply keeps_task_refl]. rewrite En; [exact E|congruence].
    + exists t. split; [|apply keeps_task_refl]. rewrite En; [exact E|congruence].
Qed.

Lemma push_task_keeps (name : jsstring) (newTask : PaymentTask num)
  (store : list (Booking num)) :
  keeps store (push_task name newTask store).
Proof.
  split.
  - exists []. rewrite app_nil_r.
    induction store as [|b bs IH]; cbn [push_task map]; [reflexivity|].
    destruct (eqb (supplierName b) name); cbn [map];
      [reflexivity | rewrite IH; reflexivity].
  - intros i j t E. exists t. split; [|apply keeps_task_refl].
    revert i E; induction store as [|b bs IH]; intros i E;
      cbn [push_task]; [exact E|].
    destruct (eqb (supplierName b) name).
    + destruct i as [|i]; [|exact E]. unfold task_at in *.
      cbn [nth_error set_paymentTasks paymentTasks] in *.
      rewrite nth_error_app1; [exact E|].
      apply nth_error_Some. congruence.
    + destruct i as [|i]; [exact E|]. unfold task_at in *.
      cbn [nth_error] in *. apply IH. exact E.
Qed.

Lemma append_keeps (store more : list (Booking num)) :
  keeps store (store ++ more).
Proof.
  split.
  - exists (map header more). apply map_app.
  - intros i j t E. exists t. split; [|apply keeps_task_refl].
    unfold task_at in *.
    destruct (nth_error store i) as [b|] eqn:Eb; [|discriminate].
    rewrite nth_error_app1 by (apply nth_error_Some; congruence).
    rewrite Eb. exact E.
Qed.

(** What [addTask] does to the store. *)
Lemma addTask_run (taskData : Form.TaskData num) (store : list (Booking num))
  (k : nat) :
  addTask taskData store k
  = match find (fun b => eqb (supplierName b) (Form.supplierName taskData))
               store with
    | Some _ =>
        (Return (push_task (Form.supplierName taskData)
                   (form_task taskData (clock k)) store), S k)
    | None =>
        (Return (store ++ [form_booking taskData (clock k) (clock (S k))]),
         S (S k))
    end.
Proof.
  unfold addTask.
  destruct (find _ store); reflexivity.
Qed.

Lemma push_task_first (name : jsstring) (newTask : PaymentTask num)
  (bs1 bs2 : list (Booking num)) (b : Booking num) :
  Forall (fun b' => supplierName b' <> name) bs1 -> supplierName b = name ->
  push_task name newTask (bs1 ++ b :: bs2)
  = bs1 ++ set_paymentTasks b (paymentTasks b ++ [newTask]) :: bs2
  /\ find (fun b' => eqb (supplierName b') name) (bs1 ++ b :: bs2) = Some b.
Proof.
  intros F E. induction F as [|b1 bs1 N F [IHp IHf]]; cbn [app push_task find].
  - rewrite E, eqb_refl. auto.
  - apply eqb_neq in N. rewrite N, IHp, IHf. auto.
Qed.

(** X7.  [addTask] puts the task of the form at the end of the first booking of
    the supplier the form names, and reads the clock once; the type of
    supplier and the order the form names play no part then.  When the
    supplier has no booking, it appends a booking with the fields of the
    form, no cost items and no total, and the task as its only task; the
    identifier of the booking is made of a first reading of the clock, the
    identifier of the task of a second. *)
Theorem addTask_attaches (taskData : Form.TaskData num)
  (store : list (Booking num)) (k : nat) :
  (forall bs1 b bs2,
      store = bs1 ++ b :: bs2 ->
      Forall (fun b' => supplierName b' <> Form.supplierName taskData) bs1 ->
      supplierName b = Form.supplierName taskData ->
      addTask taskData store k
      = (Return (bs1 ++ set_paymentTasks b
                         (paymentTasks b ++ [form_task taskData (clock k)])
                 :: bs2), S k))
  /\ (Forall (fun b => supplierName b <> Form.supplierName taskData) store ->
      addTask taskData store k
      = (Return (store ++ [form_booking taskData (clock k) (clock (S k))]),
         S (S k))).
Proof.
  rewrite addTask_run. split.
  - intros bs1 b bs2 -> F E.
    destruct (push_task_first _ (form_task taskData (clock k)) bs1 bs2 b F E)
      as [-> ->]. reflexivity.
  - intros F.
    assert (En : find (fun b => eqb (supplierName b) (Form.supplierName taskData))
                      store = None).
    { apply find_none_iff. eapply Forall_impl; [|exact F].
      intros b N. apply eqb_neq. exact N. }
    rewrite En. reflexivity.
Qed.

(** X8.  Every operation on the store returns a store that keeps the one it
    was given: no booking and no task is removed or moved, no booking
    changes in a field other than its tasks, no task changes its
    identifier, type, description, amount or due date, a paid task stays
    paid and an invoice link is never removed.  The relation is reflexive
    and transitive, so this holds along any sequence of operations. *)
Theorem store_operations_keep (store : list (Booking num)) (k : nat) :
  (forall taskId0 store' k',
      markAsPaid taskId0 store k = (Return store', k') -> keeps store store')
  /\ (forall prompted taskId0,
         keeps store (addInvoiceLink prompted taskId0 store))
  /\ (forall taskData store' k',
         addTask taskData store k = (Return store', k') -> keeps store store')
  /\ (forall newTask store' k',
         submitNewTask newTask store k = (Return store', k') ->
         keeps store store')
  /\ (forall selectedOrderId orders products suppliers store' k',
         handleSmartGenerate selectedOrderId orders products suppliers store k
         = (Return store', k') -> keeps store store')
  /\ keeps store store
  /\ (forall s1 s2, keeps store s1 -> keeps s1 s2 -> keeps store s2).
Proof.
  assert (Add : forall taskData store' k',
             addTask taskData store k = (Return store', k') ->
             keeps store store').
  { intros taskData store' k' E. rewrite addTask_run in E.
    destruct (find _ store); injection E as <- _;
      [apply push_task_keeps | apply append_keeps]. }
  split; [|split; [|split; [exact Add|split; [|split; [|split]]]]].
  - intros taskId0 store' k' E. rewrite markAsPaid_update in E.
    injection E as <- _. apply update_first_keeps.
    intros t. unfold keeps_task, set_paid. cbn. repeat split; auto.
  - intros prompted taskId0. unfold addInvoiceLink.
    destruct prompted as [[|c link]|]; try apply keeps_refl.
    rewrite addInvoiceLink_update. apply update_first_keeps.
    intros t. unfold keeps_task, set_invoiceLink. cbn.
    repeat split; auto. discriminate.
  - intros newTask store' k' E. unfold submitNewTask in E.
    destruct (handleSubmit newTask); [|eapply Add; exact E].
    injection E as <- _. apply keeps_refl.
  - intros selectedOrderId orders products suppliers store' k' E.
    unfold handleSmartGenerate in E.
    destruct selectedOrderId as [|c sel];
      [injection E as <- _; apply keeps_refl|].
    unfold bind in E.
    destruct (generatePaymentBookings _ _ _ _ k) as [[bs|e] k1];
      [|discriminate].
    destruct bs as [|b bs]; injection E as <- _;
      [apply keeps_refl | apply append_keeps].
  - apply keeps_refl.
  - intros s1 s2. apply keeps_trans.
Qed.

End Keeps.

Section Lifecycle.

Context `{Host} {num : Type} `{JSNumber num}.

Lemma mutate_found_commute (id id' : jsstring)
  (f g : PaymentTask num -> PaymentTask num) (tasks : list (PaymentTask num)) :
  (forall t, taskId (f t) = taskId t) -> (forall t, taskId (g t) = taskId t) ->
  (forall t, f (g t) = g (f t)) ->
  mutate_found id f (mutate_found id' g tasks)
  = mutate_found id' g (mutate_found id f tasks).
Proof.
  intros If Ig C. induction tasks as [|t ts IH]; cbn [mutate_found];
    [reflexivity|].
  destruct (eqb (taskId t) id) eqn:E, (eqb (taskId t) id') eqn:E';
    cbn [mutate_found]; rewrite ?If, ?Ig, ?E, ?E'; try reflexivity.
  - rewrite C. reflexivity.
  - rewrite IH. reflexivity.
Qed.

Lemma find_task_mutate (id id' : jsstring)
  (g : PaymentTask num -> PaymentTask num) (tasks : list (PaymentTask num)) :
  (forall t, taskId (g t) = taskId t) ->
  find_task id (mutate_found id' g tasks) = None
  <-> find_task id tasks = None.
Proof.
  intros Ig. unfold find_task.
  induction tasks as [|t ts IH]; cbn [mutate_found find]; [tauto|].
  destruct (eqb (taskId t) id') eqn:E'; cbn [find]; rewrite ?Ig.
  - destruct (eqb (taskId t) id); [split; discriminate | tauto].
  - destruct (eqb (taskId t) id); [split; discriminate | exact IH].
Qed.

Lemma update_first_commute (id id' : jsstring)
  (f g : PaymentTask num -> PaymentTask num) (store : list (Booking num)) :
  (forall t, taskId (f t) = taskId t) -> (forall t, taskId (g t) = taskId t) ->
  (forall t, f (g t) = g (f t)) ->
  update_first id f (update_first id' g store)
  = update_first id' g (update_first id f store).
Proof.
  intros If Ig C. induction store as [|b bs IH]; cbn [update_first];
    [reflexivity|].
  pose proof (find_task_mutate id id' g (paymentTasks b) Ig) as Mg.
  pose proof (find_task_mutate id' id f (paymentTasks b) If) as Mf.
  destruct (find_task id (paymentTasks b)) as [t|] eqn:E,
           (find_task id' (paymentTasks b)) as [t'|] eqn:E';
    cbn [update_first paymentTasks set_paymentTasks]; rewrite ?E, ?E'.
  - destruct (find_task id (mutate_found id' g (paymentTasks b))) eqn:X;
      [|destruct Mg as [Mg _]; discriminate (Mg eq_refl)].
    destruct (find_task id' (mutate_found id f (paymentTasks b))) eqn:Y;
      [|destruct Mf as [Mf _]; discriminate (Mf eq_refl)].
    unfold set_paymentTasks. cbn.
    rewrite (mutate_found_commute id id' f g) by assumption. reflexivity.
  - destruct (find_task id' (mutate_found id f (paymentTasks b))) eqn:Y;
      [destruct Mf as [_ Mf]; discriminate (Mf eq_refl)|].
    reflexivity.
  - destruct (find_task id (mutate_found id' g (paymentTasks b))) eqn:X;
      [destruct Mg as [_ Mg]; discriminate (Mg eq_refl)|].
    reflexivity.
  - rewrite IH. reflexivity.
Qed.

Lemma task_index_mutate (id id' : jsstring)
  (g : PaymentTask num -> PaymentTask num) (tasks : list (PaymentTask num)) :
  (forall t, taskId (g t) = taskId t) ->
  task_index id (mutate_found id' g tasks) = task_index id tasks.
Proof.
  intros Ig. induction tasks as [|t ts IH]; cbn [mutate_found task_index];
    [reflexivity|].
  destruct (eqb (taskId t) id') eqn:E'; cbn [task_index]; rewrite ?Ig.
  - reflexivity.
  - rewrite IH. reflexivity.
Qed.

Lemma first_match_update (id id' : jsstring)
  (g : PaymentTask num -> PaymentTask num) (store : list (Booking num)) :
  (forall t, taskId (g t) = taskId t) ->
  first_match id (update_first id' g store) = first_match id store.
Proof.
  intros Ig. induction store as [|b bs IH]; cbn [update_first first_match];
    [reflexivity|].
  destruct (find_task id' (paymentTasks b)); cbn [first_match paymentTasks set_paymentTasks].
  - rewrite task_index_mutate by exact Ig. reflexivity.
  - rewrite IH. reflexivity.
Qed.

(** X9.  Marking a task as paid and attaching an invoice link to a task, the
    same or another, can be done in either order: the store is the same,
    and so is the number of readings of the clock. *)
Theorem markAsPaid_addInvoiceLink_commute (taskId0 taskId1 : jsstring)
  (prompted : option jsstring) (store : list (Booking num)) (k : nat) :
  markAsPaid taskId0 (addInvoiceLink prompted taskId1 store) k
  = bind (markAsPaid taskId0 store)
         (fun store' => ret (addInvoiceLink prompted taskId1 store')) k.
Proof.
  erewrite bind_run by apply markAsPaid_update. unfold ret.
  rewrite markAsPaid_update. unfold addInvoiceLink.
  destruct prompted as [[|c link]|]; try reflexivity.
  rewrite !addInvoiceLink_update.
  rewrite first_match_update by reflexivity.
  rewrite update_first_commute; reflexivity || (intros; reflexivity).
Qed.

Lemma stamped_same_but_id (ts : list (Term.Task num))
  (pts pts' : list (PaymentTask num)) :
  Forall2 (fun t pt => pt = stamped (taskId pt) t) ts pts ->
  Forall2 (fun t pt => pt = stamped (taskId pt) t) ts pts' ->
  Forall2 same_but_id pts pts'.
Proof.
  intros F; revert pts'; induction F as [|t pt ts pts E F IH]; intros pts' F'.
  - inversion F'. constructor.
  - destruct pts' as [|pt' pts']; [inversion F'|].
    apply Forall2_cons_iff in F'. destruct F' as [E' F']. constructor.
    + rewrite E, E'. unfold same_but_id. cbn. tauto.
    + apply IH. exact F'.
Qed.

Lemma booking_of_twice (order : Order) (allSuppliers : list Supplier)
  (es : list (jsstring * Basket num)) (bs bs' : list (Booking num)) :
  Forall2 (booking_of order allSuppliers) es bs ->
  Forall2 (booking_of order allSuppliers) es bs' ->
  Forall2 (fun b b' =>
             supplierName b' = supplierName b
             /\ supplierType b' = supplierType b
             /\ relatedCustomerOrder b' = relatedCustomerOrder b
             /\ bookingStatus b' = bookingStatus b
             /\ costItems b' = costItems b
             /\ totalAmount b' = totalAmount b
             /\ Forall2 same_but_id (paymentTasks b) (paymentTasks b')) bs bs'.
Proof.
  intros F; revert bs'; induction F as [|e b es bs B F IH]; intros bs' F'.
  - inversion F'. constructor.
  - destruct bs' as [|b' bs']; [inversion F'|].
    apply Forall2_cons_iff in F'. destruct F' as [B' F']. constructor.
    + destruct B as (_ & A1 & A2 & A3 & A4 & A5 & A6 & A7 & _).
      destruct B' as (_ & B1 & B2 & B3 & B4 & B5 & B6 & B7 & _).
      repeat split; try congruence.
      eapply stamped_same_but_id; eassumption.
    + apply IH. exact F'.
Qed.

(** X10.  [handleSmartGenerate] does not look at the store: when it has
    appended the bookings of an order, a second call with the same
    selection appends them again, the same but for the identifiers. *)
Theorem handleSmartGenerate_twice (selectedOrderId : jsstring)
  (orders : list Order) (products : list (Product num))
  (suppliers : list Supplier) (store store1 : list (Booking num))
  (k k1 : nat) :
  handleSmartGenerate selectedOrderId orders products suppliers store k
  = (Return store1, k1) ->
  exists bs bs' k2,
    store1 = store ++ bs
    /\ handleSmartGenerate selectedOrderId orders products suppliers store1 k1
       = (Return (store ++ bs ++ bs'), k2)
    /\ Forall2 (fun b b' =>
                  supplierName b' = supplierName b
                  /\ supplierType b' = supplierType b
                  /\ relatedCustomerOrder b' = relatedCustomerOrder b
                  /\ bookingStatus b' = bookingStatus b
                  /\ costItems b' = costItems b
                  /\ totalAmount b' = totalAmount b
                  /\ Forall2 same_but_id (paymentTasks b) (paymentTasks b'))
               bs bs'.
Proof.
  intros E. unfold handleSmartGenerate in *.
  destruct selectedOrderId as [|c sel].
  { injection E as <- <-. exists [], [], k. rewrite !app_nil_r.
    split; [reflexivity|]. split; [reflexivity | constructor]. }
  unfold bind in E.
  destruct (generatePaymentBookings (c :: sel) orders products suppliers k)
    as [[bs|e] k1'] eqn:G; [|discriminate].
  assert (E1 : store1 = store ++ bs /\ k1 = k1').
  { destruct bs; injection E as <- <-; rewrite ?app_nil_r; auto. }
  destruct E1 as [-> ->]. clear E.
  destruct (findOrderById (c :: sel) orders) as [order|] eqn:Ho.
  2:{ unfold generatePaymentBookings in G. rewrite Ho in G.
      injection G as <- <-. exists [], [], k. rewrite !app_nil_r.
      split; [reflexivity|]. split; [|constructor].
      unfold bind, generatePaymentBookings. rewrite Ho. reflexivity. }
  destruct (generate_returned _ _ _ _ _ _ _ _ Ho G) as (F & Fe & B & _).
  destruct (generate_returns (c :: sel) orders products suppliers order k1'
              Ho F Fe) as (bs' & G' & B').
  pose proof (booking_of_twice _ _ _ _ _ B B') as T.
  exists bs, bs'. eexists. split; [reflexivity|]. split; [|exact T].
  unfold bind. rewrite G'.
  destruct bs' as [|b' bs'].
  - inversion T. subst. rewrite !app_nil_r. reflexivity.
  - rewrite <- app_assoc. reflexivity.
Qed.

End Lifecycle.

Lemma handleSmartGenerate_twice_witness :
  exists store1 k1,
    @handleSmartGenerate Scenario.beijing float binary64 (lit "O2")
      Scenario.orders Scenario.products Scenario.suppliers Scenario.store 0%nat
    = (Return store1, k1)
    /\ exists bs bs' k2,
        store1 = Scenario.store ++ bs
        /\ @handleSmartGenerate Scenario.beijing float binary64 (lit "O2")
             Scenario.orders Scenario.products Scenario.suppliers store1 k1
           = (Return (Scenario.store ++ bs ++ bs'), k2)
        /\ Forall2 (fun b b' =>
                      supplierName b' = supplierName b
                      /\ supplierType b' = supplierType b
                      /\ relatedCustomerOrder b' = relatedCustomerOrder b
                      /\ bookingStatus b' = bookingStatus b
                      /\ costItems b' = costItems b
                      /\ totalAmount b' = totalAmount b
                      /\ Forall2 same_but_id (paymentTasks b) (paymentTasks b'))
                   bs bs'.
Proof.
  destruct (@handleSmartGenerate Scenario.beijing float binary64 (lit "O2")
              Scenario.orders Scenario.products Scenario.suppliers
              Scenario.store 0%nat) as [[store1|e] k1] eqn:E;
    [|vm_compute in E; discriminate].
  exists store1, k1. split; [reflexivity|].
  exact (@handleSmartGenerate_twice Scenario.beijing float binary64 (lit "O2")
           Scenario.orders Scenario.products Scenario.suppliers
           Scenario.store store1 0%nat k1 E).
Defined.

(** Twice the same order: four bookings more in the store, for two
    suppliers. *)
Example handleSmartGenerate_twice_example :
  exists store1 k1 store2 k2,
    @handleSmartGenerate Scenario.beijing float binary64 (lit "O2")
      Scenario.orders Scenario.products Scenario.suppliers Scenario.store 0%nat
    = (Return store1, k1)
    /\ @handleSmartGenerate Scenario.beijing float binary64 (lit "O2")
         Scenario.orders Scenario.products Scenario.suppliers store1 k1
       = (Return store2, k2)
    /\ map supplierName store2
       = map lit ["Acme"; "Bolt"; "Acme"; "Bolt"; "Acme"; "Bolt"]%string.
Proof.
  eexists; eexists; eexists; eexists.
  split; [vm_compute; reflexivity|]. split; [vm_compute; reflexivity|].
  vm_compute. reflexivity.
Qed.

(** ** The table *)

Section SortFacts.

Context {A : Type} (comparefn : A -> A -> Z).

Lemma sort_insert_perm (x : A) (l : list A) :
  Permutation (sort_insert comparefn x l) (x :: l).
Proof.
  induction l as [|y l IH]; cbn [sort_insert]; [reflexivity|].
  destruct (comparefn x y <=? 0); [reflexivity|].
  rewrite IH. apply perm_swap.
Qed.

(** The sort returns the elements it was given. *)
Lemma Array_sort_perm (l : list A) : Permutation (Array_sort comparefn l) l.
Proof.
  unfold Array_sort. induction l as [|x l IH]; cbn [fold_right]; [reflexivity|].
  rewrite sort_insert_perm. constructor. exact IH.
Qed.

Variable key : A -> Z.

(** For a comparator that compares keys, the result is in ascending
    order of the keys, and stable. *)
Lemma sort_insert_sorted (x : A) (l : list A) :
  (forall y, In y l -> comparefn x y = key x - key y) ->
  StronglySorted (fun a b => key a <= key b) l ->
  StronglySorted (fun a b => key a <= key b) (sort_insert comparefn x l).
Proof.
  intros Hk S. induction S as [|y l S IH F]; cbn [sort_insert].
  - constructor; constructor.
  - destruct (comparefn x y <=? 0) eqn:E.
    + apply Z.leb_le in E. rewrite Hk in E by (left; reflexivity).
      constructor; [constructor; assumption|].
      constructor; [lia|]. eapply Forall_impl; [|exact F].
      cbv beta. intros z Hz. lia.
    + apply Z.leb_gt in E. rewrite Hk in E by (left; reflexivity).
      constructor.
      * apply IH. intros z Hz. apply Hk. right. exact Hz.
      * apply (Permutation_Forall (Permutation_sym (sort_insert_perm x l))).
        constructor; [lia | exact F].
Qed.

Lemma Array_sort_sorted (l : list A) :
  (forall x y, In x l -> In y l -> comparefn x y = key x - key y) ->
  StronglySorted (fun a b => key a <= key b) (Array_sort comparefn l).
Proof.
  unfold Array_sort. induction l as [|x l IH]; intros Hk; cbn [fold_right];
    [constructor|].
  apply sort_insert_sorted.
  - intros y Hy. apply Hk; [left; reflexivity | right].
    apply (Permutation_in _ (Array_sort_perm l)). exact Hy.
  - apply IH. intros a b Ha Hb. apply Hk; right; assumption.
Qed.

Lemma sort_insert_stable (v : Z) (x : A) (l : list A) :
  (forall y, In y l -> comparefn x y = key x - key y) ->
  filter (fun y => key y =? v) (sort_insert comparefn x l)
  = filter (fun y => key y =? v) (x :: l).
Proof.
  intros Hk. induction l as [|y l IH]; cbn [sort_insert]; [reflexivity|].
  destruct (comparefn x y <=? 0) eqn:E; [reflexivity|].
  apply Z.leb_gt in E. rewrite Hk in E by (left; reflexivity).
  cbn [filter] in *. rewrite IH by (intros z Hz; apply Hk; right; exact Hz).
  destruct (key x =? v) eqn:Ex; [|reflexivity].
  apply Z.eqb_eq in Ex.
  assert (Ey : (key y =? v) = false) by (apply Z.eqb_neq; lia).
  rewrite Ey. reflexivity.
Qed.

Lemma Array_sort_stable (v : Z) (l : list A) :
  (forall x y, In x l -> In y l -> comparefn x y = key x - key y) ->
  filter (fun y => key y =? v) (Array_sort comparefn l)
  = filter (fun y => key y =? v) l.
Proof.
  unfold Array_sort. induction l as [|x l IH]; intros Hk; cbn [fold_right];
    [reflexivity|].
  rewrite sort_insert_stable.
  - cbn [filter]. rewrite IH by (intros a b Ha Hb; apply Hk; right; assumption).
    reflexivity.
  - intros y Hy. apply Hk; [left; reflexivity | right].
    apply (Permutation_in _ (Array_sort_perm l)). exact Hy.
Qed.

End SortFacts.

Section TableFacts.

Context `{Host} {num : Type} `{JSNumber num}.

(** The time value of the due date of a row, for the rows that have one. *)
Let due_time (r : Rows.TaskRow num) : Z :=
  match new_Date (Rows.dueDate r) with
  | Some x => x
  | None => 0
  end.

Lemma SortCompare_dated (a b : Rows.TaskRow num) :
  new_Date (Rows.dueDate a) <> None -> new_Date (Rows.dueDate b) <> None ->
  Table.SortCompare a b = due_time a - due_time b.
Proof.
  unfold Table.SortCompare, Table.by_due_date, due_time.
  destruct (new_Date (Rows.dueDate a)), (new_Date (Rows.dueDate b));
    congruence.
Qed.

Lemma sorted_due_before (l : list (Rows.TaskRow num)) :
  (forall r, In r l -> new_Date (Rows.dueDate r) <> None) ->
  StronglySorted (fun a b => due_time a <= due_time b) l ->
  StronglySorted Table.due_before l.
Proof.
  intros Dv S. induction S as [|r l S IH F]; constructor.
  - apply IH. intros r' Hr'. apply Dv. right. exact Hr'.
  - apply Forall_forall. intros r' Hr'. rewrite Forall_forall in F.
    specialize (F r' Hr'). unfold Table.due_before.
    pose proof (Dv r (or_introl eq_refl)) as Dr.
    pose proof (Dv r' (or_intror Hr')) as Dr'.
    unfold due_time in F.
    destruct (new_Date (Rows.dueDate r)) as [x|]; [|congruence].
    destruct (new_Date (Rows.dueDate r')) as [y|]; [|congruence].
    exists x, y. auto.
Qed.

(** X11.  The order of the table.  When the due date of every row the filter
    shows can be read, the table shows those rows and no other, in
    ascending order of the due dates; rows due at the same instant stand
    in the order of the store. *)
Theorem paymentTasks_sorted (filterStatus : jsstring)
  (bookings : list (Booking num)) :
  Table.dated filterStatus bookings ->
  Permutation (Table.paymentTasks filterStatus bookings)
              (Table.filteredTasks filterStatus bookings)
  /\ StronglySorted Table.due_before (Table.paymentTasks filterStatus bookings)
  /\ forall v,
      filter (Table.due_on v) (Table.paymentTasks filterStatus bookings)
      = filter (Table.due_on v) (Table.filteredTasks filterStatus bookings).
Proof.
  intros D. unfold Table.dated in D. rewrite Forall_forall in D.
  unfold Table.paymentTasks.
  set (rows := Table.filteredTasks filterStatus bookings) in *.
  assert (Hk : forall x y, In x rows -> In y rows ->
                           Table.SortCompare x y = due_time x - due_time y).
  { intros x y Hx Hy. apply SortCompare_dated; apply D; assumption. }
  pose proof (Array_sort_perm Table.SortCompare rows) as P.
  assert (Dv : forall r, In r (Array_sort Table.SortCompare rows) ->
                         new_Date (Rows.dueDate r) <> None).
  { intros r Hr. apply D. apply (Permutation_in _ P). exact Hr. }
  split; [exact P|]. split.
  - apply sorted_due_before; [exact Dv|].
    apply Array_sort_sorted. exact Hk.
  - intros v.
    assert (Ef : forall l, (forall r, In r l -> new_Date (Rows.dueDate r) <> None) ->
                 filter (Table.due_on v) l
                 = filter (fun y => due_time y =? v) l).
    { intros l Hl. apply filter_ext_in. intros r Hr.
      unfold Table.due_on, due_time. specialize (Hl r Hr).
      destruct (new_Date (Rows.dueDate r)); [reflexivity | congruence]. }
    rewrite Ef by exact Dv. rewrite Ef by exact D.
    apply Array_sort_stable. exact Hk.
Qed.

End TableFacts.

Section TableRows.

Context `{Host} {num : Type} `{JSNumber num}.

Lemma filteredTasks_app (filterStatus : jsstring) (bs1 bs2 : list (Booking num)) :
  Table.filteredTasks filterStatus (bs1 ++ bs2)
  = Table.filteredTasks filterStatus bs1 ++ Table.filteredTasks filterStatus bs2.
Proof. unfold Table.filteredTasks. apply flat_map_app. Qed.

Lemma filteredTasks_cons (filterStatus : jsstring) (b : Booking num)
  (bs : list (Booking num)) :
  Table.filteredTasks filterStatus (b :: bs)
  = map (Table.row b) (filter (Table.shown filterStatus) (paymentTasks b))
    ++ Table.filteredTasks filterStatus bs.
Proof. reflexivity. Qed.

Lemma row_set_paymentTasks (b : Booking num) (tasks : list (PaymentTask num))
  (l : list (PaymentTask num)) :
  map (Table.row (set_paymentTasks b tasks)) l = map (Table.row b) l.
Proof. apply map_ext. intros t. reflexivity. Qed.

Lemma paymentTasks_length (filterStatus : jsstring) (bookings : list (Booking num)) :
  length (Table.paymentTasks filterStatus bookings)
  = length (Table.filteredTasks filterStatus bookings).
Proof. apply Permutation_length, Array_sort_perm. Qed.

Lemma shown_All (t : PaymentTask num) : Table.shown (lit "All") t = true.
Proof. reflexivity. Qed.

Lemma shown_status (filterStatus : jsstring) (t : PaymentTask num) :
  Table.shown filterStatus t = true
  <-> filterStatus = lit "All" \/ paymentStatus t = filterStatus.
Proof.
  unfold Table.shown. rewrite orb_true_iff, !eqb_eq. reflexivity.
Qed.

(** X12.  The rows of the table.  A row is shown for each task of the store
    that the filter lets through, with the name and the type of the
    supplier and the order of the booking of the task: under All for every
    task, under another value for the tasks that have it as their status. *)
Theorem paymentTasks_rows (filterStatus : jsstring)
  (bookings : list (Booking num)) :
  (forall r,
      In r (Table.paymentTasks filterStatus bookings)
      <-> exists b t,
            In b bookings /\ In t (paymentTasks b) /\ r = Table.row b t
            /\ (filterStatus = lit "All" \/ paymentStatus t = filterStatus))
  /\ length (Table.paymentTasks (lit "All") bookings) = length (task_ids bookings)
  /\ length (Table.paymentTasks filterStatus bookings)
     = length (filter (Table.shown filterStatus)
                      (flat_map paymentTasks bookings)).
Proof.
  split; [|split].
  - intros r. unfold Table.paymentTasks.
    split.
    + intros Hr. apply (Permutation_in _ (Array_sort_perm _ _)) in Hr.
      unfold Table.filteredTasks in Hr. apply in_flat_map in Hr.
      destruct Hr as (b & Hb & Hr). apply in_map_iff in Hr.
      destruct Hr as (t & <- & Ht). apply filter_In in Ht.
      destruct Ht as [Ht Hs]. apply shown_status in Hs.
      exists b, t. auto.
    + intros (b & t & Hb & Ht & -> & Hs).
      apply (Permutation_in _ (Permutation_sym (Array_sort_perm _ _))).
      unfold Table.filteredTasks. apply in_flat_map. exists b.
      split; [exact Hb|]. apply in_map. apply filter_In.
      split; [exact Ht | apply shown_status; exact Hs].
  - rewrite paymentTasks_length. unfold Table.filteredTasks, task_ids.
    induction bookings as [|b bs IH]; cbn [flat_map]; [reflexivity|].
    rewrite !length_app, IH, !length_map. f_equal.
    induction (paymentTasks b) as [|t ts IHt]; cbn [filter]; [reflexivity|].
    rewrite shown_All. cbn [length]. rewrite IHt. reflexivity.
  - rewrite paymentTasks_length. unfold Table.filteredTasks.
    induction bookings as [|b bs IH]; cbn [flat_map]; [reflexivity|].
    rewrite filter_app, !length_app, IH, length_map. reflexivity.
Qed.

(** X13.  Marking a pending task as paid moves its row: with the first task
    that carries the identifier pending, the table shows one row less under
    Pending, one row more under Paid, that of the task with the status Paid
    and the date of the reading of the clock, and as many rows as before
    under All. *)
Theorem markAsPaid_moves_row (taskId0 : jsstring) (k : nat)
  (bs1 bs2 : list (Booking num)) (b : Booking num)
  (ts1 ts2 : list (PaymentTask num)) (t : PaymentTask num) :
  paymentTasks b = ts1 ++ t :: ts2 ->
  Forall (fun b' => Forall (fun t' => taskId t' <> taskId0) (paymentTasks b')) bs1 ->
  Forall (fun t' => taskId t' <> taskId0) ts1 ->
  taskId t = taskId0 ->
  paymentStatus t = lit "Pending" ->
  exists store',
    markAsPaid taskId0 (bs1 ++ b :: bs2) k = (Return store', S k)
    /\ S (length (Table.paymentTasks (lit "Pending") store'))
       = length (Table.paymentTasks (lit "Pending") (bs1 ++ b :: bs2))
    /\ length (Table.paymentTasks (lit "Paid") store')
       = S (length (Table.paymentTasks (lit "Paid") (bs1 ++ b :: bs2)))
    /\ length (Table.paymentTasks (lit "All") store')
       = length (Table.paymentTasks (lit "All") (bs1 ++ b :: bs2))
    /\ In (Table.row b (set_paid (iso_date (clock k)) t))
          (Table.paymentTasks (lit "Paid") store').
Proof.
  intros Eb Fb Ft Et Ep.
  destruct (update_first_hit taskId0 (set_paid (iso_date (clock k)))
              bs1 bs2 b ts1 ts2 t Fb Eb Ft Et) as [Eu Nn].
  eexists. split.
  { rewrite markAsPaid_update, Eu.
    destruct (first_match taskId0 (bs1 ++ b :: bs2)); [reflexivity|].
    contradiction. }
  set (t' := set_paid (iso_date (clock k)) t).
  assert (L : forall f,
             Table.filteredTasks f
               (bs1 ++ set_paymentTasks b (ts1 ++ t' :: ts2) :: bs2)
             = Table.filteredTasks f bs1
               ++ (map (Table.row b) (filter (Table.shown f) ts1)
                   ++ map (Table.row b) (filter (Table.shown f) [t'])
                   ++ map (Table.row b) (filter (Table.shown f) ts2))
               ++ Table.filteredTasks f bs2).
  { intros f. rewrite filteredTasks_app, filteredTasks_cons.
    cbn [paymentTasks set_paymentTasks]. rewrite row_set_paymentTasks.
    change (t' :: ts2) with ([t'] ++ ts2).
    rewrite !filter_app, !map_app. reflexivity. }
  assert (L0 : forall f,
             Table.filteredTasks f (bs1 ++ b :: bs2)
             = Table.filteredTasks f bs1
               ++ (map (Table.row b) (filter (Table.shown f) ts1)
                   ++ map (Table.row b) (filter (Table.shown f) [t])
                   ++ map (Table.row b) (filter (Table.shown f) ts2))
               ++ Table.filteredTasks f bs2).
  { intros f. rewrite filteredTasks_app, filteredTasks_cons, Eb.
    change (t :: ts2) with ([t] ++ ts2).
    rewrite !filter_app, !map_app. reflexivity. }
  assert (S1 : Table.shown (lit "Pending") t = true)
    by (apply shown_status; right; exact Ep).
  assert (S2 : Table.shown (lit "Paid") t = false)
    by (unfold Table.shown; rewrite Ep; reflexivity).
  assert (S3 : Table.shown (lit "Pending") t' = false) by reflexivity.
  assert (S4 : Table.shown (lit "Paid") t' = true) by reflexivity.
  rewrite !paymentTasks_length, !L, !L0. cbn [filter].
  rewrite S1, S2, S3, S4, !shown_All. cbn [map].
  rewrite !length_app. cbn [length]. rewrite ?length_app. cbn [length].
  split; [lia|]. split; [lia|]. split; [lia|].
  apply (Permutation_in _ (Permutation_sym (Array_sort_perm _ _))).
  rewrite L. cbn [filter]. rewrite S4. cbn [map].
  apply in_or_app. right. apply in_or_app. left.
  apply in_or_app. right. left. reflexivity.
Qed.

Lemma find_first {A : Type} (f : A -> bool) (l : list A) (x : A) :
  find f l = Some x ->
  exists l1 l2, l = l1 ++ x :: l2 /\ Forall (fun y => f y = false) l1
                /\ f x = true.
Proof.
  induction l as [|y l IH]; cbn [find]; [discriminate|].
  destruct (f y) eqn:E.
  - intros Ex; injection Ex as <-. exists [], l. repeat split; [constructor|exact E].
  - intros Ex. destruct (IH Ex) as (l1 & l2 & -> & F & Fx).
    exists (y :: l1), l2. repeat split; [constructor; assumption | exact Fx].
Qed.

(** X14.  A task added by [addTask] shows in the table: one row more under
    All and under Pending, with the fields of the form, and as many rows
    as before under Paid. *)
Theorem addTask_adds_row (taskData : Form.TaskData num)
  (store : list (Booking num)) (k : nat) :
  exists store' k' r,
    addTask taskData store k = (Return store', k')
    /\ length (Table.paymentTasks (lit "All") store')
       = S (length (Table.paymentTasks (lit "All") store))
    /\ length (Table.paymentTasks (lit "Pending") store')
       = S (length (Table.paymentTasks (lit "Pending") store))
    /\ length (Table.paymentTasks (lit "Paid") store')
       = length (Table.paymentTasks (lit "Paid") store)
    /\ In r (Table.paymentTasks (lit "Pending") store')
    /\ Rows.supplierName r = Form.supplierName taskData
    /\ Rows.taskType r = Form.taskType taskData
    /\ Rows.description r = Form.description taskData
    /\ Rows.amountDue r = Form.amountDue taskData
    /\ Rows.dueDate r = Form.dueDate taskData
    /\ Rows.paymentStatus r = lit "Pending".
Proof.
  rewrite addTask_run.
  destruct (find _ store) as [b|] eqn:Ef.
  - destruct (find_first _ _ _ Ef) as (bs1 & bs2 & -> & F & Eb).
    apply eqb_eq in Eb.
    assert (F' : Forall (fun b' => supplierName b' <> Form.supplierName taskData)
                        bs1).
    { eapply Forall_impl; [|exact F]. intros b' N. apply eqb_neq. exact N. }
    destruct (push_task_first _ (form_task taskData (clock k)) bs1 bs2 b F' Eb)
      as [Ep _].
    set (t := form_task taskData (clock k)) in *.
    exists (bs1 ++ set_paymentTasks b (paymentTasks b ++ [t]) :: bs2), (S k),
           (Table.row b t).
    split; [rewrite Ep; reflexivity|].
    assert (L : forall f,
               Table.filteredTasks f
                 (bs1 ++ set_paymentTasks b (paymentTasks b ++ [t]) :: bs2)
               = Table.filteredTasks f bs1
                 ++ (map (Table.row b) (filter (Table.shown f) (paymentTasks b))
                     ++ map (Table.row b) (filter (Table.shown f) [t]))
                 ++ Table.filteredTasks f bs2).
    { intros f. rewrite filteredTasks_app, filteredTasks_cons.
      cbn [paymentTasks set_paymentTasks]. rewrite row_set_paymentTasks.
      rewrite !filter_app, !map_app, <- !app_assoc. reflexivity. }
    assert (L0 : forall f,
               Table.filteredTasks f (bs1 ++ b :: bs2)
               = Table.filteredTasks f bs1
                 ++ map (Table.row b) (filter (Table.shown f) (paymentTasks b))
                 ++ Table.filteredTasks f bs2).
    { intros f. rewrite filteredTasks_app, filteredTasks_cons. reflexivity. }
    rewrite !paymentTasks_length, !L, !L0.
    change (filter (Table.shown (lit "All")) [t]) with [t].
    change (filter (Table.shown (lit "Pending")) [t]) with [t].
    change (filter (Table.shown (lit "Paid")) [t]) with (@nil (PaymentTask num)).
    cbn [map]. rewrite !length_app. cbn [length]. rewrite ?length_app.
    cbn [length].
    split; [lia|]. split; [lia|]. split; [lia|]. split.
    + apply (Permutation_in _ (Permutation_sym (Array_sort_perm _ _))).
      rewrite L. change (filter (Table.shown (lit "Pending")) [t]) with [t].
      apply in_or_app. right. apply in_or_app. left.
      apply in_or_app. right. left. reflexivity.
    + cbn. rewrite Eb. repeat split.
  - set (b := form_booking taskData (clock k) (clock (S k))).
    exists (store ++ [b]), (S (S k)),
           (Table.row b (form_task taskData (clock (S k)))).
    split; [reflexivity|].
    rewrite !paymentTasks_length, !filteredTasks_app.
    change (Table.filteredTasks (lit "All") [b])
      with [Table.row b (form_task taskData (clock (S k)))].
    change (Table.filteredTasks (lit "Pending") [b])
      with [Table.row b (form_task taskData (clock (S k)))].
    change (Table.filteredTasks (lit "Paid") [b])
      with (@nil (Rows.TaskRow num)).
    rewrite !length_app. cbn [length].
    split; [lia|]. split; [lia|]. split; [lia|]. split.
    + apply (Permutation_in _ (Permutation_sym (Array_sort_perm _ _))).
      rewrite filteredTasks_app.
      change (Table.filteredTasks (lit "Pending") [b])
        with [Table.row b (form_task taskData (clock (S k)))].
      apply in_or_app. right. left. reflexivity.
    + cbn. repeat split.
Qed.

End TableRows.

Lemma paymentTasks_sorted_witness :
  @Table.dated Scenario.beijing float (lit "All") Scenario.store
  /\ Permutation
       (@Table.paymentTasks Scenario.beijing float (lit "All") Scenario.store)
       (@Table.filteredTasks float (lit "All") Scenario.store)
  /\ StronglySorted (@Table.due_before Scenario.beijing float)
       (@Table.paymentTasks Scenario.beijing float (lit "All") Scenario.store)
  /\ forall v,
      filter (@Table.due_on Scenario.beijing float v)
        (@Table.paymentTasks Scenario.beijing float (lit "All") Scenario.store)
      = filter (@Table.due_on Scenario.beijing float v)
          (@Table.filteredTasks float (lit "All") Scenario.store).
Proof.
  assert (H1 : @Table.dated Scenario.beijing float (lit "All") Scenario.store)
    by (repeat constructor; vm_compute; discriminate).
  refine (conj H1 _).
  exact (@paymentTasks_sorted Scenario.beijing float (lit "All")
           Scenario.store H1).
Defined.

Lemma markAsPaid_moves_row_witness :
  let b := Scenario.booking "B1" "Acme" [Scenario.pending "T1"; Scenario.pending "T2"] in
  let bs2 := [Scenario.booking "B2" "Bolt"
                [Scenario.pending "T3"; Scenario.pending "T2"]] in
  let t := Scenario.pending "T2" in
  paymentTasks b = [Scenario.pending "T1"] ++ t :: []
  /\ Forall (fun t' => taskId t' <> lit "T2") [Scenario.pending "T1"]
  /\ taskId t = lit "T2"
  /\ paymentStatus t = lit "Pending"
  /\ exists store',
      @markAsPaid Scenario.beijing float (lit "T2") ([] ++ b :: bs2) 0%nat
      = (Return store', 1%nat)
      /\ S (length (@Table.paymentTasks Scenario.beijing float (lit "Pending") store'))
         = length (@Table.paymentTasks Scenario.beijing float (lit "Pending")
                     ([] ++ b :: bs2))
      /\ length (@Table.paymentTasks Scenario.beijing float (lit "Paid") store')
         = S (length (@Table.paymentTasks Scenario.beijing float (lit "Paid")
                        ([] ++ b :: bs2)))
      /\ length (@Table.paymentTasks Scenario.beijing float (lit "All") store')
         = length (@Table.paymentTasks Scenario.beijing float (lit "All")
                     ([] ++ b :: bs2))
      /\ In (Table.row b (set_paid (iso_date (@clock Scenario.beijing 0%nat)) t))
            (@Table.paymentTasks Scenario.beijing float (lit "Paid") store').
Proof.
  cbv zeta.
  assert (H1 : paymentTasks (Scenario.booking "B1" "Acme"
                               [Scenario.pending "T1"; Scenario.pending "T2"])
               = [Scenario.pending "T1"] ++ Scenario.pending "T2" :: [])
    by reflexivity.
  assert (H2 : Forall (fun t' : PaymentTask float => taskId t' <> lit "T2")
                      [Scenario.pending "T1"])
    by (repeat constructor; discriminate).
  assert (H3 : taskId (Scenario.pending "T2") = lit "T2") by reflexivity.
  assert (H4 : paymentStatus (Scenario.pending "T2") = lit "Pending")
    by reflexivity.
  refine (conj H1 (conj H2 (conj H3 (conj H4 _)))).
  exact (@markAsPaid_moves_row Scenario.beijing float (lit "T2") 0%nat
           [] [Scenario.booking "B2" "Bolt"
                 [Scenario.pending "T3"; Scenario.pending "T2"]]
           (Scenario.booking "B1" "Acme"
              [Scenario.pending "T1"; Scenario.pending "T2"])
           [Scenario.pending "T1"] [] (Scenario.pending "T2")
           H1 (Forall_nil _) H2 H3 H4).
Defined.

(** The table after the bookings of an order have been generated: the
    rows of the two suppliers interleave by due date. *)
Example paymentTasks_example :
  exists store k,
    @handleSmartGenerate Scenario.beijing float binary64 (lit "O2")
      Scenario.orders Scenario.products Scenario.suppliers [] 0%nat
    = (Return store, k)
    /\ map (fun r => (Rows.supplierName r, Rows.dueDate r))
           (@Table.paymentTasks Scenario.beijing float (lit "All") store)
       = [ (lit "Acme", lit "2025-11-03"); (lit "Bolt", lit "2025-11-07");
           (lit "Acme", lit "2025-11-09") ]
    /\ @Table.paymentTasks Scenario.beijing float (lit "Paid") store = [].
Proof.
  eexists; eexists. split; [vm_compute; reflexivity|].
  split; vm_compute; reflexivity.
Qed.

(** ** The importer *)

Section ImporterFacts.

Import DataImporter.

Context {num : Type} `{JSNumber num} `{Conversions num}.

Lemma own_get_app {V : Type} (k : jsstring) (o o' : list (jsstring * V)) :
  own_get k (o ++ o')
  = match own_get k o with Some v => Some v | None => own_get k o' end.
Proof.
  induction o as [|[k' v] o IH]; cbn [app own_get]; [reflexivity|].
  destruct (eqb k' k); [reflexivity | exact IH].
Qed.

Lemma own_get_update {V : Type} (k k' : jsstring) (f : V -> V)
  (o : list (jsstring * V)) :
  own_get k (own_update k' f o)
  = if eqb k' k then option_map f (own_get k o) else own_get k o.
Proof.
  induction o as [|[k0 v] o IH]; cbn [own_update own_get].
  - destruct (eqb k' k); reflexivity.
  - destruct (eqb k0 k') eqn:E0; cbn [own_get].
    + apply eqb_eq in E0. subst k0.
      destruct (eqb k' k); reflexivity.
    + rewrite IH. destruct (eqb k0 k) eqn:E1; [|reflexivity].
      apply eqb_eq in E1. subst k0. rewrite eqb_sym, E0. reflexivity.
Qed.

Lemma own_get_set (k k' : jsstring) (v : JSValue num) (o : Item num) :
  own_get k (set k' v o) = if eqb k' k then Some v else own_get k o.
Proof.
  unfold set. destruct (own_get k' o) as [v'|] eqn:E.
  - rewrite own_get_update. destruct (eqb k' k) eqn:Ek; [|reflexivity].
    apply eqb_eq in Ek. subst k'. rewrite E. reflexivity.
  - rewrite own_get_app. cbn [own_get].
    destruct (eqb k' k) eqn:Ek.
    + apply eqb_eq in Ek. subst k'. rewrite E. reflexivity.
    + destruct (own_get k o); reflexivity.
Qed.

Lemma set_keys (k : jsstring) (v : JSValue num) (o : Item num) :
  NoDup (map fst o) -> NoDup (map fst (set k v o)).
Proof.
  intros N. unfold set. destruct (own_get k o) eqn:E.
  - rewrite own_update_keys. exact N.
  - rewrite map_app. cbn [map fst].
    apply (Permutation_NoDup (Permutation_cons_append _ _)).
    constructor; [apply own_get_none; exact E | exact N].
Qed.

(** In an object, a key has the value of its entry. *)
Lemma own_get_In {V : Type} (k : jsstring) (v : V) (o : list (jsstring * V)) :
  NoDup (map fst o) -> In (k, v) o -> own_get k o = Some v.
Proof.
  induction o as [|[k' v'] o IH]; cbn [map fst In own_get]; [tauto|].
  intros N [E|Hin].
  - injection E as -> ->. rewrite eqb_refl. reflexivity.
  - apply NoDup_cons_iff in N. destruct N as [Nk N].
    destruct (eqb k' k) eqn:Ek; [|apply IH; assumption].
    apply eqb_eq in Ek. subst k'. destruct Nk.
    apply in_map_iff. exists (k, v). auto.
Qed.

Lemma own_get_found {V : Type} (k : jsstring) (v : V) (o : list (jsstring * V)) :
  own_get k o = Some v -> In (k, v) o.
Proof.
  induction o as [|[k' v'] o IH]; cbn [own_get In]; [discriminate|].
  destruct (eqb k' k) eqn:Ek.
  - apply eqb_eq in Ek. intros E; injection E as <-. left. congruence.
  - intros E. right. apply IH. exact E.
Qed.

Lemma own_get_perm {V : Type} (k : jsstring) (o o' : list (jsstring * V)) :
  NoDup (map fst o) -> Permutation o o' -> own_get k o' = own_get k o.
Proof.
  intros N P.
  assert (N' : NoDup (map fst o'))
    by (apply (Permutation_NoDup (Permutation_map fst P)); exact N).
  destruct (own_get k o) as [v|] eqn:E.
  - apply own_get_In; [exact N'|].
    apply (Permutation_in _ P). apply own_get_found. exact E.
  - destruct (own_get k o') as [v'|] eqn:E'; [|reflexivity].
    apply own_get_found in E'. apply (Permutation_in _ (Permutation_sym P)) in E'.
    apply (own_get_In _ _ _ N) in E'. congruence.
Qed.

Lemma first_loop (item : Item num) (k : jsstring)
  (mapping : list (jsstring * jsstring)) (m : Item num) :
  own_get k (fold_left (fun mappedItem e =>
                          match own_get (fst e) item with
                          | Some v => set (snd e) v mappedItem
                          | None => mappedItem
                          end) mapping m)
  = mapped_lookup item k mapping (own_get k m).
Proof.
  unfold mapped_lookup. revert m; induction mapping as [|e l IH]; intros m;
    cbn [fold_left]; [reflexivity|].
  rewrite IH. destruct (own_get (fst e) item); [|reflexivity].
  rewrite own_get_set. reflexivity.
Qed.

Lemma second_loop (mapping : list (jsstring * jsstring)) (k : jsstring)
  (entries : Item num) (m : Item num) :
  NoDup (map fst entries) ->
  own_get k (fold_left (fun mappedItem e =>
                          if has (fst e) mapping then mappedItem
                          else set (fst e) (snd e) mappedItem) entries m)
  = if has k mapping then own_get k m
    else match own_get k entries with
         | Some v => Some v
         | None => own_get k m
         end.
Proof.
  revert m; induction entries as [|[k' v] l IH]; intros m N;
    cbn [fold_left own_get fst snd].
  - destruct (has k mapping); reflexivity.
  - cbn [map fst] in N. apply NoDup_cons_iff in N. destruct N as [Nk N].
    rewrite IH by exact N.
    destruct (has k mapping) eqn:Hk.
    + destruct (has k' mapping) eqn:Hk'; [reflexivity|].
      rewrite own_get_set. destruct (eqb k' k) eqn:E; [|reflexivity].
      apply eqb_eq in E. congruence.
    + destruct (eqb k' k) eqn:E.
      * apply eqb_eq in E. subst k'. rewrite Hk.
        assert (En : own_get k l = None) by (apply own_get_none; exact Nk).
        rewrite En, own_get_set, eqb_refl. reflexivity.
      * destruct (has k' mapping); [reflexivity|].
        rewrite own_get_set, E. reflexivity.
Qed.

Lemma third_loop (defaults : Item num) (k : jsstring) (m : Item num) :
  NoDup (map fst defaults) ->
  own_get k (fold_left (fun mappedItem e =>
                          if negb (ToBoolean (get (fst e) mappedItem))
                          then set (fst e) (snd e) mappedItem
                          else mappedItem) defaults m)
  = match own_get k defaults with
    | Some d => Some (or_else (get k m) d)
    | None => own_get k m
    end.
Proof.
  revert m; induction defaults as [|[k' d] l IH]; intros m N;
    cbn [fold_left own_get fst snd]; [reflexivity|].
  cbn [map fst] in N. apply NoDup_cons_iff in N. destruct N as [Nk N].
  rewrite IH by exact N.
  destruct (eqb k' k) eqn:E.
  - apply eqb_eq in E. subst k'.
    assert (En : own_get k l = None) by (apply own_get_none; exact Nk).
    rewrite En. unfold or_else.
    destruct (ToBoolean (get k m)) eqn:T; cbn [negb].
    + unfold get in T |- *. destruct (own_get k m); [reflexivity|].
      discriminate.
    + rewrite own_get_set, eqb_refl. reflexivity.
  - assert (Eg : forall m', own_get k m' = own_get k m ->
                            get k m' = get k m)
      by (intros m' Em; unfold get; rewrite Em; reflexivity).
    destruct (negb (ToBoolean (get k' m))).
    + rewrite (Eg (set k' d m)), own_get_set, E;
        [reflexivity | rewrite own_get_set, E; reflexivity].
    + reflexivity.
Qed.

Lemma fold_set_keys {X : Type} (step : Item num -> X -> Item num) (l : list X)
  (m : Item num) :
  (forall m x, NoDup (map fst m) -> NoDup (map fst (step m x))) ->
  NoDup (map fst m) -> NoDup (map fst (fold_left step l m)).
Proof.
  intros S. revert m; induction l as [|x l IH]; intros m N; cbn [fold_left];
    [exact N|].
  apply IH. apply S. exact N.
Qed.

(** The fields of a mapped item: a field with a default has the value
    found for it when that is truthy, else the default; the value found
    for a field is that of the unmapped field of this name, else that of
    the last source field the mapping sends there. *)
Lemma map_item_lookup (mapping : list (jsstring * jsstring))
  (defaults item : Item num) (k : jsstring) :
  NoDup (map fst item) -> NoDup (map fst (Object_entries defaults)) ->
  let found :=
    if has k mapping then mapped_lookup item k (Object_entries mapping) None
    else match own_get k item with
         | Some v => Some v
         | None => mapped_lookup item k (Object_entries mapping) None
         end in
  own_get k (map_item mapping defaults item)
  = match own_get k (Object_entries defaults) with
    | Some d => Some (or_else (match found with Some v => v | None => Undefined end) d)
    | None => found
    end.
Proof.
  intros Ni Nd found. unfold map_item.
  rewrite third_loop by exact Nd.
  assert (Ek : own_get k
                 (fold_left (fun mappedItem e =>
                               if has (fst e) mapping then mappedItem
                               else set (fst e) (snd e) mappedItem)
                            (Object_entries item)
                            (fold_left (fun mappedItem e =>
                                          match own_get (fst e) item with
                                          | Some v => set (snd e) v mappedItem
                                          | None => mappedItem
                                          end) (Object_entries mapping) []))
               = found).
  { rewrite second_loop.
    - rewrite first_loop. cbn [own_get].
      rewrite (own_get_perm k item (Object_entries item) Ni)
        by (apply Permutation_sym, Object_entries_perm).
      reflexivity.
    - apply (Permutation_NoDup
               (Permutation_map fst (Permutation_sym (Object_entries_perm item)))).
      exact Ni. }
  unfold get. rewrite Ek. reflexivity.
Qed.

Lemma map_item_keys (mapping : list (jsstring * jsstring))
  (defaults item : Item num) :
  NoDup (map fst (map_item mapping defaults item)).
Proof.
  unfold map_item.
  apply fold_set_keys.
  { intros m x N. destruct (negb _); [apply set_keys|]; exact N. }
  apply fold_set_keys.
  { intros m x N. destruct (has _ _); [|apply set_keys]; exact N. }
  apply fold_set_keys; [|constructor].
  intros m x N. destruct (own_get _ _); [apply set_keys|]; exact N.
Qed.

End ImporterFacts.

Section ImportedRows.

Import DataImporter.

Context {num : Type} `{JSNumber num} `{Conversions num}.

(** Comparisons of names of the configuration are settled by computation. *)
Ltac names :=
  repeat match goal with
         | |- context [eqb ?a ?b] =>
             let r := eval vm_compute in (eqb a b) in
             lazymatch r with
             | true => change (eqb a b) with true
             | false => change (eqb a b) with false
             end
         | |- context [inherited ?a] =>
             let r := eval vm_compute in (inherited a) in
             lazymatch r with
             | true => change (inherited a) with true
             | false => change (inherited a) with false
             end
         end.

Ltac cases_on_fields :=
  repeat match goal with
         | |- context [own_get ?k ?i] => destruct (own_get k i)
         end.

Lemma filter_map_swap {A B : Type} (f : A -> B) (p : B -> bool) (l : list A) :
  filter p (map f l) = map f (filter (fun x => p (f x)) l).
Proof.
  induction l as [|x l IH]; cbn [map filter]; [reflexivity|].
  destruct (p (f x)); cbn [map]; rewrite IH; reflexivity.
Qed.

Lemma Forall2_map_r {A B : Type} (R : A -> B -> Prop) (g : A -> B) (l : list A) :
  Forall (fun x => R x (g x)) l -> Forall2 R l (map g l).
Proof. induction 1; cbn [map]; constructor; assumption. Qed.

Lemma Forall_filter {A : Type} (P : A -> Prop) (p : A -> bool) (l : list A) :
  Forall P l -> Forall P (filter p l).
Proof.
  intros F. apply Forall_forall. intros x Hx. apply filter_In in Hx.
  rewrite Forall_forall in F. apply F. tauto.
Qed.

Lemma has_own (k : jsstring) (o : Item num) :
  inherited k = false -> has k o = owns k o.
Proof. intros E. unfold has, owns. rewrite E. reflexivity. Qed.

Lemma defaults_entries (dataType : jsstring) :
  Object_entries (defaultValues (num:=num) dataType) = defaultValues dataType
  /\ NoDup (map fst (defaultValues (num:=num) dataType)).
Proof.
  unfold defaultValues.
  destruct (eqb dataType (lit "products"));
    [|destruct (eqb dataType (lit "suppliers"));
      [|destruct (eqb dataType (lit "orders"))]].
  all: split; [vm_compute; reflexivity|].
  all: repeat constructor; cbn [In map fst]; intuition discriminate.
Qed.

Lemma mapping_entries (dataType : jsstring) (mapping : list (jsstring * jsstring)) :
  fieldMappings dataType = Some mapping -> Object_entries mapping = mapping.
Proof.
  unfold fieldMappings.
  destruct (eqb dataType (lit "products"));
    [|destruct (eqb dataType (lit "suppliers"));
      [|destruct (eqb dataType (lit "orders"))]];
    intros E; try discriminate; injection E as <-; vm_compute; reflexivity.
Qed.

(** The fields of an imported record, by type. *)
Ltac fields dataType N :=
  destruct (defaults_entries dataType) as [Ed Nd];
  rewrite <- Ed in Nd;
  repeat split;
  (rewrite (map_item_lookup _ _ _ _ N Nd);
   rewrite Ed;
   rewrite (mapping_entries dataType) by reflexivity;
   unfold has, mapped_lookup, field_or, get, defaultValues,
     products_mapping, suppliers_mapping, orders_mapping;
   names;
   cbn [own_get fold_left fst snd]; names;
   cases_on_fields; reflexivity).

Lemma product_fields (item : Item num) :
  NoDup (map fst item) ->
  let r := map_item products_mapping (defaultValues (lit "products")) item in
  own_get (lit "服务名称") r
  = match own_get (lit "服务名称") item with
    | Some v => Some v
    | None => own_get (lit "服务项目名称") item
    end
  /\ own_get (lit "供应商名称") r = own_get (lit "供应商名称") item
  /\ own_get (lit "平日单价") r = own_get (lit "平日单价") item
  /\ own_get (lit "服务类型") r
     = Some (or_else (field_or (lit "服务类型") (lit "供应商类型") item)
                     (Str (lit "其他")))
  /\ own_get (lit "付款方式") r
     = Some (or_else (field_or (lit "付款方式") (lit "子项说明") item)
                     (Str (lit "全款"))).
Proof.
  intros N r. unfold r.
  fields (lit "products") N.
Qed.

Lemma supplier_fields (item : Item num) :
  NoDup (map fst item) ->
  let r := map_item suppliers_mapping (defaultValues (lit "suppliers")) item in
  own_get (lit "供应商名称") r = own_get (lit "供应商名称") item
  /\ own_get (lit "供应商类型") r
     = Some (or_else (get (lit "供应商类型") item) (Str (lit "其他")))
  /\ own_get (lit "联系人") r
     = Some (or_else (field_or (lit "联系人") (lit "主要联系人") item)
                     (Str (lit "未提供")))
  /\ own_get (lit "联系电话") r
     = Some (or_else (get (lit "联系电话") item) (Str (lit "未提供"))).
Proof.
  intros N r. unfold r.
  fields (lit "suppliers") N.
Qed.

Lemma order_fields (item : Item num) :
  NoDup (map fst item) ->
  let r := map_item orders_mapping (defaultValues (lit "orders")) item in
  own_get (lit "订单ID") r = own_get (lit "订单ID") item
  /\ own_get (lit "客户名称") r
     = Some (or_else (field_or (lit "客户名称") (lit "客户信息") item)
                     (Str (lit "未命名客户")))
  /\ own_get (lit "订单名称") r = own_get (lit "订单名称") item
  /\ own_get (lit "出发日期") r
     = match own_get (lit "出发日期") item with
       | Some v => Some v
       | None => own_get (lit "旅行日期") item
       end
  /\ own_get (lit "关联的服务") r
     = Some (or_else (get (lit "关联的服务") item) (Str [])).
Proof.
  intros N r. unfold r.
  fields (lit "orders") N.
Qed.

(** The three checked imports share their shape: the rows that pass are
    the mapped rows that have the required fields, in the order of the
    data; none passing is an error. *)
Lemma validate_mapped (data : list (Item num)) (dataType : jsstring)
  (mapping : list (jsstring * jsstring)) (required : list jsstring)
  (valid : Item num -> bool) :
  fieldMappings dataType = Some mapping ->
  requiredFields dataType = Some required ->
  (forall item, In item data ->
                forallb (fun field =>
                           has field (map_item mapping (defaultValues dataType)
                                               item)) required
                = valid item) ->
  exists message,
    validateAndTransformData data dataType true
    = match filter valid data with
      | [] => Raise (Error message)
      | _ :: _ =>
          let rows := map (map_item mapping (defaultValues dataType))
                          (filter valid data) in
          if eqb dataType (lit "products") then
            Ok (map (fun item =>
                       set (lit "平日单价")
                           (Num (ToNumber (get (lit "平日单价") item))) item)
                    rows)
          else Ok rows
      end.
Proof.
  intros Em Er V. unfold validateAndTransformData.
  destruct data as [|d0 data']; [eexists; reflexivity|].
  rewrite Er. unfold applyFieldMapping. rewrite Em.
  rewrite filter_map_swap.
  rewrite (filter_ext_in _ valid) by exact V.
  destruct (filter valid (d0 :: data')) as [|x xs]; cbn [map].
  - eexists. reflexivity.
  - exists []. reflexivity.
Qed.

(** X15.  What the import makes of the products.  On records that have each
    key once: a row passes when it has the columns 供应商名称 and 平日单价
    and one of 服务名称 and 服务项目名称, whatever they hold; the rows that
    pass come out in the order of the data; the name of the service is what
    服务名称 holds, else 服务项目名称; the price is made a Number; the type
    of service is what 服务类型 holds, else 供应商类型, and 其他 when that is
    empty or missing; the payment method is what 付款方式 holds, else
    子项说明, and 全款 when that is empty or missing.  When no row passes,
    an Error is thrown. *)
Theorem products_import (data : list (Item num)) :
  Forall (fun item => NoDup (map fst item)) data ->
  let passes item :=
    (owns (lit "服务名称") item || owns (lit "服务项目名称") item)
    && owns (lit "供应商名称") item && owns (lit "平日单价") item in
  match validateAndTransformData data (lit "products") true with
  | Ok rows =>
      filter passes data <> []
      /\ Forall2
           (fun item r =>
              get (lit "服务名称") r
              = field_or (lit "服务名称") (lit "服务项目名称") item
              /\ get (lit "供应商名称") r = get (lit "供应商名称") item
              /\ get (lit "平日单价") r
                 = Num (ToNumber (get (lit "平日单价") item))
              /\ get (lit "服务类型") r
                 = or_else (field_or (lit "服务类型") (lit "供应商类型") item)
                           (Str (lit "其他"))
              /\ get (lit "付款方式") r
                 = or_else (field_or (lit "付款方式") (lit "子项说明") item)
                           (Str (lit "全款")))
           (filter passes data) rows
  | Raise e => filter passes data = [] /\ exists message, e = Error message
  end.
Proof.
  intros Nd passes.
  destruct (validate_mapped data (lit "products") products_mapping
              (map lit ["服务名称"; "供应商名称"; "平日单价"; "服务类型";
                        "付款方式"]%string) passes) as (message & ->);
    [reflexivity | reflexivity | |].
  { intros item Hi. rewrite Forall_forall in Nd.
    destruct (product_fields item (Nd item Hi)) as (E1 & E2 & E3 & E4 & E5).
    cbn [map forallb]. unfold has. rewrite E1, E2, E3, E4, E5.
    unfold passes, owns. names. cases_on_fields; reflexivity. }
  destruct (filter passes data) as [|x xs] eqn:Ef; [eauto|].
  change (eqb (lit "products") (lit "products")) with true. cbv iota zeta.
  split; [discriminate|]. rewrite map_map. apply Forall2_map_r.
  assert (Nx : Forall (fun item => NoDup (map fst item)) (x :: xs))
    by (rewrite <- Ef; apply Forall_filter; exact Nd).
  eapply Forall_impl; [|exact Nx]. intros item N.
  destruct (product_fields item N) as (E1 & E2 & E3 & E4 & E5).
  cbv zeta in E1, E2, E3, E4, E5.
  unfold field_or, get. rewrite !own_get_set. names.
  rewrite E1, E2, E3, E4, E5. unfold field_or, get.
  cases_on_fields; repeat split.
Qed.

(** X16.  What the import makes of the suppliers: a row passes when it has the
    column 供应商名称; the type is what 供应商类型 holds, the contact what
    联系人 holds, else 主要联系人, the telephone what 联系电话 holds, each
    with its default when empty or missing. *)
Theorem suppliers_import (data : list (Item num)) :
  Forall (fun item => NoDup (map fst item)) data ->
  let passes item := owns (lit "供应商名称") item in
  match validateAndTransformData data (lit "suppliers") true with
  | Ok rows =>
      filter passes data <> []
      /\ Forall2
           (fun item r =>
              get (lit "供应商名称") r = get (lit "供应商名称") item
              /\ get (lit "供应商类型") r
                 = or_else (get (lit "供应商类型") item) (Str (lit "其他"))
              /\ get (lit "联系人") r
                 = or_else (field_or (lit "联系人") (lit "主要联系人") item)
                           (Str (lit "未提供"))
              /\ get (lit "联系电话") r
                 = or_else (get (lit "联系电话") item) (Str (lit "未提供")))
           (filter passes data) rows
  | Raise e => filter passes data = [] /\ exists message, e = Error message
  end.
Proof.
  intros Nd passes.
  destruct (validate_mapped data (lit "suppliers") suppliers_mapping
              (map lit ["供应商名称"; "供应商类型"]%string) passes)
    as (message & ->); [reflexivity | reflexivity | |].
  { intros item Hi. rewrite Forall_forall in Nd.
    destruct (supplier_fields item (Nd item Hi)) as (E1 & E2 & E3 & E4).
    cbn [map forallb]. unfold has. rewrite E1, E2.
    unfold passes, owns. names. cases_on_fields; reflexivity. }
  destruct (filter passes data) as [|x xs] eqn:Ef; [eauto|].
  change (eqb (lit "suppliers") (lit "products")) with false. cbv iota zeta.
  split; [discriminate|]. apply Forall2_map_r.
  assert (Nx : Forall (fun item => NoDup (map fst item)) (x :: xs))
    by (rewrite <- Ef; apply Forall_filter; exact Nd).
  eapply Forall_impl; [|exact Nx]. intros item N.
  destruct (supplier_fields item N) as (E1 & E2 & E3 & E4).
  cbv zeta in E1, E2, E3, E4.
  unfold field_or, get. rewrite E1, E2, E3, E4. unfold field_or, get.
  cases_on_fields; repeat split.
Qed.

(** X17.  What the import makes of the orders: a row passes when it has the
    columns 订单ID and 订单名称 and one of 出发日期 and 旅行日期; the
    customer is what 客户名称 holds, else 客户信息, and 未命名客户 when that
    is empty or missing; the date is what 出发日期 holds, else 旅行日期; the
    services are what 关联的服务 holds, and the empty string when that is
    missing. *)
Theorem orders_import (data : list (Item num)) :
  Forall (fun item => NoDup (map fst item)) data ->
  let passes item :=
    owns (lit "订单ID") item && owns (lit "订单名称") item
    && (owns (lit "出发日期") item || owns (lit "旅行日期") item) in
  match validateAndTransformData data (lit "orders") true with
  | Ok rows =>
      filter passes data <> []
      /\ Forall2
           (fun item r =>
              get (lit "订单ID") r = get (lit "订单ID") item
              /\ get (lit "客户名称") r
                 = or_else (field_or (lit "客户名称") (lit "客户信息") item)
                           (Str (lit "未命名客户"))
              /\ get (lit "订单名称") r = get (lit "订单名称") item
              /\ get (lit "出发日期") r
                 = field_or (lit "出发日期") (lit "旅行日期") item
              /\ get (lit "关联的服务") r
                 = or_else (get (lit "关联的服务") item) (Str []))
           (filter passes data) rows
  | Raise e => filter passes data = [] /\ exists message, e = Error message
  end.
Proof.
  intros Nd passes.
  destruct (validate_mapped data (lit "orders") orders_mapping
              (map lit ["订单ID"; "客户名称"; "订单名称"; "出发日期";
                        "关联的服务"]%string) passes)
    as (message & ->); [reflexivity | reflexivity | |].
  { intros item Hi. rewrite Forall_forall in Nd.
    destruct (order_fields item (Nd item Hi)) as (E1 & E2 & E3 & E4 & E5).
    cbn [map forallb]. unfold has. rewrite E1, E2, E3, E4, E5.
    unfold passes, owns. names. cases_on_fields; reflexivity. }
  destruct (filter passes data) as [|x xs] eqn:Ef; [eauto|].
  change (eqb (lit "orders") (lit "products")) with false. cbv iota zeta.
  split; [discriminate|]. apply Forall2_map_r.
  assert (Nx : Forall (fun item => NoDup (map fst item)) (x :: xs))
    by (rewrite <- Ef; apply Forall_filter; exact Nd).
  eapply Forall_impl; [|exact Nx]. intros item N.
  destruct (order_fields item N) as (E1 & E2 & E3 & E4 & E5).
  cbv zeta in E1, E2, E3, E4, E5.
  unfold field_or, get. rewrite E1, E2, E3, E4, E5. unfold field_or, get.
  cases_on_fields; repeat split.
Qed.

End ImportedRows.

Section Validated.

Import DataImporter.

Context {num : Type} `{JSNumber num} `{Conversions num}.

Lemma required_plain (dataType : jsstring) (required : list jsstring) :
  requiredFields dataType = Some required ->
  Forall (fun field => inherited field = false) required.
Proof.
  unfold requiredFields.
  destruct (eqb dataType (lit "orders"));
    [|destruct (eqb dataType (lit "products"));
      [|destruct (eqb dataType (lit "suppliers"))]];
    intros E; try discriminate; injection E as <-;
    repeat constructor.
Qed.

Lemma required_mapping (dataType : jsstring) (required : list jsstring) :
  requiredFields dataType = Some required ->
  exists mapping, fieldMappings dataType = Some mapping.
Proof.
  unfold requiredFields, fieldMappings.
  destruct (eqb dataType (lit "products")); [eauto|].
  destruct (eqb dataType (lit "suppliers")); [eauto|].
  destruct (eqb dataType (lit "orders")); [eauto | discriminate].
Qed.

Lemma owns_set (k k' : jsstring) (v : JSValue num) (o : Item num) :
  owns k o = true -> owns k (set k' v o) = true.
Proof.
  unfold owns. rewrite own_get_set. destruct (eqb k' k); [reflexivity|].
  exact (fun E => E).
Qed.

(** X18.  How [validateAndTransformData] ends.  (1) On an empty array it throws
    an Error.  (2) For a type other than orders, products and suppliers it
    throws: an Error, or a TypeError when the type is named like a
    property of [Object.prototype].  (3) What it returns is not empty and
    no longer than the data, every record of it has every required field
    of the type, for products the price of every record is a Number, and
    with the field mapping on every record has each of its keys once. *)
Theorem validateAndTransformData_outcomes (data : list (Item num))
  (dataType : jsstring) (autoMap : bool) :
  (data = [] ->
   validateAndTransformData data dataType autoMap
   = Raise (Error (lit "数据格式错误：必须是非空数组")))
  /\ (data <> [] -> requiredFields dataType = None ->
      validateAndTransformData data dataType autoMap
      = Raise (if inherited dataType then Native TypeError
               else Error (lit "未知的数据类型: " ++ dataType)))
  /\ (forall rows,
         validateAndTransformData data dataType autoMap = Ok rows ->
         exists required,
           requiredFields dataType = Some required
           /\ rows <> [] /\ (length rows <= length data)%nat
           /\ Forall (fun r => Forall (fun field => owns field r = true) required)
                     rows
           /\ (dataType = lit "products" ->
               Forall (fun r => exists x, get (lit "平日单价") r = Num x) rows)
           /\ (autoMap = true -> Forall (fun r => NoDup (map fst r)) rows)).
Proof.
  split; [|split].
  - intros ->. reflexivity.
  - intros Nd Er. unfold validateAndTransformData. rewrite Er.
    destruct data; [contradiction|]. destruct (inherited dataType); reflexivity.
  - intros rows E. unfold validateAndTransformData in E.
    destruct data as [|d0 data']; [discriminate|].
    destruct (requiredFields dataType) as [required|] eqn:Er;
      [|destruct (inherited dataType); discriminate].
    exists required. split; [reflexivity|].
    pose proof (required_plain _ _ Er) as Pl.
    set (processed := if autoMap then applyFieldMapping (d0 :: data') dataType
                      else d0 :: data') in E.
    assert (Lp : length processed = length (d0 :: data')).
    { unfold processed, applyFieldMapping.
      destruct autoMap; [|reflexivity].
      destruct (fieldMappings dataType); [apply length_map | reflexivity]. }
    set (validData := filter (fun item => forallb (fun field => has field item)
                                                  required) processed) in E.
    assert (Fv : Forall (fun r => Forall (fun field => owns field r = true)
                                         required) validData).
    { apply Forall_forall. intros r Hr. apply filter_In in Hr.
      destruct Hr as [_ Hr]. rewrite forallb_forall in Hr.
      apply Forall_forall. intros field Hf. rewrite <- has_own.
      - apply Hr. exact Hf.
      - rewrite Forall_forall in Pl. apply Pl. exact Hf. }
    assert (Lv : (length validData <= length (d0 :: data'))%nat)
      by (rewrite <- Lp; apply filter_length_le).
    assert (Nv : autoMap = true -> Forall (fun r => NoDup (map fst r)) validData).
    { intros ->. apply Forall_filter. unfold processed, applyFieldMapping.
      destruct (required_mapping _ _ Er) as (mapping & ->).
      apply Forall_forall. intros r Hr. apply in_map_iff in Hr.
      destruct Hr as (item & <- & _). apply map_item_keys. }
    destruct validData as [|x xs] eqn:Ev; [discriminate|].
    destruct (eqb dataType (lit "products")) eqn:Ed.
    2:{ injection E as <-.
        split; [discriminate|]. split; [exact Lv|]. split; [exact Fv|].
        split; [|exact Nv].
        intros ->. rewrite eqb_refl in Ed. discriminate. }
    assert (Erows : rows
                    = map (fun item =>
                             set (lit "平日单价")
                                 (Num (ToNumber (get (lit "平日单价") item))) item)
                          (x :: xs))
      by (injection E as <-; reflexivity).
    clear E. subst rows.
    + split; [discriminate|].
      split; [rewrite length_map; exact Lv|]. split.
      * apply Forall_forall. intros r Hr. apply in_map_iff in Hr.
        destruct Hr as (item & <- & Hi). rewrite Forall_forall in Fv.
        eapply Forall_impl; [|exact (Fv item Hi)].
        intros field. apply owns_set.
      * split.
        -- intros _. apply Forall_forall. intros r Hr. apply in_map_iff in Hr.
           destruct Hr as (item & <- & Hi). eexists.
           unfold get at 1. rewrite own_get_set, eqb_refl. reflexivity.
        -- intros Ea. specialize (Nv Ea). apply Forall_forall. intros r Hr.
           apply in_map_iff in Hr. destruct Hr as (item & <- & Hi).
           apply set_keys. rewrite Forall_forall in Nv. apply Nv. exact Hi.
Qed.

(** X19.  The columns the configuration does not name.  A field of a record
    that is no source field, no target field and no field with a default
    is carried over with its value, unless it is named like a property of
    [Object.prototype]: such a field is dropped. *)
Theorem other_columns (dataType : jsstring)
  (mapping : list (jsstring * jsstring)) (item : Item num) (k : jsstring) :
  fieldMappings dataType = Some mapping ->
  NoDup (map fst item) ->
  own_get k mapping = None ->
  Forall (fun e => snd e <> k) mapping ->
  own_get k (defaultValues (num:=num) dataType) = None ->
  own_get k (map_item mapping (defaultValues dataType) item)
  = if inherited k then None else own_get k item.
Proof.
  intros Em N Es Ft Ed.
  destruct (defaults_entries (num:=num) dataType) as [Ee Nd].
  rewrite <- Ee in Nd.
  rewrite (map_item_lookup _ _ _ _ N Nd). rewrite Ee, Ed.
  rewrite (mapping_entries dataType mapping Em).
  unfold has. rewrite Es.
  assert (El : mapped_lookup item k mapping None = None).
  { unfold mapped_lookup. clear Es Em.
    induction Ft as [|e l Ne Ft IH]; cbn [fold_left]; [reflexivity|].
    apply eqb_neq in Ne. rewrite Ne.
    destruct (own_get (fst e) item); exact IH. }
  rewrite El. destruct (inherited k); [reflexivity|].
  destruct (own_get k item); reflexivity.
Qed.

End Validated.

Section Extracted.

Import DataImporter.

Context {num : Type} `{JSNumber num} `{Conversions num}.

(** The [Map] after the products [ps], from the [Map] [m]. *)
Let collect (ps : list (Item num)) (m : list (JSValue num * Item num)) :=
  fold_left add_supplier ps m.

Lemma Map_has_app {V : Type} (key : JSValue num) (m m' : list (JSValue num * V)) :
  Map_has key (m ++ m') = Map_has key m || Map_has key m'.
Proof. unfold Map_has. apply existsb_app. Qed.

Lemma collect_spec (ps : list (Item num)) (m : list (JSValue num * Item num)) :
  exists added,
    collect ps m = m ++ added
    /\ Forall (fun e => exists p, In p ps /\ snd e = supplier_of p
                                  /\ fst e = get (lit "供应商名称") p
                                  /\ ToBoolean (fst e) = true
                                  /\ Map_has (fst e) m = false) added
    /\ ForallOrdPairs (fun e e' => SameValueZero (fst e) (fst e') = false) added
    /\ (forall p, In p ps -> ToBoolean (get (lit "供应商名称") p) = true ->
                  Map_has (get (lit "供应商名称") p) m = true
                  \/ exists e, In e added
                               /\ (fst e = get (lit "供应商名称") p
                                   \/ SameValueZero (fst e)
                                        (get (lit "供应商名称") p) = true))
    /\ (forall p ps', ps = p :: ps' ->
                      ToBoolean (get (lit "供应商名称") p) = true ->
                      Map_has (get (lit "供应商名称") p) m = false ->
                      exists rest, added
                                   = (get (lit "供应商名称") p, supplier_of p)
                                     :: rest).
Proof.
  revert m; induction ps as [|p ps IH]; intros m.
  - exists []. rewrite app_nil_r.
    split; [reflexivity|]. split; [constructor|]. split; [constructor|].
    split; [intros p []|]. intros p ps' E. discriminate.
  - unfold collect. cbn [fold_left]. unfold add_supplier at 2. cbv zeta.
    set (name := get (lit "供应商名称") p).
    destruct (ToBoolean name && negb (Map_has name m)) eqn:C.
    + apply andb_true_iff in C. destruct C as [T Hm].
      apply negb_true_iff in Hm.
      destruct (IH (m ++ [(name, supplier_of p)]))
        as (added & E & Fa & Po & Cov & _).
      exists ((name, supplier_of p) :: added).
      split; [unfold collect in E; rewrite E, <- app_assoc; reflexivity|].
      split; [|split; [|split]].
      * constructor.
        -- exists p. cbn [fst snd]. repeat split; auto. left. reflexivity.
        -- eapply Forall_impl; [|exact Fa].
           intros e (q & Hq & E1 & E2 & E3 & E4). exists q.
           rewrite Map_has_app in E4. apply orb_false_iff in E4.
           repeat split; try tauto. right. exact Hq.
      * constructor; [|exact Po].
        eapply Forall_impl; [|exact Fa].
        intros e (q & Hq & E1 & E2 & E3 & E4). cbn [fst].
        rewrite Map_has_app in E4. apply orb_false_iff in E4.
        destruct E4 as [_ E4]. unfold Map_has in E4. cbn [existsb fst] in E4.
        rewrite orb_false_r in E4. exact E4.
      * intros q [<-|Hq] Tq.
        -- right. exists (name, supplier_of p). split; [left; reflexivity|].
           left. reflexivity.
        -- destruct (Cov q Hq Tq) as [Hh|(e & He & Ee)].
           ++ rewrite Map_has_app in Hh. apply orb_true_iff in Hh.
              destruct Hh as [Hh|Hh]; [left; exact Hh|].
              right. exists (name, supplier_of p). split; [left; reflexivity|].
              right. unfold Map_has in Hh. cbn [existsb fst] in Hh.
              rewrite orb_false_r in Hh. exact Hh.
           ++ right. exists e. split; [right; exact He | exact Ee].
      * intros p0 ps0 E0 _ _. injection E0 as <- <-. eexists. reflexivity.
    + destruct (IH m) as (added & E & Fa & Po & Cov & _).
      exists added. split; [exact E|]. split; [|split; [|split]].
      * eapply Forall_impl; [|exact Fa].
        intros e (q & Hq & E1). exists q. split; [right; exact Hq | exact E1].
      * exact Po.
      * intros q [<-|Hq] Tq; [|apply Cov; assumption].
        left. fold name in Tq. rewrite Tq in C. cbn [andb] in C.
        apply negb_false_iff in C. exact C.
      * intros p0 ps0 E0 T0 M0. injection E0 as <- <-.
        fold name in T0, M0. rewrite T0, M0 in C. discriminate.
Qed.

(** X20.  The suppliers extracted from the products: each is made of a product
    that names a supplier, no two carry the same name, every product that
    names a supplier has its supplier among them, and the supplier of a
    name is made of the first product that carries it. *)
Theorem extractSuppliersFromProducts_spec (products : list (Item num)) :
  let name (o : Item num) := get (lit "供应商名称") o in
  let suppliers := extractSuppliersFromProducts products in
  Forall (fun s => exists p, In p products /\ s = supplier_of p
                             /\ ToBoolean (name p) = true) suppliers
  /\ ForallOrdPairs (fun s s' => SameValueZero (name s) (name s') = false)
                    suppliers
  /\ (forall p, In p products -> ToBoolean (name p) = true ->
                exists s, In s suppliers
                          /\ (name s = name p
                              \/ SameValueZero (name s) (name p) = true))
  /\ (forall before p after,
         products = before ++ p :: after ->
         ToBoolean (name p) = true ->
         Forall (fun q => SameValueZero (name q) (name p) = false) before ->
         In (supplier_of p) suppliers).
Proof.
  intros name suppliers.
  assert (Nm : forall p, name (supplier_of p) = name p).
  { intros p. unfold name, supplier_of, get at 1. cbn [own_get].
    rewrite eqb_refl. reflexivity. }
  unfold suppliers, extractSuppliersFromProducts.
  split; [|split; [|split]].
  - destruct (collect_spec products []) as (added & E & Fa & _).
    unfold collect in E. rewrite E. cbn [app].
    apply Forall_forall. intros s Hs. apply in_map_iff in Hs.
    destruct Hs as (e & <- & He). rewrite Forall_forall in Fa.
    destruct (Fa e He) as (p & Hp & E1 & E2 & E3 & _).
    exists p. unfold name. rewrite <- E2. auto.
  - destruct (collect_spec products []) as (added & E & Fa & Po & _).
    unfold collect in E. rewrite E. cbn [app].
    assert (Fn : Forall (fun e => name (snd e) = fst e) added).
    { eapply Forall_impl; [|exact Fa].
      intros e (p & _ & E1 & E2 & _). rewrite E1, Nm. symmetry. exact E2. }
    clear E Fa. induction Po as [|e l Fe Po IH]; cbn [map]; constructor.
    + apply Forall_cons_iff in Fn. destruct Fn as [En Fn].
      apply Forall_forall. intros s Hs. apply in_map_iff in Hs.
      destruct Hs as (e' & <- & He'). rewrite Forall_forall in Fe, Fn.
      rewrite En, (Fn e' He'). apply Fe. exact He'.
    + apply IH. apply Forall_cons_iff in Fn. tauto.
  - intros p Hp T.
    destruct (collect_spec products []) as (added & E & Fa & _ & Cov & _).
    unfold collect in E. rewrite E. cbn [app].
    destruct (Cov p Hp T) as [Hh|(e & He & Ee)]; [discriminate|].
    exists (snd e). split; [apply in_map; exact He|].
    rewrite Forall_forall in Fa.
    destruct (Fa e He) as (q & _ & E1 & E2 & _).
    rewrite E1, Nm. unfold name. rewrite <- E2. exact Ee.
  - intros before p after -> T Fb.
    assert (Ec : forall m, exists rest,
                 collect (before ++ p :: after) m
                 = collect before m ++ rest
                 /\ (Map_has (name p) (collect before m) = false ->
                     In (name p, supplier_of p) rest)).
    { intros m. unfold collect at 1. rewrite fold_left_app.
      fold (collect before m). fold (collect (p :: after) (collect before m)).
      destruct (collect_spec (p :: after) (collect before m))
        as (added & E & _ & _ & _ & Hd).
      exists added. split; [exact E|]. intros Hm.
      destruct (Hd p after eq_refl T Hm) as (rest & ->). left. reflexivity. }
    destruct (Ec []) as (rest & E & Hin). unfold collect in E at 1.
    rewrite E, map_app. apply in_or_app. right.
    apply (in_map snd) in Hin; [exact Hin|].
    destruct (collect_spec before []) as (added & Eb & Fa & _).
    rewrite Eb. cbn [app]. unfold Map_has.
    destruct (existsb _ added) eqn:X; [|reflexivity].
    apply existsb_exists in X. destruct X as (e & He & Se).
    rewrite Forall_forall in Fa.
    destruct (Fa e He) as (q & Hq & _ & E2 & _).
    rewrite Forall_forall in Fb. specialize (Fb q Hq). unfold name in Fb.
    rewrite E2 in Se. unfold name in Se. rewrite Fb in Se. discriminate.
Qed.

End Extracted.

Lemma products_import_witness :
  let passes (item : DataImporter.Item float) :=
    (DataImporter.owns (lit "服务名称") item
     || DataImporter.owns (lit "服务项目名称") item)
    && DataImporter.owns (lit "供应商名称") item
    && DataImporter.owns (lit "平日单价") item in
  Forall (fun item : DataImporter.Item float => NoDup (map fst item))
         Sheet.product_rows
  /\ match DataImporter.validateAndTransformData Sheet.product_rows
             (lit "products") true with
     | DataImporter.Ok rows =>
         filter passes Sheet.product_rows <> []
         /\ Forall2
              (fun item r =>
                 DataImporter.get (lit "服务名称") r
                 = DataImporter.field_or (lit "服务名称") (lit "服务项目名称") item
                 /\ DataImporter.get (lit "供应商名称") r
                    = DataImporter.get (lit "供应商名称") item
                 /\ DataImporter.get (lit "平日单价") r
                    = DataImporter.Num
                        (DataImporter.ToNumber
                           (DataImporter.get (lit "平日单价") item))
                 /\ DataImporter.get (lit "服务类型") r
                    = DataImporter.or_else
                        (DataImporter.field_or (lit "服务类型") (lit "供应商类型")
                           item)
                        (DataImporter.Str (lit "其他"))
                 /\ DataImporter.get (lit "付款方式") r
                    = DataImporter.or_else
                        (DataImporter.field_or (lit "付款方式") (lit "子项说明")
                           item)
                        (DataImporter.Str (lit "全款")))
              (filter passes Sheet.product_rows) rows
     | DataImporter.Raise e =>
         filter passes Sheet.product_rows = []
         /\ exists message, e = DataImporter.Error message
     end.
Proof.
  cbv zeta.
  assert (H1 : Forall (fun item : DataImporter.Item float => NoDup (map fst item))
                      Sheet.product_rows).
  { repeat constructor; vm_compute; intuition discriminate. }
  split; [exact H1|].
  exact (@products_import float binary64 Sheet.conversions Sheet.product_rows H1).
Defined.

Lemma suppliers_import_witness :
  let passes (item : DataImporter.Item float) :=
    DataImporter.owns (lit "供应商名称") item in
  Forall (fun item : DataImporter.Item float => NoDup (map fst item))
         Sheet.supplier_rows
  /\ match DataImporter.validateAndTransformData Sheet.supplier_rows
             (lit "suppliers") true with
     | DataImporter.Ok rows =>
         filter passes Sheet.supplier_rows <> []
         /\ Forall2
              (fun item r =>
                 DataImporter.get (lit "供应商名称") r
                 = DataImporter.get (lit "供应商名称") item
                 /\ DataImporter.get (lit "供应商类型") r
                    = DataImporter.or_else
                        (DataImporter.get (lit "供应商类型") item)
                        (DataImporter.Str (lit "其他"))
                 /\ DataImporter.get (lit "联系人") r
                    = DataImporter.or_else
                        (DataImporter.field_or (lit "联系人") (lit "主要联系人")
                           item)
                        (DataImporter.Str (lit "未提供"))
                 /\ DataImporter.get (lit "联系电话") r
                    = DataImporter.or_else
                        (DataImporter.get (lit "联系电话") item)
                        (DataImporter.Str (lit "未提供")))
              (filter passes Sheet.supplier_rows) rows
     | DataImporter.Raise e =>
         filter passes Sheet.supplier_rows = []
         /\ exists message, e = DataImporter.Error message
     end.
Proof.
  cbv zeta.
  assert (H1 : Forall (fun item : DataImporter.Item float => NoDup (map fst item))
                      Sheet.supplier_rows).
  { repeat constructor; vm_compute; intuition discriminate. }
  split; [exact H1|].
  exact (@suppliers_import float binary64 Sheet.conversions Sheet.supplier_rows H1).
Defined.

Lemma orders_import_witness :
  let passes (item : DataImporter.Item float) :=
    DataImporter.owns (lit "订单ID") item
    && DataImporter.owns (lit "订单名称") item
    && (DataImporter.owns (lit "出发日期") item
        || DataImporter.owns (lit "旅行日期") item) in
  Forall (fun item : DataImporter.Item float => NoDup (map fst item))
         Sheet.order_rows
  /\ match DataImporter.validateAndTransformData Sheet.order_rows
             (lit "orders") true with
     | DataImporter.Ok rows =>
         filter passes Sheet.order_rows <> []
         /\ Forall2
              (fun item r =>
                 DataImporter.get (lit "订单ID") r
                 = DataImporter.get (lit "订单ID") item
                 /\ DataImporter.get (lit "客户名称") r
                    = DataImporter.or_else
                        (DataImporter.field_or (lit "客户名称") (lit "客户信息")
                           item)
                        (DataImporter.Str (lit "未命名客户"))
                 /\ DataImporter.get (lit "订单名称") r
                    = DataImporter.get (lit "订单名称") item
                 /\ DataImporter.get (lit "出发日期") r
                    = DataImporter.field_or (lit "出发日期") (lit "旅行日期") item
                 /\ DataImporter.get (lit "关联的服务") r
                    = DataImporter.or_else
                        (DataImporter.get (lit "关联的服务") item)
                        (DataImporter.Str []))
              (filter passes Sheet.order_rows) rows
     | DataImporter.Raise e =>
         filter passes Sheet.order_rows = []
         /\ exists message, e = DataImporter.Error message
     end.
Proof.
  cbv zeta.
  assert (H1 : Forall (fun item : DataImporter.Item float => NoDup (map fst item))
                      Sheet.order_rows).
  { repeat constructor; vm_compute; intuition discriminate. }
  split; [exact H1|].
  exact (@orders_import float binary64 Sheet.conversions Sheet.order_rows H1).
Defined.

Lemma other_columns_witness :
  let item := hd [] Sheet.product_rows in
  DataImporter.fieldMappings (lit "products")
  = Some DataImporter.products_mapping
  /\ NoDup (map fst item)
  /\ own_get (lit "备注") DataImporter.products_mapping = None
  /\ Forall (fun e => snd e <> lit "备注") DataImporter.products_mapping
  /\ own_get (lit "备注") (@DataImporter.defaultValues float (lit "products"))
     = None
  /\ own_get (lit "备注")
       (DataImporter.map_item DataImporter.products_mapping
          (DataImporter.defaultValues (lit "products")) item)
     = if inherited (lit "备注") then None else own_get (lit "备注") item.
Proof.
  cbv zeta.
  assert (H1 : DataImporter.fieldMappings (lit "products")
               = Some DataImporter.products_mapping) by reflexivity.
  assert (H2 : NoDup (map fst (hd [] Sheet.product_rows)))
    by (repeat constructor; vm_compute; intuition discriminate).
  assert (H3 : own_get (lit "备注") DataImporter.products_mapping = None)
    by reflexivity.
  assert (H4 : Forall (fun e => snd e <> lit "备注")
                      DataImporter.products_mapping)
    by (repeat constructor; vm_compute; discriminate).
  assert (H5 : own_get (lit "备注")
                 (@DataImporter.defaultValues float (lit "products")) = None)
    by reflexivity.
  refine (conj H1 (conj H2 (conj H3 (conj H4 (conj H5 _))))).
  exact (@other_columns float binary64 (lit "products")
           DataImporter.products_mapping (hd [] Sheet.product_rows)
           (lit "备注") H1 H2 H3 H4 H5).
Defined.

(** The products of the sheet: the third row has no price and is left
    out; the first keeps the column the configuration does not know; the
    second has its price as it was, and the defaults for the type and the
    payment method. *)
Example products_import_example :
  DataImporter.validateAndTransformData Sheet.product_rows (lit "products") true
  = DataImporter.Ok
      [ [ Sheet.text "服务名称" "SvcA"; Sheet.text "供应商名称" "Acme";
          (lit "平日单价", DataImporter.Num 1000%float);
          Sheet.text "付款方式" "定金30%+尾款70%"; Sheet.text "备注" "含门票";
          Sheet.text "服务类型" "其他" ];
        [ Sheet.text "供应商名称" "Acme";
          (lit "平日单价", DataImporter.Num 500%float);
          Sheet.text "服务名称" "SvcB"; Sheet.text "付款方式" "全款";
          Sheet.text "服务类型" "其他" ] ].
Proof. vm_compute. reflexivity. Qed.

(** A column named like a property of [Object.prototype] is lost, and a
    type named like one ends in a TypeError. *)
Example prototype_names_example :
  DataImporter.validateAndTransformData
    [ [ Sheet.text "供应商名称" "Acme"; Sheet.text "toString" "x" ] ]
    (lit "suppliers") true
  = DataImporter.Ok
      [ [ Sheet.text "供应商名称" "Acme"; Sheet.text "供应商类型" "其他";
          Sheet.text "联系人" "未提供"; Sheet.text "联系电话" "未提供" ] ]
  /\ DataImporter.validateAndTransformData Sheet.supplier_rows
       (lit "constructor") true
     = DataImporter.Raise (DataImporter.Native TypeError)
  /\ DataImporter.validateAndTransformData Sheet.supplier_rows
       (lit "bookings") true
     = DataImporter.Raise (DataImporter.Error (lit "未知的数据类型: bookings")).
Proof. repeat split; vm_compute; reflexivity. Qed.

(** No row with all the columns: the message lists the fields that were
    expected and the fields of the first record. *)
Example no_valid_row_example :
  DataImporter.validateAndTransformData
    [ [ Sheet.text "订单ID" "O9" ] ] (lit "orders") true
  = DataImporter.Raise
      (DataImporter.Error
         (lit "没有有效的数据记录。" ++ [10]
          ++ lit "期望字段: 订单ID, 客户名称, 订单名称, 出发日期, 关联的服务" ++ [10]
          ++ lit "实际字段: 订单ID, 客户名称, 关联的服务")).
Proof. vm_compute. reflexivity. Qed.

(** The suppliers of the imported products: one per name, of the first
    product that carries it. *)
Example extractSuppliersFromProducts_example :
  match DataImporter.validateAndTransformData Sheet.product_rows
          (lit "products") true with
  | DataImporter.Ok rows =>
      DataImporter.extractSuppliersFromProducts rows
      = [ [ Sheet.text "供应商名称" "Acme"; Sheet.text "供应商类型" "其他";
            Sheet.text "联系人" "未提供"; Sheet.text "联系电话" "未提供" ] ]
  | DataImporter.Raise _ => False
  end.
Proof. vm_compute. reflexivity. Qed.
